(** * IAction browser controllers

    A shallow embedding of the two front-end classes of the repository,
    [AdminApp] (static/admin.js) and [IActionApp] (static/app.js), and the
    properties of their handlers.

    Conventions.  A handler is a function from the page state to the page
    state.  Whatever an [await] delivers (the outcome of a [fetch], the parsed
    body, the answer to [confirm]) is an argument of the handler, so that a
    statement quantifies over every answer of the back end.  Requests and
    console lines are appended to traces kept in the state.  The text of a
    log line is a constructor that names the message of the source. *)

From Stdlib Require Import List String Ascii Bool NArith ZArith QArith Lia.
From Stdlib Require Import Decimal DecimalFacts DecimalNat DecimalString.
Import ListNotations.
Local Close Scope Q_scope.
Local Open Scope string_scope.
Local Open Scope list_scope.

Set Warnings "-register-all".

(** ** JavaScript preliminaries *)

Module JS.

(** Errors that reach a [catch] clause; the handlers only read
    [e.message]. *)
Inductive error : Type :=
| NetworkError (message : string)   (* fetch rejected *)
| AbortError                        (* AbortController.abort() fired *)
| SyntaxError (message : string)    (* JSON.parse / response.json() *)
| TypeError (message : string)      (* property of null, not a function *)
| HttpError (status : N).           (* new Error(`Erreur HTTP: ${status}`) *)

(** How a block of statements ends: it runs to its end, throws, or leaves
    the function with [return]. *)
Inductive completion (A : Type) : Type :=
| Normal (a : A)
| Thrown (e : error)
| Returned.
Arguments Normal {A} a.
Arguments Thrown {A} e.
Arguments Returned {A}.

(** Statements over a state [S]. *)
Definition Exec (S A : Type) : Type := S -> completion A * S.

Definition ret {S A} (a : A) : Exec S A := fun s => (Normal a, s).
Definition throw {S A} (e : error) : Exec S A := fun s => (Thrown e, s).
Definition leave {S A} : Exec S A := fun s => (Returned, s).
Definition modify {S} (f : S -> S) : Exec S unit := fun s => (Normal tt, f s).
Definition gets {S A} (f : S -> A) : Exec S A := fun s => (Normal (f s), s).

Definition bind {S A B} (m : Exec S A) (k : A -> Exec S B) : Exec S B :=
  fun s =>
    match m s with
    | (Normal a, s') => k a s'
    | (Thrown e, s') => (Thrown e, s')
    | (Returned, s') => (Returned, s')
    end.

(** [try { body } catch (e) { handler e } finally { fin }] as a statement
    of a function whose result is ignored: the final state. [fin] is
    taken to end normally, as every [finally] block of the source does. *)
Definition try_catch_finally {S}
    (body : Exec S unit) (handler : error -> S -> S) (fin : S -> S)
    : S -> S :=
  fun s =>
    match body s with
    | (Thrown e, s') => fin (handler e s')
    | (_, s') => fin s'
    end.

Definition try_catch {S} (body : Exec S unit) (handler : error -> S -> S)
    : S -> S :=
  try_catch_finally body handler (fun s => s).

(** An awaited promise: settled with a value or rejected. *)
Inductive settled (A : Type) : Type :=
| Fulfilled (a : A)
| Rejected (e : error).
Arguments Fulfilled {A} a.
Arguments Rejected {A} e.

Definition await {S A} (p : settled A) : Exec S A :=
  match p with
  | Fulfilled a => ret a
  | Rejected e => throw e
  end.

(** *** Log levels, shared by both classes

    [this.logLevels = { error: 0, warning: 1, info: 2, success: 2,
    debug: 3 }].  The pages below keep [this.logLevel] as one of these
    five names.  [initLogLevelFromUrl] can also leave it one of two
    names that [logLevels] inherits, with which nothing is logged: that
    is the subject of [LogLevel], and what a handler logs is stated
    there and in the later parts through [addLog]. *)
Inductive level : Type := error_ | warning | info | success | debug.

Definition logLevels (l : level) : nat :=
  match l with
  | error_ => 0 | warning => 1 | info => 2 | success => 2 | debug => 3
  end.

Definition shouldLog (logLevel type : level) : bool :=
  Nat.leb (logLevels type) (logLevels logLevel).

Inductive console_method : Type :=
| console_error | console_warn | console_debug | console_log.

(** The [console] method that [consoleLog(type, message)] picks. *)
Definition consoleLog_method (type : level) : console_method :=
  match type with
  | error_ => console_error
  | warning => console_warn
  | debug => console_debug
  | _ => console_log
  end.

(** *** Values delivered by [JSON.parse] and by property reads *)
Inductive value : Type :=
| VUndefined
| VNull
| VBool (b : bool)
| VNum (q : Q)
| VStr (s : string)
| VArr (items : list value)
| VObj (fields : list (string * value)).

(** ToBoolean *)
Definition truthy (v : value) : bool :=
  match v with
  | VUndefined | VNull => false
  | VBool b => b
  | VNum q => negb (Qeq_bool q 0)
  | VStr s => negb (String.eqb s "")
  | VArr _ | VObj _ => true
  end.

(** [a || b] *)
Definition or_else (a b : value) : value := if truthy a then a else b.

(** The last binding of a key wins in a parsed object. *)
Fixpoint lookup (k : string) (fields : list (string * value)) : value :=
  match fields with
  | [] => VUndefined
  | (k', v) :: rest =>
      match lookup k rest with
      | VUndefined => if String.eqb k k' then v else VUndefined
      | found => found
      end
  end.

(** [v.k] for a data property [k]: reading a property of [null] or
    [undefined] throws, an object gives its binding, and the other values
    of a parsed body have none of the names the handlers read. *)
Definition get {S} (v : value) (k : string) : Exec S value :=
  match v with
  | VUndefined | VNull =>
      throw (TypeError "Cannot read properties of null or undefined")
  | VObj fields => ret (lookup k fields)
  | _ => ret VUndefined
  end.

(** *** Responses

    What the handlers read of a [Response]: the status line, the
    content-type header, and the promises of [json()] and [text()]. *)
Record response : Type := {
  ok : bool;
  status : N;
  statusText : string;
  content_type : option string;
  json : settled value;
  text : settled string
}.

(** *** Strings

    A string is kept as its UTF-8 bytes. *)

(** The length in bytes of the white space or line terminator at the
    head of the bytes, 0 when there is none: TAB, LF, VT, FF, CR, SP,
    U+00A0, U+1680, U+2000..U+200A, U+2028, U+2029, U+202F, U+205F,
    U+3000, U+FEFF. *)
Definition white_space (s : list N) : nat :=
  match s with
  | (9 | 10 | 11 | 12 | 13 | 32)%N :: _ => 1
  | 194%N :: 160%N :: _ => 2
  | 225%N :: 154%N :: 128%N :: _ => 3
  | 226%N :: 128%N :: c :: _ =>
      if ((128 <=? c) && (c <=? 138) || (c =? 168) || (c =? 169)
          || (c =? 175))%N then 3 else 0
  | 226%N :: 129%N :: 159%N :: _ => 3
  | 227%N :: 128%N :: 128%N :: _ => 3
  | 239%N :: 187%N :: 191%N :: _ => 3
  | _ => 0
  end.

(** The same at the end of the bytes, given in reverse. *)
Definition white_space_rev (s : list N) : nat :=
  match s with
  | (9 | 10 | 11 | 12 | 13 | 32)%N :: _ => 1
  | 160%N :: 194%N :: _ => 2
  | 128%N :: 154%N :: 225%N :: _ => 3
  | 159%N :: 129%N :: 226%N :: _ => 3
  | 128%N :: 128%N :: 227%N :: _ => 3
  | 191%N :: 187%N :: 239%N :: _ => 3
  | c :: 128%N :: 226%N :: _ =>
      if ((128 <=? c) && (c <=? 138) || (c =? 168) || (c =? 169)
          || (c =? 175))%N then 3 else 0
  | _ => 0
  end.

Fixpoint strip (ws : list N -> nat) (fuel : nat) (s : list N) : list N :=
  match fuel with
  | O => s
  | S fuel' =>
      match ws s with
      | O => s
      | n => strip ws fuel' (skipn n s)
      end
  end.

Definition bytes (s : string) : list N :=
  map N_of_ascii (list_ascii_of_string s).

Definition of_bytes (l : list N) : string :=
  string_of_list_ascii (map ascii_of_N l).

(** [s.trim()] *)
Definition trim (s : string) : string :=
  let front := strip white_space (String.length s) (bytes s) in
  of_bytes
    (List.rev (strip white_space_rev (String.length s) (List.rev front))).

(** [s.trimStart()], which [parseFloat] applies to its argument. *)
Definition trimStart (s : string) : string :=
  of_bytes (strip white_space (String.length s) (bytes s)).

(** [s.replace(",", ".")]: the first comma only. *)
Fixpoint replace_comma (s : string) : string :=
  match s with
  | EmptyString => EmptyString
  | String c rest =>
      if Ascii.eqb c "," then String "." rest
      else String c (replace_comma rest)
  end.

(** *** Numbers

    A number is a double, kept as the rational it denotes; the sign of
    zero is left out. *)
Inductive number : Type :=
| NaN
| Finite (q : Q)
| Infinity (negative : bool).

Definition negate (x : number) : number :=
  match x with
  | NaN => NaN
  | Finite q => Finite (Qopp q)
  | Infinity b => Infinity (negb b)
  end.

(** The double nearest to the positive rational [n / d], ties to even.
    With [2 ^ e <= n / d < 2 ^ (e + 1)] the last place of the double is
    [2 ^ u] for [u = e - 52], and -1074 at least (the subnormal numbers);
    the double is [m * 2 ^ u] for the integer [m] nearest to
    [n / (d * 2 ^ u)], and infinite from [2 ^ 1024] on. *)
Definition nearest (n d : positive) : number :=
  let zn := Zpos n in
  let zd := Zpos d in
  let e0 := (Z.log2 zn - Z.log2 zd)%Z in
  let reaches (k : Z) :=
    if (0 <=? k)%Z then (zd * 2 ^ k <=? zn)%Z
    else (zd <=? zn * 2 ^ (- k))%Z in
  let e := if reaches e0 then e0 else (e0 - 1)%Z in
  let u := Z.max (e - 52) (-1074) in
  let num := if (0 <=? u)%Z then zn else (zn * 2 ^ (- u))%Z in
  let den := if (0 <=? u)%Z then (zd * 2 ^ u)%Z else zd in
  let m := (num / den)%Z in
  let r := (num mod den)%Z in
  let m' := match (2 * r ?= den)%Z with
            | Lt => m
            | Gt => (m + 1)%Z
            | Eq => if Z.even m then m else (m + 1)%Z
            end in
  if (0 <=? u)%Z then
    if (2 ^ 1024 <=? m' * 2 ^ u)%Z then Infinity false
    else Finite (inject_Z (m' * 2 ^ u))
  else Finite (Qmake m' (Z.to_pos (2 ^ (- u)))).

(** The Number value of a mathematical value. *)
Definition to_double (q : Q) : number :=
  match Qnum q with
  | Z0 => Finite 0
  | Zpos n => nearest n (Qden q)
  | Zneg n => negate (nearest n (Qden q))
  end.

Definition digit (c : ascii) : option N :=
  let n := N_of_ascii c in
  if ((48 <=? n) && (n <=? 57))%N then Some (n - 48)%N else None.

(** DecimalDigits at the head of [s], continuing the value [acc]: the
    value, the number of digits read, the rest. *)
Fixpoint digits (s : string) (acc : N) (count : nat) : N * nat * string :=
  match s with
  | String c rest =>
      match digit c with
      | Some d => digits rest (acc * 10 + d)%N (S count)
      | None => (acc, count, s)
      end
  | EmptyString => (acc, count, s)
  end.

(** ExponentPart at the head of [s], if there is a whole one. *)
Definition exponent (s : string) : Z * string :=
  match s with
  | String c rest =>
      if Ascii.eqb c "e" || Ascii.eqb c "E" then
        let signed :=
          match rest with
          | String "+" r => (false, r)
          | String "-" r => (true, r)
          | _ => (false, rest)
          end in
        match digits (snd signed) 0 0 with
        | (_, O, _) => (0%Z, s)
        | (v, _, r) =>
            ((if fst signed then - Z.of_N v else Z.of_N v)%Z, r)
        end
      else (0%Z, s)
  | EmptyString => (0%Z, s)
  end.

(** [mantissa * 10 ^ (e - fraction_digits)] *)
Definition scale (mantissa : N) (fraction_digits : nat) (e : Z) : Q :=
  let p := (e - Z.of_nat fraction_digits)%Z in
  if (0 <=? p)%Z then inject_Z (Z.of_N mantissa * 10 ^ p)
  else Qmake (Z.of_N mantissa) (Z.to_pos (10 ^ (- p))).

Definition drop (n : nat) (s : string) : string :=
  substring n (String.length s - n) s.

(** The longest StrUnsignedDecimalLiteral at the head of [s], as the
    double nearest to its value, and what follows it. *)
Definition unsigned_decimal (s : string) : option (number * string) :=
  if String.prefix "Infinity" s then Some (Infinity false, drop 8 s)
  else
    match digits s 0 0 with
    | (i, ni, String "." r2) =>
        match digits r2 i 0 with
        | (m, nf, r3) =>
            match ni, nf with
            | O, O => None
            | _, _ =>
                let er := exponent r3 in
                Some (to_double (scale m nf (fst er)), snd er)
            end
        end
    | (i, O, _) => None
    | (i, _, r1) =>
        let er := exponent r1 in
        Some (to_double (scale i 0 (fst er)), snd er)
    end.

(** The longest StrDecimalLiteral at the head of [s]. *)
Definition decimal_literal (s : string) : option (number * string) :=
  match s with
  | String "+" r => unsigned_decimal r
  | String "-" r =>
      option_map (fun vr => (negate (fst vr), snd vr)) (unsigned_decimal r)
  | _ => unsigned_decimal s
  end.

(** [parseFloat(s)] *)
Definition parseFloat (s : string) : number :=
  match decimal_literal (trimStart s) with
  | Some (v, _) => v
  | None => NaN
  end.

Definition digit_in (base : N) (c : ascii) : option N :=
  let n := N_of_ascii c in
  let v := if ((48 <=? n) && (n <=? 57))%N then Some (n - 48)%N
           else if ((97 <=? n) && (n <=? 102))%N then Some (n - 87)%N
           else if ((65 <=? n) && (n <=? 70))%N then Some (n - 55)%N
           else None in
  match v with
  | Some d => if (d <? base)%N then Some d else None
  | None => None
  end.

Fixpoint digits_in (base : N) (s : string) (acc : option N) : option N :=
  match s with
  | EmptyString => acc
  | String c rest =>
      match digit_in base c with
      | Some d =>
          digits_in base rest
            (Some (match acc with Some a => a * base + d | None => d end)%N)
      | None => None
      end
  end.

(** NonDecimalIntegerLiteral: 0x, 0o, 0b and digits, nothing else. *)
Definition non_decimal (s : string) : number :=
  let based (base : N) (r : string) :=
    match digits_in base r None with
    | Some v => to_double (inject_Z (Z.of_N v))
    | None => NaN
    end in
  match s with
  | String "0" (String ("x" | "X") r) => based 16%N r
  | String "0" (String ("o" | "O") r) => based 8%N r
  | String "0" (String ("b" | "B") r) => based 2%N r
  | _ => NaN
  end.

(** [Number(s)] *)
Definition Number (s : string) : number :=
  let t := trim s in
  if String.eqb t "" then Finite 0
  else
    match decimal_literal t with
    | Some (v, EmptyString) => v
    | _ => non_decimal t
    end.

Definition isNaN (x : number) : bool :=
  match x with NaN => true | _ => false end.

(** [x < y] *)
Definition num_lt (x y : number) : bool :=
  match x, y with
  | NaN, _ | _, NaN => false
  | Finite a, Finite b => negb (Qle_bool b a)
  | Finite _, Infinity negative => negb negative
  | Infinity negative, Finite _ => negative
  | Infinity a, Infinity b => a && negb b
  end.

(** [x > y] *)
Definition num_gt (x y : number) : bool := num_lt y x.
(** [s.toLowerCase()] on ASCII letters, [h.includes(n)], and the test of
    [/^https?:\/\/.+/]: the scheme, then a character that is no line
    terminator (LF, CR, U+2028, U+2029). *)
Definition lower_char (c : ascii) : ascii :=
  let n := N_of_ascii c in
  if ((65 <=? n) && (n <=? 90))%N then ascii_of_N (n + 32) else c.

Fixpoint toLowerCase (s : string) : string :=
  match s with
  | EmptyString => EmptyString
  | String c rest => String (lower_char c) (toLowerCase rest)
  end.

Fixpoint includes (needle hay : string) : bool :=
  String.prefix needle hay
  || match hay with
     | EmptyString => false
     | String _ rest => includes needle rest
     end.

Definition any_char_follows (s : string) : bool :=
  match bytes s with
  | [] => false
  | (10 | 13)%N :: _ => false
  | 226%N :: 128%N :: (168 | 169)%N :: _ => false
  | _ => true
  end.

Definition is_http_url (s : string) : bool :=
  (String.prefix "http://" s && any_char_follows (drop 7 s))
  || (String.prefix "https://" s && any_char_follows (drop 8 s)).

Definition nonempty_s (s : string) : bool := negb (String.eqb s "").

(** [x === s] for a string [s]. *)
Definition is_string (x : value) (s : string) : bool :=
  match x with
  | VStr t => String.eqb t s
  | _ => false
  end.
End JS.

Module Import JSNotations.
Declare Scope exec_scope.
Delimit Scope exec_scope with exec.
Notation "x <- m ;; k" := (JS.bind m (fun x => k))
  (at level 100, m at next level, right associativity) : exec_scope.
Notation "m ;;; k" := (JS.bind m (fun _ => k))
  (at level 100, right associativity) : exec_scope.
End JSNotations.

(** ** AdminApp (static/admin.js): definitions *)

Module Admin.
Import JS.

(** [document.getElementById] for the buttons and status badges the
    handlers touch. *)
Inductive button : Type :=
| restart_app | test_ai | test_mqtt | test_rtsp | test_cameras.

Inductive badge_id : Type :=
| test_ai_status | test_mqtt_status | test_rtsp_status | test_cameras_status.

(** The class [setBadge] leaves on a badge. *)
Inductive badge_class : Type :=
| bg_secondary | bg_success | bg_danger | bg_warning | bg_info.

(** The [state] argument of [setBadge]. *)
Inductive badge_state : Type :=
| st_loading | st_ok | st_error | st_info | st_idle | st_warning.

Record badge : Type := { badge_cls : badge_class; badge_text : string }.

(** Controls.  [f_min] and [f_max] are the attributes as the DOM gives
    them, [""] when absent; [f_shown] is [offsetParent !== null];
    [f_valid] and [f_invalid] are the classes is-valid and is-invalid. *)
Inductive input_type : Type :=
| type_text | type_url | type_number | type_password | type_select.

Record field : Type := {
  f_name : string;
  f_type : input_type;
  f_value : string;
  f_min : string;
  f_max : string;
  f_shown : bool;
  f_valid : bool;
  f_invalid : bool
}.

(** A camera form fragment: the [div] with its data-camera-id and its
    input and select elements in document order. *)
Record fragment : Type := { camera_id : string; inputs : list field }.

(** A saved camera descriptor: the properties of the object in insertion
    order, the keys distinct.  (A name that is an array index would come
    first in a JavaScript object; the names of the fragments start with
    "camera_".) *)
Definition camera : Type := list (string * string).

(** Log lines of the handlers modelled below, named after their text. *)
Inductive msg : Type :=
| Restarting                    (* "Redémarrage de l'application..." *)
| RestartInitiated              (* "Redémarrage initié" *)
| WaitingForServer              (* "Attente du retour du serveur..." *)
| ServerBackReloading           (* "Serveur redémarré - rechargement..." *)
| CannotConfirmRestart          (* "Impossible de confirmer le redémarrage.
                                   Rechargez la page manuellement." *)
| RestartFailed (e : error)     (* "Erreur lors du redémarrage: ${e.message}" *)
| RestartFailedConsole (e : error) (* console.error("Erreur lors du
                                   redémarrage:", error) *)
| CameraExists (cameraId : string) (* "Caméra ${cameraId} existe déjà,
                                   évitement du doublon" *)
| CameraAdded (cameraId : string)   (* `Caméra "${cameraId}" ajoutée` *)
| CameraRemoved (cameraId : string) (* `Caméra "${cameraId}" supprimée` *)
| CamerasReset                  (* "Configuration des caméras réinitialisée" *)
| IntervalFieldMissing (cameraId : string)
| IntervalInvalid (cameraId : string) (* "Intervalle invalide pour ... Doit
                                   être entre 0.1 et 60 secondes" *)
| IntervalUpdating (cameraId : string) (interval : Q)
| IntervalUpdated (cameraId : string) (interval : Q)
| IntervalRefused (cameraId : string) (message : value)
| IntervalCommError (cameraId : string) (e : error)
| SavingConfiguration           (* "Sauvegarde de la configuration..." *)
| ConfigurationInvalid          (* "Configuration invalide, vérifiez les
                                   champs en rouge" *)
| OpenAiKeyRequired | OllamaModelRequired | OllamaUrlInvalid
| MqttBrokerRequired
| AiStart | AiOk (api_mode current_model : value) | AiKo (reason : value)
| AiThrown (e : error)
| MqttStart | MqttOk (mqtt : value) | MqttNotConnected (mqtt : value)
| MqttKo (reason : value) | MqttThrown (e : error)
| RtspStart | RtspStatus (url rtsp : value) | RtspKo (reason : value)
| RtspThrown (e : error)
| CamerasStart | NoExtraCamera | CamerasTesting (count : nat)
| CamerasAllOk (count : nat) | CamerasPartial (succeeded total : nat)
| CameraResult (result : value) | CamerasKo (reason : value)
| CamerasThrown (e : error)
| DebugData (data : value).     (* consoleLog("debug", data) *)

Inductive http_method : Type := GET | POST.

(** A camera as posted to the back end: what [testCameras] (and
    [loadCamerasConfiguration] of app.js) make of a saved descriptor.
    [None] is [undefined], which [JSON.stringify] leaves out. *)
Record camera_config : Type := {
  cfg_id : string;
  cfg_name : string;
  cfg_mode : string;
  cfg_rtsp_url : option string;
  cfg_rtsp_username : option string;
  cfg_rtsp_password : option string;
  cfg_ha_entity : option string;
  cfg_ha_attr : option string;
  cfg_ha_interval : option string
}.

(** A value of the posted configuration: a form value, or the JSON text of
    the camera descriptors, kept as the array it denotes. *)
Inductive config_value : Type :=
| FormValue (s : string)
| CamerasJson (cs : list camera).

Inductive body : Type :=
| NoBody
| ConfigBody (config : list (string * config_value))
| IntervalBody (camera_id : string) (interval : Q)
| RtspBody (url : option string)
| CamerasBody (cameras : list camera_config).

Record request : Type := {
  req_method : http_method;
  req_url : string;
  req_body : body;
  req_timeout : option N        (* ms, for fetchWithTimeout *)
}.

(** The admin page.  [additional_cameras] is the item of that name in
    localStorage; only [saveCamerasConfiguration] writes it, so the model
    keeps the array that [JSON.parse] gives back for the text that
    [JSON.stringify] wrote (arrays of objects with string values go
    through unchanged). *)
Record page : Type := {
  logLevel : level;
  console : list (console_method * msg);
  requests : list request;
  reloaded : bool;
  disabled : button -> option bool;
  badges : badge_id -> option badge;
  cameras : list fragment;
  additional_cameras : option (list camera);
  form : list field
}.

Definition with_logLevel (f : (level) -> level) (p : page) : page :=
  {| logLevel := f (logLevel p); console := console p;
     requests := requests p; reloaded := reloaded p;
     disabled := disabled p; badges := badges p; cameras := cameras p;
     additional_cameras := additional_cameras p; form := form p |}.

Definition with_console (f : (list (console_method * msg)) -> list (console_method * msg)) (p : page) : page :=
  {| logLevel := logLevel p; console := f (console p);
     requests := requests p; reloaded := reloaded p;
     disabled := disabled p; badges := badges p; cameras := cameras p;
     additional_cameras := additional_cameras p; form := form p |}.

Definition with_requests (f : (list request) -> list request) (p : page) : page :=
  {| logLevel := logLevel p; console := console p;
     requests := f (requests p); reloaded := reloaded p;
     disabled := disabled p; badges := badges p; cameras := cameras p;
     additional_cameras := additional_cameras p; form := form p |}.

Definition with_reloaded (f : (bool) -> bool) (p : page) : page :=
  {| logLevel := logLevel p; console := console p; requests := requests p;
     reloaded := f (reloaded p); disabled := disabled p;
     badges := badges p; cameras := cameras p;
     additional_cameras := additional_cameras p; form := form p |}.

Definition with_disabled (f : (button -> option bool) -> button -> option bool) (p : page) : page :=
  {| logLevel := logLevel p; console := console p; requests := requests p;
     reloaded := reloaded p; disabled := f (disabled p);
     badges := badges p; cameras := cameras p;
     additional_cameras := additional_cameras p; form := form p |}.

Definition with_badges (f : (badge_id -> option badge) -> badge_id -> option badge) (p : page) : page :=
  {| logLevel := logLevel p; console := console p; requests := requests p;
     reloaded := reloaded p; disabled := disabled p;
     badges := f (badges p); cameras := cameras p;
     additional_cameras := additional_cameras p; form := form p |}.

Definition with_cameras (f : (list fragment) -> list fragment) (p : page) : page :=
  {| logLevel := logLevel p; console := console p; requests := requests p;
     reloaded := reloaded p; disabled := disabled p; badges := badges p;
     cameras := f (cameras p); additional_cameras := additional_cameras p;
     form := form p |}.

Definition with_additional_cameras (f : (option (list camera)) -> option (list camera)) (p : page) : page :=
  {| logLevel := logLevel p; console := console p; requests := requests p;
     reloaded := reloaded p; disabled := disabled p; badges := badges p;
     cameras := cameras p; additional_cameras := f (additional_cameras p);
     form := form p |}.

Definition with_form (f : (list field) -> list field) (p : page) : page :=
  {| logLevel := logLevel p; console := console p; requests := requests p;
     reloaded := reloaded p; disabled := disabled p; badges := badges p;
     cameras := cameras p; additional_cameras := additional_cameras p;
     form := f (form p) |}.

Definition button_eqb (a b : button) : bool :=
  match a, b with
  | restart_app, restart_app | test_ai, test_ai | test_mqtt, test_mqtt
  | test_rtsp, test_rtsp | test_cameras, test_cameras => true
  | _, _ => false
  end.

(** [const b = document.getElementById(id); if (b) b.disabled = v] *)
Definition set_disabled (b : button) (v : bool) (p : page) : page :=
  with_disabled
    (fun old b' =>
       if button_eqb b b'
       then match old b' with Some _ => Some v | None => None end
       else old b') p.

(** [consoleLog(type, message)] *)
Definition consoleLog (type : level) (m : msg) (p : page) : page :=
  with_console (fun c => c ++ [(consoleLog_method type, m)]) p.

(** [addLog(message, type)]: console output only, filtered by level. *)
Definition addLog (m : msg) (type : level) (p : page) : page :=
  if shouldLog (logLevel p) type then consoleLog type m p else p.

Definition console_error_line (m : msg) (p : page) : page :=
  with_console (fun c => c ++ [(console_error, m)]) p.

Definition send (r : request) (p : page) : page :=
  with_requests (fun rs => rs ++ [r]) p.

(** The admin page before any script ran on it, at the default log
    level, with every button and badge in place. *)
Definition fresh_page : page :=
  {| logLevel := info; console := []; requests := []; reloaded := false;
     disabled := fun _ => Some false;
     badges := fun _ => Some {| badge_cls := bg_secondary; badge_text := "" |};
     cameras := []; additional_cameras := None; form := [] |}.

(** *** Restart and health poll *)

(** What the network does with one request when nothing aborts it: the
    promise of [fetch] and the time it takes to settle, in ms. *)
Record exchange : Type := { reply : settled response; latency : N }.

(** [fetchWithTimeout(resource, { timeout })]: the abort timer rejects a
    fetch that has not settled after [timeout] ms.  Gives what the
    [await] delivers and how long it took. *)
Definition fetchWithTimeout (x : exchange) (timeout : N)
    : settled response * N :=
  if (latency x <? timeout)%N then (reply x, latency x)
  else (Rejected AbortError, timeout).

(** One round of the poll as the network sees it: the exchange, and by how
    much the 1000 ms timer of [setTimeout(r, 1000)] fires late. *)
Record probe : Type := { probe_exchange : exchange; timer_lag : N }.

(** The network during the poll: what the probe number [attempt], issued
    [elapsed] ms after the start of the poll, meets. *)
Definition network : Type := nat -> N -> probe.

Definition metrics_probe : request :=
  {| req_method := GET; req_url := "/api/metrics"; req_body := NoBody;
     req_timeout := Some 2000%N |}.

(** The [while] loop of [waitForServerBack].  [elapsed] is
    [Date.now() - start], a whole number of ms, so that
    [(Date.now() - start) / 1000 < maxSeconds] is
    [elapsed < maxSeconds * 1000].  [None]: out of fuel. *)
Fixpoint waitLoop (fuel : nat) (net : network) (attempt : nat)
    (elapsed maxSeconds : N) (p : page) : option (bool * page) :=
  match fuel with
  | O => None
  | S fuel' =>
      if (elapsed <? maxSeconds * 1000)%N then
        let pr := net attempt elapsed in
        let res := fetchWithTimeout (probe_exchange pr) 2000 in
        let p' := send metrics_probe p in
        let next := (elapsed + snd res + 1000 + timer_lag pr)%N in
        match fst res with
        | Fulfilled r =>
            if ok r then Some (true, p')
            else waitLoop fuel' net (S attempt) next maxSeconds p'
        | Rejected _ =>
            waitLoop fuel' net (S attempt) next maxSeconds p'
        end
      else Some (false, p)
  end.

(** [waitForServerBack(maxSeconds)]; every round takes a second at
    least, which bounds the number of rounds (see
    [AdminFacts.waitForServerBack_total]). *)
Definition waitForServerBack (net : network) (maxSeconds : N) (p : page)
    : option (bool * page) :=
  waitLoop (S (N.to_nat maxSeconds)) net 0 0 maxSeconds p.

Record restart_env : Type := {
  confirm_answer : bool;               (* confirm("Êtes-vous sûr ...") *)
  restart_reply : settled response;    (* fetch("/api/admin/restart") *)
  health : network
}.

Definition restart_request : request :=
  {| req_method := POST; req_url := "/api/admin/restart";
     req_body := NoBody; req_timeout := None |}.

Definition restart_catch (e : error) (p : page) : page :=
  console_error_line (RestartFailedConsole e)
    (addLog (RestartFailed e) error_ p).

Definition restart_finally (p : page) : page :=
  set_disabled restart_app false p.

(** [restartApplication()] *)
Definition restartApplication (env : restart_env) (p : page) : option page :=
  if negb (confirm_answer env) then Some p
  else
    let p1 := send restart_request
                (set_disabled restart_app true (addLog Restarting info p)) in
    match restart_reply env with
    | Rejected e => Some (restart_finally (restart_catch e p1))
    | Fulfilled response =>
        if ok response then
          let p2 := addLog WaitingForServer info
                      (addLog RestartInitiated success p1) in
          match waitForServerBack (health env) 60 p2 with
          | None => None
          | Some (true, p3) =>
              Some (restart_finally
                      (with_reloaded (fun _ => true)
                         (addLog ServerBackReloading success p3)))
          | Some (false, p3) =>
              Some (restart_finally
                      (addLog CannotConfirmRestart warning p3))
          end
        else
          Some (restart_finally
                  (restart_catch (HttpError (status response)) p1))
    end.

(** *** Camera fragments *)

(** [`${n}`] for a count. *)
Definition decimal (n : nat) : string :=
  NilZero.string_of_uint (Nat.to_uint n).

Definition control (name : string) (type : input_type) (value : string)
    (min max : string) (shown : bool) : field :=
  {| f_name := name; f_type := type; f_value := value;
     f_min := min; f_max := max; f_shown := shown;
     f_valid := false; f_invalid := false |}.

(** The controls of the markup that [addCameraConfig] renders for
    [cameraId], in document order.  The RTSP group is displayed, the
    Home Assistant group carries [display: none]; both groups hold a
    control named [`${cameraId}_analysis_interval`]. *)
Definition camera_template (cameraId : string) (number : nat) : list field :=
  let named (attr : string) := (cameraId ++ attr)%string in
  [ control (named "_name") type_text ("Caméra " ++ decimal number)%string
      "" "" true;
    control (named "_mode") type_select "rtsp" "" "" true;
    control (named "_id") type_text cameraId "" "" true;
    control (named "_rtsp_url") type_url "" "" "" true;
    control (named "_rtsp_username") type_text "" "" "" true;
    control (named "_rtsp_password") type_password "" "" "" true;
    control (named "_analysis_interval") type_number "2.0" "0.1" "60" true;
    control (named "_ha_entity") type_text "" "" "" false;
    control (named "_ha_attr") type_text "entity_picture" "" "" false;
    control (named "_ha_interval") type_number "1.0" "0.5" "" false;
    control (named "_analysis_interval") type_number "2.0" "0.1" "60" false ].

(** [document.querySelector(`[data-camera-id="${cameraId}"]`)] finds an
    element.  The fragments are the only elements of the admin page that
    carry the attribute. *)
Definition has_camera (cameraId : string) (p : page) : bool :=
  existsb (fun f => String.eqb (camera_id f) cameraId) (cameras p).

Definition next_camera_id (p : page) : string :=
  ("camera_" ++ decimal (List.length (cameras p) + 1))%string.

(** [addCameraConfig()] *)
Definition addCameraConfig (p : page) : page :=
  let cameraCount := List.length (cameras p) in
  let cameraId := ("camera_" ++ decimal (cameraCount + 1))%string in
  if has_camera cameraId p then
    with_console (fun c => c ++ [(console_warn, CameraExists cameraId)]) p
  else
    addLog (CameraAdded cameraId) success
      (with_cameras
         (fun cs => cs ++ [{| camera_id := cameraId;
                              inputs := camera_template cameraId
                                          (cameraCount + 1) |}]) p).

(** [camera[k] = v] *)
Fixpoint obj_set (k v : string) (o : camera) : camera :=
  match o with
  | [] => [(k, v)]
  | (k', v') :: rest =>
      if String.eqb k k' then (k, v) :: rest
      else (k', v') :: obj_set k v rest
  end.

(** The descriptor [saveCamerasConfiguration] collects from a fragment:
    the id, then every control that has a name and a value. *)
Definition collect (f : fragment) : camera :=
  fold_left
    (fun camera input =>
       if negb (String.eqb (f_name input) "")
          && negb (String.eqb (f_value input) "")
       then obj_set (f_name input) (f_value input) camera
       else camera)
    (inputs f) [("id", camera_id f)].

(** [saveCamerasConfiguration()]: the descriptors, also written to
    localStorage. *)
Definition saveCamerasConfiguration (p : page) : list camera * page :=
  let saved := map collect (cameras p) in
  (saved, with_additional_cameras (fun _ => Some saved) p).

(** [cameraDiv.remove()] on the first fragment with the id. *)
Fixpoint remove_fragment (cameraId : string) (cs : list fragment)
    : option (list fragment) :=
  match cs with
  | [] => None
  | f :: rest =>
      if String.eqb (camera_id f) cameraId then Some rest
      else option_map (cons f) (remove_fragment cameraId rest)
  end.

(** [removeCameraConfig(cameraId)] *)
Definition removeCameraConfig (cameraId : string) (p : page) : page :=
  match remove_fragment cameraId (cameras p) with
  | Some rest =>
      snd (saveCamerasConfiguration
             (addLog (CameraRemoved cameraId) info
                (with_cameras (fun _ => rest) p)))
  | None => p
  end.

(** [clearExistingCameras()] *)
Definition clearExistingCameras (p : page) : page :=
  with_cameras (fun _ => []) p.

(** [clearCamerasStorage()] *)
Definition clearCamerasStorage (p : page) : page :=
  addLog CamerasReset info (with_additional_cameras (fun _ => None) p).

(** [input.value = v] on the first control named [key], if there is
    one. *)
Fixpoint set_named (key v : string) (fs : list field) : option (list field) :=
  match fs with
  | [] => None
  | i :: rest =>
      if String.eqb (f_name i) key then
        Some ({| f_name := f_name i; f_type := f_type i; f_value := v;
                 f_min := f_min i; f_max := f_max i; f_shown := f_shown i;
                 f_valid := f_valid i; f_invalid := f_invalid i |} :: rest)
      else option_map (cons i) (set_named key v rest)
  end.

(** The same over the fragments: [document.querySelector(`[name="${key}"]`)]
    takes the first match in document order.  No element outside the
    fragments is taken to carry the name of a descriptor key. *)
Fixpoint set_in_fragments (key v : string) (cs : list fragment)
    : option (list fragment) :=
  match cs with
  | [] => None
  | f :: rest =>
      match set_named key v (inputs f) with
      | Some fs => Some ({| camera_id := camera_id f; inputs := fs |} :: rest)
      | None => option_map (cons f) (set_in_fragments key v rest)
      end
  end.

(** [populateCameraFields(camera)] *)
Definition populateCameraFields (camera : camera) (p : page) : page :=
  fold_left
    (fun p kv =>
       match set_in_fragments (fst kv) (snd kv) (cameras p) with
       | Some cs => with_cameras (fun _ => cs) p
       | None => p
       end)
    camera p.

(** [loadCamerasConfiguration()] *)
Definition loadCamerasConfiguration (p : page) : page :=
  let p0 := clearExistingCameras p in
  match additional_cameras p0 with
  | Some cameras =>
      fold_left
        (fun p camera => populateCameraFields camera (addCameraConfig p))
        cameras p0
  | None => p0
  end.

Definition camera_ids (p : page) : list string :=
  map camera_id (cameras p).

(** Observers for the statements about saving and loading.  The value of
    the first control with a name, as [querySelector] finds it ([""] when
    there is none); the id of the fragment number [k]; the names, after
    the id, of the controls that make up a descriptor apart from the
    analysis interval. *)
Fixpoint field_value (name : string) (fs : list field) : string :=
  match fs with
  | [] => ""
  | i :: rest =>
      if String.eqb (f_name i) name then f_value i
      else field_value name rest
  end.

Definition camera_name (k : nat) : string := ("camera_" ++ decimal k)%string.

Definition descriptor_attrs : list string :=
  ["_name"; "_mode"; "_id"; "_rtsp_url"; "_rtsp_username"; "_rtsp_password";
   "_ha_entity"; "_ha_attr"; "_ha_interval"].

(** The fragments are numbered from [k] on and hold the controls of the
    markup, whatever their values: the state of a container to which
    cameras were added, and from which none but the last was removed. *)
Fixpoint numbered_from (k : nat) (cs : list fragment) : Prop :=
  match cs with
  | [] => True
  | f :: rest =>
      camera_id f = camera_name k /\
      map f_name (inputs f)
        = map f_name (camera_template (camera_name k) k) /\
      numbered_from (S k) rest
  end.

(** The user leaves a control of a fragment empty, or types into it. *)
Definition type_into (name v : string) (p : page) : page :=
  match set_in_fragments name v (cameras p) with
  | Some cs => with_cameras (fun _ => cs) p
  | None => p
  end.

(** A page load: the script state is new, localStorage stays. *)
Definition reload_page (p : page) : page :=
  loadCamerasConfiguration
    (with_additional_cameras (fun _ => additional_cameras p) fresh_page).

(** *** Field validation *)

Definition config_request (config : list (string * config_value)) : request :=
  {| req_method := POST; req_url := "/api/admin/config";
     req_body := ConfigBody config; req_timeout := None |}.

Definition interval_request (cameraId : string) (interval : Q) : request :=
  {| req_method := POST; req_url := "/api/camera/interval";
     req_body := IntervalBody cameraId interval; req_timeout := None |}.

Definition nonempty (s : string) : bool := negb (String.eqb s "").

Definition set_classes (valid invalid : bool) (f : field) : field :=
  {| f_name := f_name f; f_type := f_type f; f_value := f_value f;
     f_min := f_min f; f_max := f_max f; f_shown := f_shown f;
     f_valid := valid; f_invalid := invalid |}.

Definition set_value (v : string) (f : field) : field :=
  {| f_name := f_name f; f_type := f_type f; f_value := v;
     f_min := f_min f; f_max := f_max f; f_shown := f_shown f;
     f_valid := f_valid f; f_invalid := f_invalid f |}.

Definition is_url (t : input_type) : bool :=
  match t with type_url => true | _ => false end.

Definition is_number (t : input_type) : bool :=
  match t with type_number => true | _ => false end.

Section Validation.

(** [isValidUrl(string)]: whether [new URL(string)] succeeds.  The URL
    parser is the browser's. *)
Variable isValidUrl : string -> bool.

(** The block of [validateField] for [field.type === "number"], entered
    with a value that is not empty: the comma is replaced by a period,
    the control shows the replaced text, and the number is checked
    against the min and max attributes.  [false]: the function returns
    false from inside the block. *)
Definition validate_number (fld : field) : bool * field :=
  let raw := replace_comma (trim (f_value fld)) in
  let fld :=
    if negb (String.eqb raw (f_value fld)) then set_value raw fld
    else fld in
  let val := Number raw in
  if isNaN val then (false, set_classes (f_valid fld) true fld)
  else
    let hasMin := nonempty (f_min fld) in
    let hasMax := nonempty (f_max fld) in
    if (hasMin && num_lt val (Number (f_min fld)))
       || (hasMax && num_gt val (Number (f_max fld)))
    then (false, set_classes (f_valid fld) true fld)
    else (true, fld).

(** [validateField(field)]: the result and the control afterwards. *)
Definition validateField (fld : field) : bool * field :=
  let fld := set_classes false false fld in
  if negb (f_shown fld) then (true, fld)
  else if is_url (f_type fld) && nonempty (f_value fld)
          && negb (isValidUrl (f_value fld))
  then (false, set_classes (f_valid fld) true fld)
  else
    let checked :=
      if is_number (f_type fld) && nonempty (f_value fld)
      then validate_number fld
      else (true, fld) in
    if fst checked then
      (true,
       if nonempty (f_value (snd checked))
       then set_classes true (f_invalid (snd checked)) (snd checked)
       else snd checked)
    else checked.

(** [config[key] = value] and [config[key]] *)
Fixpoint config_set (k : string) (v : config_value)
    (c : list (string * config_value)) : list (string * config_value) :=
  match c with
  | [] => [(k, v)]
  | (k', v') :: rest =>
      if String.eqb k k' then (k, v) :: rest
      else (k', v') :: config_set k v rest
  end.

Fixpoint config_get (k : string) (c : list (string * config_value))
    : option config_value :=
  match c with
  | [] => None
  | (k', v) :: rest => if String.eqb k k' then Some v else config_get k rest
  end.

(** [config.k === s], [!config.k], [isValidUrl(config.k)]; the JSON text
    of an array is none of the strings compared with, is not empty, and
    is no URL. *)
Definition config_is (k s : string) (c : list (string * config_value))
    : bool :=
  match config_get k c with
  | Some (FormValue v) => String.eqb v s
  | _ => false
  end.

Definition config_truthy (k : string) (c : list (string * config_value))
    : bool :=
  match config_get k c with
  | Some (FormValue v) => nonempty v
  | Some (CamerasJson _) => true
  | None => false
  end.

Definition config_valid_url (k : string)
    (c : list (string * config_value)) : bool :=
  match config_get k c with
  | Some (FormValue v) => isValidUrl v
  | _ => false
  end.

Definition log_if (b : bool) (m : msg) (type : level) (p : page) : page :=
  if b then addLog m type p else p.

(** [validateConfiguration(config)]: every control of the form is
    validated, then the advisory checks log their warnings. *)
Definition validateConfiguration (config : list (string * config_value))
    (p : page) : bool * page :=
  let results := map validateField (form p) in
  let isValid := forallb fst results in
  let p := with_form (fun _ => map snd results) p in
  let p := log_if (config_is "AI_API_MODE" "openai" config
                   && negb (config_truthy "OPENAI_API_KEY" config))
             OpenAiKeyRequired warning p in
  let ollama := config_is "AI_API_MODE" "ollama" config in
  let p := log_if (ollama && negb (config_truthy "OLLAMA_MODEL" config))
             OllamaModelRequired warning p in
  let bad_url := ollama && config_truthy "OLLAMA_URL" config
                 && negb (config_valid_url "OLLAMA_URL" config) in
  let p := log_if bad_url OllamaUrlInvalid warning p in
  let p := log_if (negb (config_truthy "MQTT_BROKER" config))
             MqttBrokerRequired warning p in
  (isValid && negb bad_url, p).

(** The [config] object that [saveConfiguration] builds from the
    entries of [new FormData(form)] and the camera descriptors. *)
Definition save_payload (formData : list (string * string)) (p : page)
    : list (string * config_value) :=
  let config :=
    fold_left (fun c kv => config_set (fst kv) (FormValue (snd kv)) c)
      formData [] in
  let additionalCameras := fst (saveCamerasConfiguration p) in
  if Nat.ltb 0 (List.length additionalCameras)
  then config_set "ADDITIONAL_CAMERAS" (CamerasJson additionalCameras)
         config
  else config.

(** [saveConfiguration()] up to its [fetch]: the handling of the reply
    (log lines and [hotReload]) posts no configuration and is left
    out. *)
Definition saveConfiguration (formData : list (string * string))
    (p : page) : page :=
  let p0 := addLog SavingConfiguration info p in
  let config := save_payload formData p0 in
  let p1 := snd (saveCamerasConfiguration p0) in
  let checked := validateConfiguration config p1 in
  if negb (fst checked) then
    addLog ConfigurationInvalid error_ (snd checked)
  else
    send (config_request config) (snd checked).

End Validation.

(** *** The "apply interval" action *)

Fixpoint find_named (name : string) (fs : list field) : option field :=
  match fs with
  | [] => None
  | i :: rest =>
      if String.eqb (f_name i) name then Some i else find_named name rest
  end.

Fixpoint find_in_fragments (name : string) (cs : list fragment)
    : option field :=
  match cs with
  | [] => None
  | f :: rest =>
      match find_named name (inputs f) with
      | Some i => Some i
      | None => find_in_fragments name rest
      end
  end.

(** The end of the promise chain of [applyCameraInterval]:
    [.then(response => response.json()).then(data => ...).catch(...)].
    The two seconds for which the button reads "Appliqué" are left out. *)
Definition interval_reply (cameraId : string) (interval : Q)
    (reply : settled response) : page -> page :=
  try_catch
    (response <- await reply ;;
     data <- await (json response) ;;
     ok <- get data "success" ;;
     if truthy ok then
       modify (addLog (IntervalUpdated cameraId interval) success)
     else
       message <- get data "message" ;;
       modify (addLog (IntervalRefused cameraId message) error_))%exec
    (fun e => addLog (IntervalCommError cameraId e) error_).

(** [applyCameraInterval(cameraId)] *)
Definition applyCameraInterval (cameraId : string)
    (reply : settled response) (p : page) : page :=
  match find_in_fragments (cameraId ++ "_analysis_interval")%string
          (cameras p) with
  | None => addLog (IntervalFieldMissing cameraId) error_ p
  | Some input =>
      let intervalValue := parseFloat (f_value input) in
      if isNaN intervalValue
         || num_lt intervalValue (to_double (1 # 10))
         || num_gt intervalValue (Finite (inject_Z 60))
      then addLog (IntervalInvalid cameraId) error_ p
      else
        match intervalValue with
        | Finite interval =>
            interval_reply cameraId interval reply
              (send (interval_request cameraId interval)
                 (addLog (IntervalUpdating cameraId interval) info p))
        | _ => p    (* not reached: only a finite number passes the test *)
        end
  end.

(** *** Connectivity tests *)

Definition badge_eqb (a b : badge_id) : bool :=
  match a, b with
  | test_ai_status, test_ai_status | test_mqtt_status, test_mqtt_status
  | test_rtsp_status, test_rtsp_status
  | test_cameras_status, test_cameras_status => true
  | _, _ => false
  end.

(** [map[state] || "bg-secondary"] in [setBadge]: the loading state is
    shown with the class bg-warning, and a state that the map does not
    know, such as "warning", with bg-secondary. *)
Definition badge_class_of (state : badge_state) : badge_class :=
  match state with
  | st_loading => bg_warning
  | st_ok => bg_success
  | st_error => bg_danger
  | st_info => bg_info
  | st_idle | st_warning => bg_secondary
  end.

(** [setBadge(badgeId, state, text, title)]; the title attribute is not
    kept. *)
Definition setBadge (badgeId : badge_id) (state : badge_state)
    (text : string) (p : page) : page :=
  with_badges
    (fun old id =>
       if badge_eqb badgeId id then
         match old id with
         | Some _ => Some {| badge_cls := badge_class_of state;
                             badge_text := text |}
         | None => None
         end
       else old id) p.

Definition get_request (url : string) (timeout : N) : request :=
  {| req_method := GET; req_url := url; req_body := NoBody;
     req_timeout := Some timeout |}.

(** [testAI()] *)
Definition testAI (x : exchange) (p : page) : page :=
  let p := set_disabled test_ai true
             (setBadge test_ai_status st_loading "..." p) in
  try_catch_finally
    (modify (addLog AiStart info) ;;;
     modify (send (get_request "/api/admin/ai_test" 5000)) ;;;
     res <- await (fst (fetchWithTimeout x 5000)) ;;
     data <- await (json res) ;;
     succeeded <- get data "success" ;;
     (if truthy succeeded then
        api_mode <- get data "api_mode" ;;
        current_model <- get data "current_model" ;;
        modify (setBadge test_ai_status st_ok "OK") ;;;
        modify (addLog (AiOk api_mode current_model) success)
      else
        reason <- get data "error" ;;
        modify (setBadge test_ai_status st_error "KO") ;;;
        modify (addLog (AiKo (or_else reason (VStr "Erreur inconnue")))
                  error_)) ;;;
     modify (consoleLog debug (DebugData data)))%exec
    (fun e p => addLog (AiThrown e) error_
                  (setBadge test_ai_status st_error "KO" p))
    (set_disabled test_ai false)
    p.

(** [testMQTT()] *)
Definition testMQTT (x : exchange) (p : page) : page :=
  let p := set_disabled test_mqtt true
             (setBadge test_mqtt_status st_loading "..." p) in
  try_catch_finally
    (modify (addLog MqttStart info) ;;;
     modify (send (get_request "/api/admin/mqtt_test" 5000)) ;;;
     res <- await (fst (fetchWithTimeout x 5000)) ;;
     data <- await (json res) ;;
     succeeded <- get data "success" ;;
     s <- (if truthy succeeded then get data "status" else ret VUndefined) ;;
     if truthy succeeded && truthy s then
       connected <- get s "connected" ;;
       (if truthy connected then
          modify (setBadge test_mqtt_status st_ok "OK") ;;;
          modify (addLog (MqttOk s) success)
        else
          modify (setBadge test_mqtt_status st_error "KO") ;;;
          modify (addLog (MqttNotConnected s) error_)) ;;;
       modify (consoleLog debug (DebugData s))
     else
       reason <- get data "error" ;;
       modify (setBadge test_mqtt_status st_error "KO") ;;;
       modify (addLog (MqttKo (or_else reason (VStr "Erreur inconnue")))
                 error_))%exec
    (fun e p => addLog (MqttThrown e) error_
                  (setBadge test_mqtt_status st_error "KO" p))
    (set_disabled test_mqtt false)
    p.

Definition post_request (url : string) (b : body) (timeout : N) : request :=
  {| req_method := POST; req_url := url; req_body := b;
     req_timeout := Some timeout |}.

(** [testRTSP()]; [urlField] is the value of #default_rtsp_url, [None]
    when the page has no such element. *)
Definition testRTSP (urlField : option string) (x : exchange) (p : page)
    : page :=
  let p := set_disabled test_rtsp true
             (setBadge test_rtsp_status st_loading "..." p) in
  try_catch_finally
    (modify (addLog RtspStart info) ;;;
     modify (send (post_request "/api/admin/rtsp_test"
                     (RtspBody (match urlField with
                                | Some v => if nonempty v then Some v else None
                                | None => None
                                end)) 7000)) ;;;
     res <- await (fst (fetchWithTimeout x 7000)) ;;
     data <- await (json res) ;;
     succeeded <- get data "success" ;;
     (if truthy succeeded then
        reported <- get data "status" ;;
        url <- get data "url" ;;
        status <- match or_else reported (VStr "") with
                  | VStr s => ret (toLowerCase s)
                  | _ => throw (TypeError "toLowerCase is not a function")
                  end ;;
        (if String.eqb status "online" then
           modify (setBadge test_rtsp_status st_ok "ONLINE")
         else if String.eqb status "not_configured" then
           modify (setBadge test_rtsp_status st_info "N/C")
         else if String.eqb status "offline" then
           modify (setBadge test_rtsp_status st_error "OFFLINE")
         else
           modify (setBadge test_rtsp_status st_error "ERROR")) ;;;
        modify (addLog (RtspStatus url reported)
                  (if String.eqb status "online" then success
                   else if String.eqb status "not_configured" then warning
                   else error_))
      else
        reason <- get data "error" ;;
        modify (setBadge test_rtsp_status st_error "KO") ;;;
        modify (addLog (RtspKo (or_else reason (VStr "Erreur inconnue")))
                  error_)) ;;;
     modify (consoleLog debug (DebugData data)))%exec
    (fun e p => addLog (RtspThrown e) error_
                  (setBadge test_rtsp_status st_error "KO" p))
    (set_disabled test_rtsp false)
    p.

(** [camera[k]] *)
Fixpoint obj_get (k : string) (o : camera) : option string :=
  match o with
  | [] => None
  | (k', v) :: rest => if String.eqb k k' then Some v else obj_get k rest
  end.

(** [camera[k] || d] *)
Definition obj_get_or (k d : string) (o : camera) : string :=
  match obj_get k o with
  | Some v => if nonempty v then v else d
  | None => d
  end.

(** The camera that [testCameras] posts for a descriptor. *)
Definition camera_to_test (camera : camera) : camera_config :=
  let id := match obj_get "id" camera with
            | Some v => v
            | None => "undefined"
            end in
  let key (attr : string) := (id ++ attr)%string in
  let cameraId := obj_get_or (key "_id") id camera in
  let mode := obj_get_or (key "_mode") "rtsp" camera in
  let name := obj_get_or (key "_name") ("Caméra " ++ cameraId)%string camera in
  let rtsp := String.eqb mode "rtsp" in
  let ha := negb rtsp && String.eqb mode "ha_polling" in
  let when (b : bool) (attr : string) :=
    if b then obj_get (key attr) camera else None in
  {| cfg_id := cameraId; cfg_name := name; cfg_mode := mode;
     cfg_rtsp_url := when rtsp "_rtsp_url";
     cfg_rtsp_username := when rtsp "_rtsp_username";
     cfg_rtsp_password := when rtsp "_rtsp_password";
     cfg_ha_entity := when ha "_ha_entity";
     cfg_ha_attr := when ha "_ha_attr";
     cfg_ha_interval := when ha "_ha_interval" |}.

(** [data.results.filter((r) => r.success).length] *)
Fixpoint count_successes (results : list value) : Exec page nat :=
  match results with
  | [] => ret 0
  | r :: rest =>
      (succeeded <- get r "success" ;;
       n <- count_successes rest ;;
       ret (if truthy succeeded then S n else n))%exec
  end.

(** [data.results.forEach((result) => ...)] *)
Fixpoint log_results (results : list value) : Exec page unit :=
  match results with
  | [] => ret tt
  | r :: rest =>
      (succeeded <- get r "success" ;;
       modify (addLog (CameraResult r)
                 (if truthy succeeded then success else error_)) ;;;
       log_results rest)%exec
  end.

(** [testCameras()] *)
Definition testCameras (x : exchange) (p : page) : page :=
  let p := set_disabled test_cameras true
             (setBadge test_cameras_status st_loading "..." p) in
  try_catch_finally
    (modify (addLog CamerasStart info) ;;;
     cameras <- (fun p => (Normal (fst (saveCamerasConfiguration p)),
                           snd (saveCamerasConfiguration p))) ;;
     match cameras with
     | [] =>
         modify (setBadge test_cameras_status st_info "N/C") ;;;
         modify (addLog NoExtraCamera warning) ;;;
         leave
     | _ =>
         let camerasToTest := map camera_to_test cameras in
         modify (addLog (CamerasTesting (List.length camerasToTest)) info) ;;;
         modify (send (post_request "/api/admin/cameras/test_multiple"
                         (CamerasBody camerasToTest) 10000)) ;;;
         res <- await (fst (fetchWithTimeout x 10000)) ;;
         data <- await (json res) ;;
         succeeded <- get data "success" ;;
         if truthy succeeded then
           results <- get data "results" ;;
           match results with
           | VArr results =>
               successCount <- count_successes results ;;
               let totalCount := List.length results in
               let text := (decimal successCount ++ "/"
                            ++ decimal totalCount)%string in
               (if Nat.eqb successCount totalCount then
                  modify (setBadge test_cameras_status st_ok text) ;;;
                  modify (addLog (CamerasAllOk totalCount) success)
                else
                  modify (setBadge test_cameras_status st_warning text) ;;;
                  modify (addLog (CamerasPartial successCount totalCount)
                            warning)) ;;;
               log_results results
           | _ => throw (TypeError "data.results.filter is not a function")
           end
         else
           reason <- get data "error" ;;
           modify (setBadge test_cameras_status st_error "KO") ;;;
           modify (addLog (CamerasKo reason) error_)
     end)%exec
    (fun e p => addLog (CamerasThrown e) error_
                  (setBadge test_cameras_status st_error "KO" p))
    (set_disabled test_cameras false)
    p.

(** Auxiliary notions for the statements about saving and loading. *)
Definition is_digit (c : ascii) : bool :=
  let n := nat_of_ascii c in Nat.leb 48 n && Nat.leb n 57.

Fixpoint all_digits (s : string) : bool :=
  match s with
  | EmptyString => true
  | String c rest => is_digit c && all_digits rest
  end.

Definition step_field (fs : list field) (kv : string * string) : list field :=
  match set_named (fst kv) (snd kv) fs with Some fs' => fs' | None => fs end.

Definition populate_controls (c : camera) (fs : list field) : list field :=
  fold_left step_field c fs.

Definition reload_fragment (k : nat) (f : fragment) : fragment :=
  {| camera_id := camera_name k;
     inputs := populate_controls (collect f)
                 (camera_template (camera_name k) k) |}.

Fixpoint reload_from (k : nat) (cs : list fragment) : list fragment :=
  match cs with
  | [] => []
  | f :: rest => reload_fragment k f :: reload_from (S k) rest
  end.

Fixpoint assoc_last (n : string) (c : camera) : option string :=
  match c with
  | [] => None
  | kv :: rest =>
      match assoc_last n rest with
      | Some v => Some v
      | None => if String.eqb (fst kv) n then Some (snd kv) else None
      end
  end.

Definition last_value (n : string) (fs : list field) (acc : option string)
    : option string :=
  fold_left
    (fun acc i =>
       if String.eqb (f_name i) n && negb (String.eqb (f_name i) "")
          && negb (String.eqb (f_value i) "")
       then Some (f_value i) else acc)
    fs acc.

Definition collect_step (c : camera) (input : field) : camera :=
  if negb (String.eqb (f_name input) "")
     && negb (String.eqb (f_value input) "")
  then obj_set (f_name input) (f_value input) c
  else c.

(** Sample pages. *)

(** A page with one camera whose analysis interval reads [v]. *)
Definition interval_page (v : string) : page :=
  type_into "camera_1_analysis_interval" v (addCameraConfig fresh_page).

Definition two_cameras : page :=
  type_into "camera_2_rtsp_username" "viewer"
    (type_into "camera_2_rtsp_url" "rtsp://192.168.1.100:554/stream"
       (addCameraConfig (addCameraConfig fresh_page))).

(** What the user and the page can do to the fragments: the add button,
    the delete button of a fragment, the reset button
    ([clearExistingCameras] then [clearCamerasStorage]), loading, saving. *)
Inductive camera_action : Type :=
| AddCamera
| RemoveCamera (cameraId : string)
| ResetCameras
| LoadCameras
| SaveCameras.

Definition act (p : page) (a : camera_action) : page :=
  match a with
  | AddCamera => addCameraConfig p
  | RemoveCamera cameraId => removeCameraConfig cameraId p
  | ResetCameras => clearCamerasStorage (clearExistingCameras p)
  | LoadCameras => loadCamerasConfiguration p
  | SaveCameras => snd (saveCamerasConfiguration p)
  end.

(** Observers of a poll, for the statements: does the probe [attempt],
    issued at [elapsed], come back with [res.ok]; how long the round takes;
    and when the probe number [j] after [attempt] is issued when the
    probes before it fail. *)
Definition probe_ok (net : network) (attempt : nat) (elapsed : N) : bool :=
  match fst (fetchWithTimeout (probe_exchange (net attempt elapsed)) 2000) with
  | Fulfilled r => ok r
  | Rejected _ => false
  end.

Definition round_time (net : network) (attempt : nat) (elapsed : N) : N :=
  (snd (fetchWithTimeout (probe_exchange (net attempt elapsed)) 2000)
   + 1000 + timer_lag (net attempt elapsed))%N.

Fixpoint time_from (net : network) (attempt : nat) (elapsed : N) (j : nat)
    : N :=
  match j with
  | O => elapsed
  | S j' =>
      time_from net (S attempt) (elapsed + round_time net attempt elapsed) j'
  end.

Definition issue_time (net : network) (k : nat) : N := time_from net 0 0 k.

Definition answers_ok (net : network) (k : nat) : bool :=
  probe_ok net k (issue_time net k).

(** Sample data for the examples: some responses and networks. *)
Definition http (code : N) (body : value) : response :=
  {| ok := ((200 <=? code) && (code <=? 299))%N; status := code;
     statusText := ""; content_type := Some "application/json";
     json := Fulfilled body; text := Fulfilled "" |}.

Definition answering (r : response) (ms lag : N) : probe :=
  {| probe_exchange := {| reply := Fulfilled r; latency := ms |};
     timer_lag := lag |}.

(** The endpoint answers 503 to a probe issued before [back] ms and 200
    from then on; an answer takes [ms], the timer fires [lag] late. *)
Definition back_after (back ms lag : N) : network :=
  fun _ elapsed =>
    answering (http (if (elapsed <? back)%N then 503 else 200) VNull) ms lag.

(** The endpoint answers 503 to the first [n] probes and 200 to the
    later ones. *)
Definition back_at_probe (n : nat) (ms lag : N) : network :=
  fun attempt _ =>
    answering (http (if Nat.ltb attempt n then 503 else 200) VNull) ms lag.

Definition restart_with (net : network) : restart_env :=
  {| confirm_answer := true;
     restart_reply := Fulfilled (http 200 VNull);
     health := net |}.

(** The restart flow on [fresh_page] ends with the manual-reload warning
    and without a reload. *)
Definition poll_missed (net : network) : Prop :=
  exists p',
    restartApplication (restart_with net) fresh_page = Some p' /\
    reloaded p' = false /\
    exists c, console p' = c ++ [(console_warn, CannotConfirmRestart)].
(** *** Observers for the statements about cleanup *)

(** The badge, if the page has it, is out of its loading class. *)
Definition badge_settled (id : badge_id) (p : page) : Prop :=
  forall b, badges p id = Some b -> badge_cls b <> bg_warning.

(** The button, if the page has it, is enabled in [after]. *)
Definition button_released (b : button) (before after : page) : Prop :=
  disabled after b = option_map (fun _ => false) (disabled before b).

(** What the [try] block of a test leaves when started in [p]: the
    buttons as they were, and the badge settled unless the block threw. *)
Definition test_body_post (id : badge_id) (p : page)
    (r : completion unit * page) : Prop :=
  disabled (snd r) = disabled p /\
  match fst r with
  | Thrown _ => True
  | _ => badge_settled id (snd r)
  end.

(** The request is answered with [r] after [ms] ms. *)
Definition answered (r : response) (ms : N) : exchange :=
  {| reply := Fulfilled r; latency := ms |}.
End Admin.


(** ** IActionApp (static/app.js): definitions *)

Module App.
Import JS.

(** [style.display] of an element: "block", "none", or not set. *)
Inductive display : Type := block | none | unset.

(** Log lines of the handlers modelled below, named after their text. *)
Inductive msg : Type :=
| CaptureDetected               (* "Capture détectée - Interface mise à jour" *)
| CaptureEnded                  (* "Capture arrêtée - Interface mise à jour" *)
| StatusCheckFailed (e : error) (* console.debug("Vérification d'état de
                                   capture:", error.message) *)
| ToggleAvailable               (* 'Bouton "Voir le flux live" disponible' *)
| ConfigFetchFailed             (* "Erreur lors de la récupération de la
                                   configuration" *)
| RtspUrlMissing                (* "URL RTSP non configurée. Veuillez
                                   configurer l'URL dans la section
                                   Administration." *)
| StartingRtsp (rtspUrl : value) (* "Démarrage de la capture RTSP : ..." *)
| StartingHaPolling             (* "Démarrage de la capture via Home
                                   Assistant (Polling)" *)
| CaptureStarted (message : value) (* result.message, or "Capture démarrée
                                   avec succès." *)
| CameraInfo (test_status : value) (* "Infos caméra - Type: Caméra RTSP..." *)
| StartRefused (reason : value) (* "Erreur: ${errorMsg}" *)
| StartFailedConsole (e : error)
| StartFailed (e : error)       (* "Erreur critique lors du démarrage: ..." *)
| CaptureStopped                (* "Capture arrêtée" *)
| StopRefused (reason : value)  (* "Erreur: ${result.error}" *)
| StopFailed (e : error)        (* "Erreur lors de l'arrêt: ..." *)
| ControlsMissing               (* "Eléments du bouton de capture non trouvés" *)
| SpinnerShown                  (* console.debug("Spinner affiché") *)
| SpinnerHidden (isCapturing : bool)
| NameAndPhraseRequired         (* "Nom et phrase requis pour la détection" *)
| NoChange                      (* "Aucun changement détecté" *)
| WebhookInvalid                (* "URL webhook invalide (doit commencer par
                                   http:// ou https://)" *)
| DetectionSaved (updated : bool) (name : string)
                                (* "Détection ajoutée: ...",
                                   "Détection mise à jour: ..." *)
| DetectionRefused (reason : value)     (* "Erreur: ${result.error}" *)
| DetectionRefusedText (raw : string)   (* "Erreur: " + 200 characters *)
| DetectionRefusedStatus (statusText : string)
| SaveFailed (e : error)        (* "Erreur lors de la sauvegarde: ..." *)
| DetectionsLoaded (detections : value) (* "${detections.length} détections
                                   chargées" *)
| DetectionsLoadFailed (e : error).

Inductive http_method : Type := GET | POST | PATCH.

(** A request: [req_id] is the value spliced into the URL after
    [req_url], as in [`/api/detections/${this.editDetectionId}`]. *)
Record request : Type := {
  req_method : http_method;
  req_url : string;
  req_id : option value;
  req_body : option value       (* the object given to JSON.stringify *)
}.

(** The page of IActionApp: the fields of the object, and of the document
    the elements that the handlers modelled below read and write.  The
    elements are taken to exist, as in the page the script is written
    for. *)
Record page : Type := {
  logLevel : level;
  console : list (console_method * msg);
  requests : list request;
  isCapturing : bool;
  captureInProgress : bool;
  isVideoStreamVisible : bool;
  videoUpdateInterval : option N;
  editDetectionId : value;
  detections : value;
  start_disabled : bool;
  stop_disabled : bool;
  start_content_hidden : bool;
  start_loading_hidden : bool;
  toggle_display : display;
  no_capture_display : display;
  capture_ready_display : display;
  video_display : display;
  video_src : string;
  toggle_text : string;
  toggle_icon : string;
  detection_name : string;
  detection_phrase : string;
  detection_webhook : string;
  modal_shown : bool;
  detections_list : list value
}.

Definition set_logLevel (v : level) (p : page) : page :=
  {| logLevel := v; console := console p; requests := requests p;
     isCapturing := isCapturing p;
     captureInProgress := captureInProgress p;
     isVideoStreamVisible := isVideoStreamVisible p;
     videoUpdateInterval := videoUpdateInterval p;
     editDetectionId := editDetectionId p; detections := detections p;
     start_disabled := start_disabled p; stop_disabled := stop_disabled p;
     start_content_hidden := start_content_hidden p;
     start_loading_hidden := start_loading_hidden p;
     toggle_display := toggle_display p;
     no_capture_display := no_capture_display p;
     capture_ready_display := capture_ready_display p;
     video_display := video_display p; video_src := video_src p;
     toggle_text := toggle_text p; toggle_icon := toggle_icon p;
     detection_name := detection_name p;
     detection_phrase := detection_phrase p;
     detection_webhook := detection_webhook p;
     modal_shown := modal_shown p; detections_list := detections_list p |}.

Definition set_console (v : list (console_method * msg)) (p : page) : page :=
  {| logLevel := logLevel p; console := v; requests := requests p;
     isCapturing := isCapturing p;
     captureInProgress := captureInProgress p;
     isVideoStreamVisible := isVideoStreamVisible p;
     videoUpdateInterval := videoUpdateInterval p;
     editDetectionId := editDetectionId p; detections := detections p;
     start_disabled := start_disabled p; stop_disabled := stop_disabled p;
     start_content_hidden := start_content_hidden p;
     start_loading_hidden := start_loading_hidden p;
     toggle_display := toggle_display p;
     no_capture_display := no_capture_display p;
     capture_ready_display := capture_ready_display p;
     video_display := video_display p; video_src := video_src p;
     toggle_text := toggle_text p; toggle_icon := toggle_icon p;
     detection_name := detection_name p;
     detection_phrase := detection_phrase p;
     detection_webhook := detection_webhook p;
     modal_shown := modal_shown p; detections_list := detections_list p |}.

Definition set_requests (v : list request) (p : page) : page :=
  {| logLevel := logLevel p; console := console p; requests := v;
     isCapturing := isCapturing p;
     captureInProgress := captureInProgress p;
     isVideoStreamVisible := isVideoStreamVisible p;
     videoUpdateInterval := videoUpdateInterval p;
     editDetectionId := editDetectionId p; detections := detections p;
     start_disabled := start_disabled p; stop_disabled := stop_disabled p;
     start_content_hidden := start_content_hidden p;
     start_loading_hidden := start_loading_hidden p;
     toggle_display := toggle_display p;
     no_capture_display := no_capture_display p;
     capture_ready_display := capture_ready_display p;
     video_display := video_display p; video_src := video_src p;
     toggle_text := toggle_text p; toggle_icon := toggle_icon p;
     detection_name := detection_name p;
     detection_phrase := detection_phrase p;
     detection_webhook := detection_webhook p;
     modal_shown := modal_shown p; detections_list := detections_list p |}.

Definition set_isCapturing (v : bool) (p : page) : page :=
  {| logLevel := logLevel p; console := console p; requests := requests p;
     isCapturing := v; captureInProgress := captureInProgress p;
     isVideoStreamVisible := isVideoStreamVisible p;
     videoUpdateInterval := videoUpdateInterval p;
     editDetectionId := editDetectionId p; detections := detections p;
     start_disabled := start_disabled p; stop_disabled := stop_disabled p;
     start_content_hidden := start_content_hidden p;
     start_loading_hidden := start_loading_hidden p;
     toggle_display := toggle_display p;
     no_capture_display := no_capture_display p;
     capture_ready_display := capture_ready_display p;
     video_display := video_display p; video_src := video_src p;
     toggle_text := toggle_text p; toggle_icon := toggle_icon p;
     detection_name := detection_name p;
     detection_phrase := detection_phrase p;
     detection_webhook := detection_webhook p;
     modal_shown := modal_shown p; detections_list := detections_list p |}.

Definition set_captureInProgress (v : bool) (p : page) : page :=
  {| logLevel := logLevel p; console := console p; requests := requests p;
     isCapturing := isCapturing p; captureInProgress := v;
     isVideoStreamVisible := isVideoStreamVisible p;
     videoUpdateInterval := videoUpdateInterval p;
     editDetectionId := editDetectionId p; detections := detections p;
     start_disabled := start_disabled p; stop_disabled := stop_disabled p;
     start_content_hidden := start_content_hidden p;
     start_loading_hidden := start_loading_hidden p;
     toggle_display := toggle_display p;
     no_capture_display := no_capture_display p;
     capture_ready_display := capture_ready_display p;
     video_display := video_display p; video_src := video_src p;
     toggle_text := toggle_text p; toggle_icon := toggle_icon p;
     detection_name := detection_name p;
     detection_phrase := detection_phrase p;
     detection_webhook := detection_webhook p;
     modal_shown := modal_shown p; detections_list := detections_list p |}.

Definition set_isVideoStreamVisible (v : bool) (p : page) : page :=
  {| logLevel := logLevel p; console := console p; requests := requests p;
     isCapturing := isCapturing p;
     captureInProgress := captureInProgress p; isVideoStreamVisible := v;
     videoUpdateInterval := videoUpdateInterval p;
     editDetectionId := editDetectionId p; detections := detections p;
     start_disabled := start_disabled p; stop_disabled := stop_disabled p;
     start_content_hidden := start_content_hidden p;
     start_loading_hidden := start_loading_hidden p;
     toggle_display := toggle_display p;
     no_capture_display := no_capture_display p;
     capture_ready_display := capture_ready_display p;
     video_display := video_display p; video_src := video_src p;
     toggle_text := toggle_text p; toggle_icon := toggle_icon p;
     detection_name := detection_name p;
     detection_phrase := detection_phrase p;
     detection_webhook := detection_webhook p;
     modal_shown := modal_shown p; detections_list := detections_list p |}.

Definition set_videoUpdateInterval (v : option N) (p : page) : page :=
  {| logLevel := logLevel p; console := console p; requests := requests p;
     isCapturing := isCapturing p;
     captureInProgress := captureInProgress p;
     isVideoStreamVisible := isVideoStreamVisible p;
     videoUpdateInterval := v; editDetectionId := editDetectionId p;
     detections := detections p; start_disabled := start_disabled p;
     stop_disabled := stop_disabled p;
     start_content_hidden := start_content_hidden p;
     start_loading_hidden := start_loading_hidden p;
     toggle_display := toggle_display p;
     no_capture_display := no_capture_display p;
     capture_ready_display := capture_ready_display p;
     video_display := video_display p; video_src := video_src p;
     toggle_text := toggle_text p; toggle_icon := toggle_icon p;
     detection_name := detection_name p;
     detection_phrase := detection_phrase p;
     detection_webhook := detection_webhook p;
     modal_shown := modal_shown p; detections_list := detections_list p |}.

Definition set_editDetectionId (v : value) (p : page) : page :=
  {| logLevel := logLevel p; console := console p; requests := requests p;
     isCapturing := isCapturing p;
     captureInProgress := captureInProgress p;
     isVideoStreamVisible := isVideoStreamVisible p;
     videoUpdateInterval := videoUpdateInterval p; editDetectionId := v;
     detections := detections p; start_disabled := start_disabled p;
     stop_disabled := stop_disabled p;
     start_content_hidden := start_content_hidden p;
     start_loading_hidden := start_loading_hidden p;
     toggle_display := toggle_display p;
     no_capture_display := no_capture_display p;
     capture_ready_display := capture_ready_display p;
     video_display := video_display p; video_src := video_src p;
     toggle_text := toggle_text p; toggle_icon := toggle_icon p;
     detection_name := detection_name p;
     detection_phrase := detection_phrase p;
     detection_webhook := detection_webhook p;
     modal_shown := modal_shown p; detections_list := detections_list p |}.

Definition set_detections (v : value) (p : page) : page :=
  {| logLevel := logLevel p; console := console p; requests := requests p;
     isCapturing := isCapturing p;
     captureInProgress := captureInProgress p;
     isVideoStreamVisible := isVideoStreamVisible p;
     videoUpdateInterval := videoUpdateInterval p;
     editDetectionId := editDetectionId p; detections := v;
     start_disabled := start_disabled p; stop_disabled := stop_disabled p;
     start_content_hidden := start_content_hidden p;
     start_loading_hidden := start_loading_hidden p;
     toggle_display := toggle_display p;
     no_capture_display := no_capture_display p;
     capture_ready_display := capture_ready_display p;
     video_display := video_display p; video_src := video_src p;
     toggle_text := toggle_text p; toggle_icon := toggle_icon p;
     detection_name := detection_name p;
     detection_phrase := detection_phrase p;
     detection_webhook := detection_webhook p;
     modal_shown := modal_shown p; detections_list := detections_list p |}.

Definition set_start_disabled (v : bool) (p : page) : page :=
  {| logLevel := logLevel p; console := console p; requests := requests p;
     isCapturing := isCapturing p;
     captureInProgress := captureInProgress p;
     isVideoStreamVisible := isVideoStreamVisible p;
     videoUpdateInterval := videoUpdateInterval p;
     editDetectionId := editDetectionId p; detections := detections p;
     start_disabled := v; stop_disabled := stop_disabled p;
     start_content_hidden := start_content_hidden p;
     start_loading_hidden := start_loading_hidden p;
     toggle_display := toggle_display p;
     no_capture_display := no_capture_display p;
     capture_ready_display := capture_ready_display p;
     video_display := video_display p; video_src := video_src p;
     toggle_text := toggle_text p; toggle_icon := toggle_icon p;
     detection_name := detection_name p;
     detection_phrase := detection_phrase p;
     detection_webhook := detection_webhook p;
     modal_shown := modal_shown p; detections_list := detections_list p |}.

Definition set_stop_disabled (v : bool) (p : page) : page :=
  {| logLevel := logLevel p; console := console p; requests := requests p;
     isCapturing := isCapturing p;
     captureInProgress := captureInProgress p;
     isVideoStreamVisible := isVideoStreamVisible p;
     videoUpdateInterval := videoUpdateInterval p;
     editDetectionId := editDetectionId p; detections := detections p;
     start_disabled := start_disabled p; stop_disabled := v;
     start_content_hidden := start_content_hidden p;
     start_loading_hidden := start_loading_hidden p;
     toggle_display := toggle_display p;
     no_capture_display := no_capture_display p;
     capture_ready_display := capture_ready_display p;
     video_display := video_display p; video_src := video_src p;
     toggle_text := toggle_text p; toggle_icon := toggle_icon p;
     detection_name := detection_name p;
     detection_phrase := detection_phrase p;
     detection_webhook := detection_webhook p;
     modal_shown := modal_shown p; detections_list := detections_list p |}.

Definition set_start_content_hidden (v : bool) (p : page) : page :=
  {| logLevel := logLevel p; console := console p; requests := requests p;
     isCapturing := isCapturing p;
     captureInProgress := captureInProgress p;
     isVideoStreamVisible := isVideoStreamVisible p;
     videoUpdateInterval := videoUpdateInterval p;
     editDetectionId := editDetectionId p; detections := detections p;
     start_disabled := start_disabled p; stop_disabled := stop_disabled p;
     start_content_hidden := v;
     start_loading_hidden := start_loading_hidden p;
     toggle_display := toggle_display p;
     no_capture_display := no_capture_display p;
     capture_ready_display := capture_ready_display p;
     video_display := video_display p; video_src := video_src p;
     toggle_text := toggle_text p; toggle_icon := toggle_icon p;
     detection_name := detection_name p;
     detection_phrase := detection_phrase p;
     detection_webhook := detection_webhook p;
     modal_shown := modal_shown p; detections_list := detections_list p |}.

Definition set_start_loading_hidden (v : bool) (p : page) : page :=
  {| logLevel := logLevel p; console := console p; requests := requests p;
     isCapturing := isCapturing p;
     captureInProgress := captureInProgress p;
     isVideoStreamVisible := isVideoStreamVisible p;
     videoUpdateInterval := videoUpdateInterval p;
     editDetectionId := editDetectionId p; detections := detections p;
     start_disabled := start_disabled p; stop_disabled := stop_disabled p;
     start_content_hidden := start_content_hidden p;
     start_loading_hidden := v; toggle_display := toggle_display p;
     no_capture_display := no_capture_display p;
     capture_ready_display := capture_ready_display p;
     video_display := video_display p; video_src := video_src p;
     toggle_text := toggle_text p; toggle_icon := toggle_icon p;
     detection_name := detection_name p;
     detection_phrase := detection_phrase p;
     detection_webhook := detection_webhook p;
     modal_shown := modal_shown p; detections_list := detections_list p |}.

Definition set_toggle_display (v : display) (p : page) : page :=
  {| logLevel := logLevel p; console := console p; requests := requests p;
     isCapturing := isCapturing p;
     captureInProgress := captureInProgress p;
     isVideoStreamVisible := isVideoStreamVisible p;
     videoUpdateInterval := videoUpdateInterval p;
     editDetectionId := editDetectionId p; detections := detections p;
     start_disabled := start_disabled p; stop_disabled := stop_disabled p;
     start_content_hidden := start_content_hidden p;
     start_loading_hidden := start_loading_hidden p; toggle_display := v;
     no_capture_display := no_capture_display p;
     capture_ready_display := capture_ready_display p;
     video_display := video_display p; video_src := video_src p;
     toggle_text := toggle_text p; toggle_icon := toggle_icon p;
     detection_name := detection_name p;
     detection_phrase := detection_phrase p;
     detection_webhook := detection_webhook p;
     modal_shown := modal_shown p; detections_list := detections_list p |}.

Definition set_no_capture_display (v : display) (p : page) : page :=
  {| logLevel := logLevel p; console := console p; requests := requests p;
     isCapturing := isCapturing p;
     captureInProgress := captureInProgress p;
     isVideoStreamVisible := isVideoStreamVisible p;
     videoUpdateInterval := videoUpdateInterval p;
     editDetectionId := editDetectionId p; detections := detections p;
     start_disabled := start_disabled p; stop_disabled := stop_disabled p;
     start_content_hidden := start_content_hidden p;
     start_loading_hidden := start_loading_hidden p;
     toggle_display := toggle_display p; no_capture_display := v;
     capture_ready_display := capture_ready_display p;
     video_display := video_display p; video_src := video_src p;
     toggle_text := toggle_text p; toggle_icon := toggle_icon p;
     detection_name := detection_name p;
     detection_phrase := detection_phrase p;
     detection_webhook := detection_webhook p;
     modal_shown := modal_shown p; detections_list := detections_list p |}.

Definition set_capture_ready_display (v : display) (p : page) : page :=
  {| logLevel := logLevel p; console := console p; requests := requests p;
     isCapturing := isCapturing p;
     captureInProgress := captureInProgress p;
     isVideoStreamVisible := isVideoStreamVisible p;
     videoUpdateInterval := videoUpdateInterval p;
     editDetectionId := editDetectionId p; detections := detections p;
     start_disabled := start_disabled p; stop_disabled := stop_disabled p;
     start_content_hidden := start_content_hidden p;
     start_loading_hidden := start_loading_hidden p;
     toggle_display := toggle_display p;
     no_capture_display := no_capture_display p;
     capture_ready_display := v; video_display := video_display p;
     video_src := video_src p; toggle_text := toggle_text p;
     toggle_icon := toggle_icon p; detection_name := detection_name p;
     detection_phrase := detection_phrase p;
     detection_webhook := detection_webhook p;
     modal_shown := modal_shown p; detections_list := detections_list p |}.

Definition set_video_display (v : display) (p : page) : page :=
  {| logLevel := logLevel p; console := console p; requests := requests p;
     isCapturing := isCapturing p;
     captureInProgress := captureInProgress p;
     isVideoStreamVisible := isVideoStreamVisible p;
     videoUpdateInterval := videoUpdateInterval p;
     editDetectionId := editDetectionId p; detections := detections p;
     start_disabled := start_disabled p; stop_disabled := stop_disabled p;
     start_content_hidden := start_content_hidden p;
     start_loading_hidden := start_loading_hidden p;
     toggle_display := toggle_display p;
     no_capture_display := no_capture_display p;
     capture_ready_display := capture_ready_display p; video_display := v;
     video_src := video_src p; toggle_text := toggle_text p;
     toggle_icon := toggle_icon p; detection_name := detection_name p;
     detection_phrase := detection_phrase p;
     detection_webhook := detection_webhook p;
     modal_shown := modal_shown p; detections_list := detections_list p |}.

Definition set_video_src (v : string) (p : page) : page :=
  {| logLevel := logLevel p; console := console p; requests := requests p;
     isCapturing := isCapturing p;
     captureInProgress := captureInProgress p;
     isVideoStreamVisible := isVideoStreamVisible p;
     videoUpdateInterval := videoUpdateInterval p;
     editDetectionId := editDetectionId p; detections := detections p;
     start_disabled := start_disabled p; stop_disabled := stop_disabled p;
     start_content_hidden := start_content_hidden p;
     start_loading_hidden := start_loading_hidden p;
     toggle_display := toggle_display p;
     no_capture_display := no_capture_display p;
     capture_ready_display := capture_ready_display p;
     video_display := video_display p; video_src := v;
     toggle_text := toggle_text p; toggle_icon := toggle_icon p;
     detection_name := detection_name p;
     detection_phrase := detection_phrase p;
     detection_webhook := detection_webhook p;
     modal_shown := modal_shown p; detections_list := detections_list p |}.

Definition set_toggle_text (v : string) (p : page) : page :=
  {| logLevel := logLevel p; console := console p; requests := requests p;
     isCapturing := isCapturing p;
     captureInProgress := captureInProgress p;
     isVideoStreamVisible := isVideoStreamVisible p;
     videoUpdateInterval := videoUpdateInterval p;
     editDetectionId := editDetectionId p; detections := detections p;
     start_disabled := start_disabled p; stop_disabled := stop_disabled p;
     start_content_hidden := start_content_hidden p;
     start_loading_hidden := start_loading_hidden p;
     toggle_display := toggle_display p;
     no_capture_display := no_capture_display p;
     capture_ready_display := capture_ready_display p;
     video_display := video_display p; video_src := video_src p;
     toggle_text := v; toggle_icon := toggle_icon p;
     detection_name := detection_name p;
     detection_phrase := detection_phrase p;
     detection_webhook := detection_webhook p;
     modal_shown := modal_shown p; detections_list := detections_list p |}.

Definition set_toggle_icon (v : string) (p : page) : page :=
  {| logLevel := logLevel p; console := console p; requests := requests p;
     isCapturing := isCapturing p;
     captureInProgress := captureInProgress p;
     isVideoStreamVisible := isVideoStreamVisible p;
     videoUpdateInterval := videoUpdateInterval p;
     editDetectionId := editDetectionId p; detections := detections p;
     start_disabled := start_disabled p; stop_disabled := stop_disabled p;
     start_content_hidden := start_content_hidden p;
     start_loading_hidden := start_loading_hidden p;
     toggle_display := toggle_display p;
     no_capture_display := no_capture_display p;
     capture_ready_display := capture_ready_display p;
     video_display := video_display p; video_src := video_src p;
     toggle_text := toggle_text p; toggle_icon := v;
     detection_name := detection_name p;
     detection_phrase := detection_phrase p;
     detection_webhook := detection_webhook p;
     modal_shown := modal_shown p; detections_list := detections_list p |}.

Definition set_detection_name (v : string) (p : page) : page :=
  {| logLevel := logLevel p; console := console p; requests := requests p;
     isCapturing := isCapturing p;
     captureInProgress := captureInProgress p;
     isVideoStreamVisible := isVideoStreamVisible p;
     videoUpdateInterval := videoUpdateInterval p;
     editDetectionId := editDetectionId p; detections := detections p;
     start_disabled := start_disabled p; stop_disabled := stop_disabled p;
     start_content_hidden := start_content_hidden p;
     start_loading_hidden := start_loading_hidden p;
     toggle_display := toggle_display p;
     no_capture_display := no_capture_display p;
     capture_ready_display := capture_ready_display p;
     video_display := video_display p; video_src := video_src p;
     toggle_text := toggle_text p; toggle_icon := toggle_icon p;
     detection_name := v; detection_phrase := detection_phrase p;
     detection_webhook := detection_webhook p;
     modal_shown := modal_shown p; detections_list := detections_list p |}.

Definition set_detection_phrase (v : string) (p : page) : page :=
  {| logLevel := logLevel p; console := console p; requests := requests p;
     isCapturing := isCapturing p;
     captureInProgress := captureInProgress p;
     isVideoStreamVisible := isVideoStreamVisible p;
     videoUpdateInterval := videoUpdateInterval p;
     editDetectionId := editDetectionId p; detections := detections p;
     start_disabled := start_disabled p; stop_disabled := stop_disabled p;
     start_content_hidden := start_content_hidden p;
     start_loading_hidden := start_loading_hidden p;
     toggle_display := toggle_display p;
     no_capture_display := no_capture_display p;
     capture_ready_display := capture_ready_display p;
     video_display := video_display p; video_src := video_src p;
     toggle_text := toggle_text p; toggle_icon := toggle_icon p;
     detection_name := detection_name p; detection_phrase := v;
     detection_webhook := detection_webhook p;
     modal_shown := modal_shown p; detections_list := detections_list p |}.

Definition set_detection_webhook (v : string) (p : page) : page :=
  {| logLevel := logLevel p; console := console p; requests := requests p;
     isCapturing := isCapturing p;
     captureInProgress := captureInProgress p;
     isVideoStreamVisible := isVideoStreamVisible p;
     videoUpdateInterval := videoUpdateInterval p;
     editDetectionId := editDetectionId p; detections := detections p;
     start_disabled := start_disabled p; stop_disabled := stop_disabled p;
     start_content_hidden := start_content_hidden p;
     start_loading_hidden := start_loading_hidden p;
     toggle_display := toggle_display p;
     no_capture_display := no_capture_display p;
     capture_ready_display := capture_ready_display p;
     video_display := video_display p; video_src := video_src p;
     toggle_text := toggle_text p; toggle_icon := toggle_icon p;
     detection_name := detection_name p;
     detection_phrase := detection_phrase p; detection_webhook := v;
     modal_shown := modal_shown p; detections_list := detections_list p |}.

Definition set_modal_shown (v : bool) (p : page) : page :=
  {| logLevel := logLevel p; console := console p; requests := requests p;
     isCapturing := isCapturing p;
     captureInProgress := captureInProgress p;
     isVideoStreamVisible := isVideoStreamVisible p;
     videoUpdateInterval := videoUpdateInterval p;
     editDetectionId := editDetectionId p; detections := detections p;
     start_disabled := start_disabled p; stop_disabled := stop_disabled p;
     start_content_hidden := start_content_hidden p;
     start_loading_hidden := start_loading_hidden p;
     toggle_display := toggle_display p;
     no_capture_display := no_capture_display p;
     capture_ready_display := capture_ready_display p;
     video_display := video_display p; video_src := video_src p;
     toggle_text := toggle_text p; toggle_icon := toggle_icon p;
     detection_name := detection_name p;
     detection_phrase := detection_phrase p;
     detection_webhook := detection_webhook p; modal_shown := v;
     detections_list := detections_list p |}.

Definition set_detections_list (v : list value) (p : page) : page :=
  {| logLevel := logLevel p; console := console p; requests := requests p;
     isCapturing := isCapturing p;
     captureInProgress := captureInProgress p;
     isVideoStreamVisible := isVideoStreamVisible p;
     videoUpdateInterval := videoUpdateInterval p;
     editDetectionId := editDetectionId p; detections := detections p;
     start_disabled := start_disabled p; stop_disabled := stop_disabled p;
     start_content_hidden := start_content_hidden p;
     start_loading_hidden := start_loading_hidden p;
     toggle_display := toggle_display p;
     no_capture_display := no_capture_display p;
     capture_ready_display := capture_ready_display p;
     video_display := video_display p; video_src := video_src p;
     toggle_text := toggle_text p; toggle_icon := toggle_icon p;
     detection_name := detection_name p;
     detection_phrase := detection_phrase p;
     detection_webhook := detection_webhook p;
     modal_shown := modal_shown p; detections_list := v |}.

(** [consoleLog(type, message)] and [addLog(message, type)] *)
Definition consoleLog (type : level) (m : msg) (p : page) : page :=
  set_console (console p ++ [(consoleLog_method type, m)]) p.

Definition addLog (m : msg) (type : level) (p : page) : page :=
  if shouldLog (logLevel p) type then consoleLog type m p else p.

Definition console_line (method : console_method) (m : msg) (p : page)
    : page :=
  set_console (console p ++ [(method, m)]) p.

Definition send (r : request) (p : page) : page :=
  set_requests (requests p ++ [r]) p.

(** *** Capture controls *)

(** [updateCaptureControls()] *)
Definition updateCaptureControls (p : page) : page :=
  if isCapturing p then set_stop_disabled false (set_start_disabled true p)
  else set_stop_disabled true (set_start_disabled false p).

(** [showCaptureLoading(show)] *)
Definition showCaptureLoading (show : bool) (p : page) : page :=
  if show then
    console_line console_debug SpinnerShown
      (set_start_loading_hidden false
         (set_start_content_hidden true (set_start_disabled true p)))
  else
    let p := set_start_loading_hidden true
               (set_start_content_hidden false p) in
    let p := if negb (isCapturing p) then set_start_disabled false p
             else p in
    console_line console_debug (SpinnerHidden (isCapturing p)) p.

(** [showToggleButton()] *)
Definition showToggleButton (p : page) : page :=
  addLog ToggleAvailable info
    (set_isVideoStreamVisible false
       (set_capture_ready_display block
          (set_no_capture_display none (set_toggle_display block p)))).

(** [hideToggleButton()] *)
Definition hideToggleButton (p : page) : page :=
  set_isVideoStreamVisible false
    (set_capture_ready_display none
       (set_no_capture_display block (set_toggle_display none p))).

(** [stopVideoStream()] *)
Definition stopVideoStream (p : page) : page :=
  let p := match videoUpdateInterval p with
           | Some _ => set_videoUpdateInterval None p
           | None => p
           end in
  let p := set_video_src "" (set_video_display none p) in
  let p := if captureInProgress p then set_capture_ready_display block p
           else p in
  set_toggle_icon "bi bi-eye"
    (set_toggle_text "Voir le flux live" (set_isVideoStreamVisible false p)).

(** What [checkCaptureStatusUpdate] does when the capture "vient de
    démarrer" and when it "vient de s'arrêter". *)
Definition capture_started (p : page) : page :=
  addLog CaptureDetected success
    (showCaptureLoading false
       (showToggleButton
          (updateCaptureControls
             (set_captureInProgress true (set_isCapturing true p))))).

Definition capture_ended (p : page) : page :=
  addLog CaptureEnded info
    (showCaptureLoading false
       (stopVideoStream
          (hideToggleButton
             (updateCaptureControls
                (set_captureInProgress false (set_isCapturing false p)))))).

Definition status_request : request :=
  {| req_method := GET; req_url := "/api/capture_status"; req_id := None;
     req_body := None |}.

(** [checkCaptureStatusUpdate()], given what the fetch of
    /api/capture_status settles with. *)
Definition checkCaptureStatusUpdate (reply : settled response)
    : page -> page :=
  try_catch
    (modify (send status_request) ;;;
     response <- await reply ;;
     if ok response then
       data <- await (json response) ;;
       wasCapturing <- gets captureInProgress ;;
       is_capturing <- get data "is_capturing" ;;
       if truthy is_capturing && negb wasCapturing then
         modify capture_started
       else if negb (truthy is_capturing) && wasCapturing then
         modify capture_ended
       else ret tt
     else ret tt)%exec
    (fun e => console_line console_debug (StatusCheckFailed e)).

(** *** Starting and stopping the capture *)

Definition config_request : request :=
  {| req_method := GET; req_url := "/api/config"; req_id := None;
     req_body := None |}.

Definition start_request (captureMode rtspUrl : value) : request :=
  {| req_method := POST; req_url := "/api/start_capture"; req_id := None;
     req_body :=
       Some (if is_string captureMode "rtsp"
             then VObj [("source", rtspUrl); ("type", VStr "rtsp");
                        ("rtsp_url", rtspUrl)]
             else VObj [("type", VStr "ha_polling")]) |}.

Definition stop_request : request :=
  {| req_method := POST; req_url := "/api/stop_capture"; req_id := None;
     req_body := None |}.

(** [displayCameraInfo(camera)] *)
Definition displayCameraInfo (camera : value) : Exec page unit :=
  (if negb (truthy camera) then ret tt
   else
     type <- get camera "type" ;;
     if negb (is_string type "rtsp") then ret tt
     else
       test_status <- get camera "test_status" ;;
       modify (addLog (CameraInfo test_status) info))%exec.

Record capture_env : Type := {
  config_reply : settled response;     (* fetch("/api/config") *)
  start_reply : settled response       (* fetch("/api/start_capture") *)
}.

(** The first [try] of [startCapture]: the capture mode and the RTSP URL
    of the server configuration. *)
Definition fetch_capture_config (env : capture_env)
    : Exec page (value * value) :=
  (modify (send config_request) ;;;
   configResponse <- await (config_reply env) ;;
   config <- await (json configResponse) ;;
   capture_mode <- get config "capture_mode" ;;
   rtsp_url <- get config "rtsp_url" ;;
   ret (or_else capture_mode (VStr "rtsp"), or_else rtsp_url VNull))%exec.

(** [startCapture()] *)
Definition startCapture (env : capture_env) (p : page) : page :=
  match fetch_capture_config env p with
  | (Normal (captureMode, rtspUrl), p) =>
      if is_string captureMode "rtsp" && negb (truthy rtspUrl) then
        addLog RtspUrlMissing warning p
      else
        let p := showCaptureLoading true p in
        let p := addLog (if is_string captureMode "rtsp"
                         then StartingRtsp rtspUrl else StartingHaPolling)
                   info p in
        try_catch_finally
          (modify (send (start_request captureMode rtspUrl)) ;;;
           response <- await (start_reply env) ;;
           result <- await (json response) ;;
           if ok response then
             modify (fun p =>
               showToggleButton
                 (updateCaptureControls
                    (set_captureInProgress true (set_isCapturing true p)))) ;;;
             message <- get result "message" ;;
             modify (addLog (CaptureStarted message) success) ;;;
             camera <- get result "camera" ;;
             if truthy camera then displayCameraInfo camera else ret tt
           else
             reason <- get result "error" ;;
             modify (addLog (StartRefused reason) error_))%exec
          (fun e p =>
             addLog (StartFailed e) error_
               (console_line console_error (StartFailedConsole e) p))
          (showCaptureLoading false)
          p
  | (_, p) => addLog ConfigFetchFailed error_ p
  end.

(** [stopCapture()] *)
Definition stopCapture (reply : settled response) : page -> page :=
  try_catch_finally
    (modify (send stop_request) ;;;
     response <- await reply ;;
     result <- await (json response) ;;
     if ok response then
       modify (fun p =>
         addLog CaptureStopped info
           (showCaptureLoading false
              (stopVideoStream
                 (hideToggleButton
                    (updateCaptureControls
                       (set_captureInProgress false
                          (set_isCapturing false p)))))))
     else
       reason <- get result "error" ;;
       modify (addLog (StopRefused reason) error_))%exec
    (fun e => addLog (StopFailed e) error_)
    (showCaptureLoading false).

(** *** Detections *)

Definition list_request : request :=
  {| req_method := GET; req_url := "/api/detections"; req_id := None;
     req_body := None |}.

(** The loop of [updateDetectionsList]: an item is appended after its
    [webhook_url], [name], [phrase] and [id] were read, which throws on
    [null]. *)
Fixpoint render_items (items : list value) : Exec page unit :=
  match items with
  | [] => ret tt
  | detection :: rest =>
      (_ <- get detection "webhook_url" ;;
       modify (fun p =>
         set_detections_list (detections_list p ++ [detection]) p) ;;;
       render_items rest)%exec
  end.

(** [x === 0] *)
Definition is_zero (x : value) : bool :=
  match x with
  | VNum q => Qeq_bool q 0
  | _ => false
  end.

(** [updateDetectionsList()]: [this.detections.length === 0] holds of the
    empty array, of the empty string, and of an object whose [length] is
    the number 0. *)
Definition updateDetectionsList : Exec page unit :=
  (detections <- gets detections ;;
   match detections with
   | VUndefined | VNull =>
       throw (TypeError "Cannot read properties of null (reading 'length')")
   | VArr [] | VStr "" =>
       modify (set_detections_list [])   (* "Aucune détection configurée" *)
   | VArr items =>
       modify (set_detections_list []) ;;; render_items items
   | VObj fields =>
       if is_zero (lookup "length" fields)
       then modify (set_detections_list [])
       else
         modify (set_detections_list []) ;;;
         throw (TypeError "this.detections.forEach is not a function")
   | _ =>
       modify (set_detections_list []) ;;;
       throw (TypeError "this.detections.forEach is not a function")
   end)%exec.

(** [loadDetections()] *)
Definition loadDetections (reply : settled response) : page -> page :=
  try_catch
    (modify (send list_request) ;;;
     response <- await reply ;;
     detections <- await (json response) ;;
     modify (set_detections detections) ;;;
     updateDetectionsList ;;;
     modify (addLog (DetectionsLoaded detections) info))%exec
    (fun e => addLog (DetectionsLoadFailed e) error_).

Section Detections.

(** [JSON.parse(text)], [None] when it throws. *)
Variable JSON_parse : string -> option value.

Definition parse_or_null (rawText : string) : value :=
  match JSON_parse rawText with
  | Some v => v
  | None => VNull
  end.

(** The body as [saveDetection] reads it, [result] and [rawText], or
    the error that leaves the [try] block: a body announced as JSON is
    read with [response.json()] and, when that fails, with
    [response.text()]; any other body with [response.text()]. *)
Definition body_of (response : response) : value * string + error :=
  let contentType :=
    toLowerCase (match content_type response with
                 | Some s => s
                 | None => ""
                 end) in
  let as_text :=
    match text response with
    | Fulfilled rawText => inl (parse_or_null rawText, rawText)
    | Rejected e => inr e
    end in
  if includes "application/json" contentType then
    match json response with
    | Fulfilled result => inl (result, "")
    | Rejected _ => as_text
    end
  else as_text.

Definition read_body (response : response) : Exec page (value * string) :=
  match body_of response with
  | inl body => ret body
  | inr e => throw e
  end.

Record detection_env : Type := {
  save_reply : settled response;     (* fetch(url, { method, ... }) *)
  reload_reply : settled response    (* fetch("/api/detections") *)
}.

(** The request of [saveDetection]: in create mode name and phrase are
    sent as they are, in edit mode only when not empty; the webhook is
    always sent. *)
Definition save_request (editDetectionId : value)
    (name phrase webhookUrl : string) : request :=
  let edit := truthy editDetectionId in
  {| req_method := if edit then PATCH else POST;
     req_url := if edit then "/api/detections/" else "/api/detections";
     req_id := if edit then Some editDetectionId else None;
     req_body :=
       Some (VObj
               ((if negb edit || nonempty_s name
                 then [("name", VStr name)] else [])
                ++ (if negb edit || nonempty_s phrase
                    then [("phrase", VStr phrase)] else [])
                ++ [("webhook_url", VStr webhookUrl)])) |}.

(** [document.getElementById("detection-form").reset()]: the three
    controls of the form are empty in the markup. *)
Definition reset_form (p : page) : page :=
  set_detection_webhook ""
    (set_detection_phrase "" (set_detection_name "" p)).

(** What [saveDetection] does after a response with [response.ok]. *)
Definition detection_saved (env : detection_env) (edit : bool)
    (name : string) (p : page) : page :=
  reset_form
    (addLog (DetectionSaved edit name) success
       (set_editDetectionId VNull
          (loadDetections (reload_reply env) (set_modal_shown false p)))).

(** [result && result.error ? result.error : rawText ?
    rawText.substring(0, 200) : response.statusText] *)
Definition refusal (response : response) (body : value * string) : msg :=
  let error_field :=
    match fst body with
    | VObj fields => lookup "error" fields
    | _ => VUndefined
    end in
  if truthy (fst body) && truthy error_field then DetectionRefused error_field
  else if nonempty_s (snd body) then DetectionRefusedText (snd body)
  else DetectionRefusedStatus (statusText response).

(** The two checks before the request: name and phrase in create mode,
    and the webhook URL. *)
Definition create_incomplete (p : page) : bool :=
  negb (truthy (editDetectionId p))
  && (negb (nonempty_s (trim (detection_name p)))
      || negb (nonempty_s (trim (detection_phrase p)))).

Definition webhook_malformed (p : page) : bool :=
  nonempty_s (trim (detection_webhook p))
  && negb (is_http_url (trim (detection_webhook p))).

(** [saveDetection()] *)
Definition saveDetection (env : detection_env) (p : page) : page :=
  let name := trim (detection_name p) in
  let phrase := trim (detection_phrase p) in
  let webhookUrl := trim (detection_webhook p) in
  let edit := truthy (editDetectionId p) in
  if create_incomplete p then addLog NameAndPhraseRequired warning p
  else if webhook_malformed p then addLog WebhookInvalid warning p
  else
    try_catch
      (modify (send (save_request (editDetectionId p)
                       name phrase webhookUrl)) ;;;
       response <- await (save_reply env) ;;
       body <- read_body response ;;
       if ok response then modify (detection_saved env edit name)
       else modify (addLog (refusal response body) error_))%exec
      (fun e => addLog (SaveFailed e) error_)
      p.

End Detections.

(** *** Sample data and observers for the statements *)

(** The page as the constructor and the markup leave it. *)
Definition fresh_page : page :=
  {| logLevel := info; console := []; requests := [];
     isCapturing := false; captureInProgress := false;
     isVideoStreamVisible := false; videoUpdateInterval := None;
     editDetectionId := VNull; detections := VArr [];
     start_disabled := false; stop_disabled := true;
     start_content_hidden := false; start_loading_hidden := true;
     toggle_display := none; no_capture_display := unset;
     capture_ready_display := none; video_display := none;
     video_src := ""; toggle_text := "Voir le flux live";
     toggle_icon := "bi bi-eye";
     detection_name := ""; detection_phrase := ""; detection_webhook := "";
     modal_shown := false; detections_list := [] |}.

Definition json_reply (code : N) (body : value) : settled response :=
  Fulfilled
    {| ok := ((200 <=? code) && (code <=? 299))%N; status := code;
       statusText := ""; content_type := Some "application/json";
       json := Fulfilled body; text := Fulfilled "" |}.

(** The fetch of /api/capture_status is answered ok with an object whose
    [is_capturing] is truthy or not. *)
Definition reports (reply : settled response) (capturing : bool) : Prop :=
  exists response fields,
    reply = Fulfilled response /\ ok response = true /\
    json response = Fulfilled (VObj fields) /\
    truthy (lookup "is_capturing" fields) = capturing.

(** The request of create mode. *)
Definition create_request (name phrase webhookUrl : string) : request :=
  {| req_method := POST; req_url := "/api/detections"; req_id := None;
     req_body := Some (VObj [("name", VStr name); ("phrase", VStr phrase);
                             ("webhook_url", VStr webhookUrl)]) |}.

(** The add-detection modal, open, with the three controls filled in. *)
Definition modal_with (name phrase webhook : string) : page :=
  set_modal_shown true
    (set_detection_webhook webhook
       (set_detection_phrase phrase (set_detection_name name fresh_page))).

Definition no_parse : string -> option value := fun _ => None.

Definition replies (save reload : settled response) : detection_env :=
  {| save_reply := save; reload_reply := reload |}.

(** A response with status 200 whose body is announced as text and
    cannot be read to its end. *)
Definition broken_body : settled response :=
  Fulfilled
    {| ok := true; status := 200; statusText := "OK";
       content_type := Some "text/plain";
       json := Rejected (NetworkError "network error");
       text := Rejected (NetworkError "network error") |}.
(** The capture flag and the four controls that [startCapture] and
    [stopCapture] drive: is the start button disabled, is the stop button
    disabled, is the label of the start button hidden, is its spinner
    hidden. *)
Definition capture_controls (p : page) : bool * bool * bool * bool * bool :=
  (isCapturing p, start_disabled p, stop_disabled p,
   start_content_hidden p, start_loading_hidden p).

(** The controls at rest: no spinner, the label shown, and the two
    buttons following the capture flag. *)
Definition at_rest (p : page) : Prop :=
  start_loading_hidden p = true /\ start_content_hidden p = false /\
  start_disabled p = isCapturing p /\ stop_disabled p = negb (isCapturing p).

(** The server is configured for RTSP with a URL and answers the start
    request with [start]. *)
Definition rtsp_configured (start : settled response) : capture_env :=
  {| config_reply :=
       json_reply 200 (VObj [("capture_mode", VStr "rtsp");
                             ("rtsp_url", VStr "rtsp://camera/stream")]);
     start_reply := start |}.
End App.

(** ** JavaScript preliminaries, continued *)

Module JSMore.
Import JS.

(** [String(v)], as an attribute, a control or a template literal shows
    a value: a string is itself; [String_of] stands for the engine's
    conversion of the other values. *)
Definition text_of (String_of : value -> string) (v : value) : string :=
  match v with
  | VStr s => s
  | _ => String_of v
  end.

(** An integer spliced into a string, as [new Date().getTime()] into a
    URL. *)
Definition stamp (now : N) : string :=
  NilZero.string_of_uint (N.to_uint now).

(** A conversion for the examples, where every value shown is a
    string. *)
Definition no_text : value -> string := fun _ => "".

(** The value can be the receiver of a property read: reading a
    property of it does not throw. *)
Definition readable (v : value) : Prop := v <> VUndefined /\ v <> VNull.

(** [v.k] for a readable [v]. *)
Definition field (v : value) (k : string) : value :=
  match v with
  | VObj fields => lookup k fields
  | _ => VUndefined
  end.
End JSMore.

(** ** AdminApp: further handlers and observers *)

Module AdminMore.
Import JS JSMore Admin.

(** The badge of a failed test. *)
Definition ko_badge : badge := {| badge_cls := bg_danger; badge_text := "KO" |}.

(** The answer comes after the abort timer of [fetchWithTimeout] fired. *)
Definition too_late (timeout : N) (x : exchange) : Prop :=
  (timeout <= latency x)%N.

(** What a test that ends in its [catch] leaves of [p]: one request more,
    the badge (if the page has it) KO in the error class, the button
    enabled, and as the last two steps the error handed to [addLog] and
    the button released. *)
Definition aborted (b : button) (id : badge_id) (sent : request)
    (thrown : msg) (p p' : page) : Prop :=
  requests p' = requests p ++ [sent] /\
  badges p' id = option_map (fun _ => ko_badge) (badges p id) /\
  button_released b p p' /\
  exists q, p' = set_disabled b false (addLog thrown error_ q).

(** [r.success] is truthy, for an element [r] of [data.results]. *)
Definition succeeded (r : value) : bool :=
  match r with
  | VObj fields => truthy (lookup "success" fields)
  | _ => false
  end.

(** The fragment carries another id than [cameraId]. *)
Definition other_than (cameraId : string) (f : fragment) : bool :=
  negb (String.eqb (camera_id f) cameraId).

(** The ids camera_1 .. camera_n in order. *)
Definition ids_upto (n : nat) : list string := map camera_name (seq 1 n).

(** The click handler of #clear-cameras, given the answer to its
    [confirm]. *)
Definition clear_cameras_click (confirmed : bool) (p : page) : page :=
  if confirmed then clearCamerasStorage (clearExistingCameras p) else p.

(** Every control of the form passes [validateField]. *)
Definition fields_pass (isValidUrl : string -> bool) (p : page) : bool :=
  forallb (fun f => fst (validateField isValidUrl f)) (form p).

(** The mode is "ollama" and OLLAMA_URL is given and is no URL. *)
Definition ollama_url_rejected (isValidUrl : string -> bool)
    (config : list (string * config_value)) : bool :=
  config_is "AI_API_MODE" "ollama" config
  && config_truthy "OLLAMA_URL" config
  && negb (config_valid_url isValidUrl "OLLAMA_URL" config).
End AdminMore.

(** ** IActionApp: further handlers and observers *)

Module AppMore.
Import JS JSMore App.

(** What the capture handlers may change besides the console, the
    requests, and the start button with its spinner: the two flags of the
    object, the stop button, the toggle button, the placeholders and the
    video element. *)
Definition capture_view (p : page)
    : bool * bool * bool * option N * bool
      * (display * display * display * display)
      * (string * string * string) :=
  (isCapturing p, captureInProgress p, isVideoStreamVisible p,
   videoUpdateInterval p, stop_disabled p,
   (toggle_display p, no_capture_display p, capture_ready_display p,
    video_display p),
   (video_src p, toggle_text p, toggle_icon p)).

(** The request is answered with [response.ok] and a body that
    [response.json()] can read. *)
Definition answered_ok (reply : settled response) : bool :=
  match reply with
  | Fulfilled r =>
      ok r && match json r with Fulfilled _ => true | Rejected _ => false end
  | Rejected _ => false
  end.

(** The answer to /api/capture_status is ok with an object whose
    [is_capturing] is truthy. *)
Definition found_capturing (reply : settled response) : bool :=
  match reply with
  | Fulfilled r =>
      ok r && match json r with
              | Fulfilled (VObj fields) =>
                  truthy (lookup "is_capturing" fields)
              | _ => false
              end
  | Rejected _ => false
  end.

(** *** Handlers around the single capture and the detections

    The state of these handlers is the page of [App] and, beside it,
    what only they write: their console lines, the DELETE requests, and
    the title and the save button of the detection modal.  The lines and
    requests of this part are kept in traces of their own, so the order
    between a line written here and a line written by a function of
    [App] is not kept. *)

Inductive msg : Type :=
| CaptureFoundAtStartup         (* 'Capture détectée en cours - Bouton "Voir
                                   le flux live" disponible' *)
| NoCaptureAtStartup            (* console.log("Aucune capture en cours au
                                   démarrage") *)
| StartupCheckFailed (e : error) (* console.log("Impossible de vérifier
                                   l'état de capture:", error.message) *)
| NoCaptureForStream            (* " Aucune capture en cours. Démarrez
                                   d'abord une capture RTSP." *)
| StreamHidden                  (* console.log("Flux vidéo masqué") *)
| StreamShown                   (* console.log("Flux vidéo affiché") *)
| DetectionNotFound             (* "Détection introuvable pour édition" *)
| DetectionRemoved              (* "Détection supprimée" *)
| RemoveRefused (reason : value) (* "Erreur: ${result.error}" *)
| RemoveFailed (e : error).     (* "Erreur lors de la suppression: ..." *)

Record state : Type := {
  core : page;
  lines : list (console_method * msg);
  deletions : list string;      (* DELETE /api/detections/${detectionId} *)
  modal_title : string;
  save_label : string
}.

(** A function of [App] on the page. *)
Definition on_core (f : page -> page) (s : state) : state :=
  {| core := f (core s); lines := lines s; deletions := deletions s;
     modal_title := modal_title s; save_label := save_label s |}.

Definition line (method : console_method) (m : msg) (s : state) : state :=
  {| core := core s; lines := lines s ++ [(method, m)];
     deletions := deletions s; modal_title := modal_title s;
     save_label := save_label s |}.

(** [addLog(message, type)] for a line of this part. *)
Definition log (m : msg) (type : level) (s : state) : state :=
  if shouldLog (logLevel (core s)) type
  then line (consoleLog_method type) m s else s.

Definition delete (detectionId : string) (s : state) : state :=
  {| core := core s; lines := lines s;
     deletions := deletions s ++ [detectionId];
     modal_title := modal_title s; save_label := save_label s |}.

Definition set_modal (title save : string) (s : state) : state :=
  {| core := core s; lines := lines s; deletions := deletions s;
     modal_title := title; save_label := save |}.

(** [checkCaptureStatus()], called once by [init()]. *)
Definition checkCaptureStatus (reply : settled response) : state -> state :=
  try_catch
    (modify (on_core (send status_request)) ;;;
     response <- await reply ;;
     if ok response then
       data <- await (json response) ;;
       is_capturing <- get data "is_capturing" ;;
       if truthy is_capturing then
         modify (on_core (fun p =>
           showToggleButton
             (updateCaptureControls
                (set_captureInProgress true (set_isCapturing true p))))) ;;;
         modify (log CaptureFoundAtStartup success)
       else modify (line console_log NoCaptureAtStartup)
     else ret tt)%exec
    (fun e => line console_log (StartupCheckFailed e)).

(** [toggleVideoStream()] at the time [now]. *)
Definition toggleVideoStream (now : N) (s : state) : state :=
  if negb (captureInProgress (core s)) then log NoCaptureForStream warning s
  else if isVideoStreamVisible (core s) then
    line console_log StreamHidden
      (on_core (fun p =>
         set_isVideoStreamVisible false
           (set_toggle_icon "bi bi-eye"
              (set_toggle_text "Voir le flux live"
                 (set_capture_ready_display block
                    (set_video_src "" (set_video_display none p)))))) s)
  else
    line console_log StreamShown
      (on_core (fun p =>
         set_isVideoStreamVisible true
           (set_toggle_icon "bi bi-eye-slash"
              (set_toggle_text "Masquer le flux"
                 (set_capture_ready_display none
                    (set_video_display block
                       (set_video_src
                          ("/video_feed?" ++ JSMore.stamp now)%string p))))))
         s).

(** [showAddDetectionModal()] *)
Definition showAddDetectionModal (s : state) : state :=
  on_core (fun p =>
    set_modal_shown true
      (set_detection_webhook ""
         (set_detection_phrase ""
            (set_detection_name "" (set_editDetectionId VNull p)))))
    (set_modal "Ajouter une Détection" "Sauvegarder" s).

Section Modal.

(** [String(v)] for a value that is not a string: the engine's
    conversion. *)
Variable String_of : value -> string.

(** [showEditDetectionModal(detection)] *)
Definition showEditDetectionModal (detection : value) : Exec state unit :=
  (id <- get detection "id" ;;
   name <- get detection "name" ;;
   phrase <- get detection "phrase" ;;
   webhook_url <- get detection "webhook_url" ;;
   modify (on_core (fun p =>
     set_modal_shown true
       (set_detection_webhook
          (JSMore.text_of String_of (or_else webhook_url (VStr "")))
          (set_detection_phrase
             (JSMore.text_of String_of (or_else phrase (VStr "")))
             (set_detection_name
                (JSMore.text_of String_of (or_else name (VStr "")))
                (set_editDetectionId id p)))))) ;;;
   modify (set_modal "Modifier une Détection" "Mettre à jour"))%exec.

(** [this.detections.find((d) => d.id === detectionId)] for a string
    [detectionId]. *)
Fixpoint find_detection (detectionId : string) (items : list value)
    : Exec state (option value) :=
  match items with
  | [] => ret None
  | d :: rest =>
      (id <- get d "id" ;;
       if is_string id detectionId then ret (Some d)
       else find_detection detectionId rest)%exec
  end.

(** [editDetection(detectionId)], as the edit button of a list item
    calls it: with the id as a string.  An exception leaves the
    handler. *)
Definition editDetection (detectionId : string) : Exec state unit :=
  (detections <- gets (fun s => detections (core s)) ;;
   match detections with
   | VArr items =>
       det <- find_detection detectionId items ;;
       match det with
       | Some detection => showEditDetectionModal detection
       | None => modify (log DetectionNotFound error_)
       end
   | VUndefined | VNull =>
       throw (TypeError "Cannot read properties of null (reading 'find')")
   | _ => throw (TypeError "this.detections.find is not a function")
   end)%exec.

End Modal.

(** [removeDetection(detectionId)], given the answer to [confirm] and
    what the two fetches settle with.  [loadDetections()] is not
    awaited: its request is sent before the line "Détection supprimée"
    is written and it goes on after the handler ended, which makes no
    difference to the state kept here. *)
Definition removeDetection (confirmed : bool) (detectionId : string)
    (reply reload : settled response) (s : state) : state :=
  if negb confirmed then s
  else
    try_catch
      (modify (delete detectionId) ;;;
       response <- await reply ;;
       result <- await (json response) ;;
       if ok response then
         modify (on_core (loadDetections reload)) ;;;
         modify (log DetectionRemoved info)
       else
         reason <- get result "error" ;;
         modify (log (RemoveRefused reason) error_))%exec
      (fun e => log (RemoveFailed e) error_)
      s.

(** The state around a page of [App], before any handler of this part
    ran. *)
Definition around (p : page) : state :=
  {| core := p; lines := []; deletions := [];
     modal_title := "Ajouter une Détection"; save_label := "Sauvegarder" |}.
End AppMore.

(** ** IActionApp: the multi-camera handlers (static/app.js)

    The handlers of this part read and write a part of the page of their
    own: the two multi-capture buttons, the grid of camera tiles, the
    elements of the main camera, [this.camerasConfig], and the item
    additional_cameras of localStorage, which the admin page writes.
    [this.activeCameras] is only ever set to [{}] and is left out. *)

Module Multi.
Import JS JSMore.

(** Log lines, named after their text. *)
Inductive msg : Type :=
| Starting                      (* "Démarrage de la capture multi-caméras..." *)
| ConfigLoaded (count : nat)    (* "Configuration chargée: ${n} caméra(s)
                                   configurée(s)" *)
| OnlyMainCamera                (* "Seule la caméra principale sera
                                   démarrée. ..." *)
| Started (succeeded total : nat) (* "${k}/${n} caméra(s) démarrée(s)" *)
| StartRefused (reason : value) (* "Erreur: ${result.error}" *)
| StartFailed (e : error)       (* "Erreur lors du démarrage multi-caméras:
                                   ${error.message}" *)
| Stopping                      (* "Arrêt de la capture multi-caméras..." *)
| Stopped                       (* "Capture multi-caméras arrêtée" *)
| StopInfo (message : value)    (* "ℹ️ ${result.message}" *)
| StopRefused (reason : value)  (* "Erreur lors de l'arrêt: ${result.error}" *)
| StopFailed (e : error)        (* "Erreur lors de l'arrêt multi-caméras:
                                   ${error.message}" *)
| StopFailedConsole (e : error) (* console.error('Erreur stopMultiCapture:',
                                   error) *)
| GridResetting                 (* "Réinitialisation de la grille des
                                   caméras..." *)
| GridRemoving (count : nat)    (* "Suppression de ${n} caméra(s)
                                   supplémentaire(s)" *)
| GridReset.                    (* "Grille des caméras réinitialisée" *)

(** The two requests of this part, both POST. *)
Inductive request : Type :=
| StartMultiple (cameras : list Admin.camera_config)
    (* /api/admin/cameras/start_multiple, body { cameras } *)
| StopAll.
    (* /api/stop_capture, body {} *)

(** A multi-capture button: [disabled], and whether its label is the
    spinner ("Démarrage...", "Arrêt...") or the idle label. *)
Record multi_button : Type := { btn_disabled : bool; btn_busy : bool }.

(** A tile of the grid: the [div] with its data-camera-id, the result
    its markup was rendered from, and what [toggleCameraStream] changes:
    the image, the placeholder and the icon of the eye button. *)
Record tile : Type := {
  tile_id : string;
  tile_result : value;
  stream_display : App.display;
  stream_src : string;
  placeholder_display : App.display;
  tile_icon : string
}.

(** The elements of the main camera: the status badge with its text and
    whether its class is "badge bg-success" (otherwise "badge
    bg-secondary"), the toggle button and its icon, the two placeholders
    with the heading of the second, and the image. *)
Record main_camera : Type := {
  status_text : value;
  status_active : bool;
  main_toggle_display : App.display;
  main_icon : string;
  main_no_capture : App.display;
  main_ready : App.display;
  main_ready_text : value;
  main_stream_display : App.display;
  main_stream_src : string
}.

Record page : Type := {
  logLevel : level;
  console : list (console_method * msg);
  requests : list request;
  additional_cameras : option (list Admin.camera);
  camerasConfig : list Admin.camera_config;
  start_button : multi_button;
  stop_button : multi_button;
  grid : list tile;
  main : main_camera
}.

Definition with_console (f : list (console_method * msg)
                              -> list (console_method * msg)) (p : page)
    : page :=
  {| logLevel := logLevel p; console := f (console p);
     requests := requests p; additional_cameras := additional_cameras p;
     camerasConfig := camerasConfig p; start_button := start_button p;
     stop_button := stop_button p; grid := grid p; main := main p |}.

Definition with_requests (f : list request -> list request) (p : page)
    : page :=
  {| logLevel := logLevel p; console := console p;
     requests := f (requests p); additional_cameras := additional_cameras p;
     camerasConfig := camerasConfig p; start_button := start_button p;
     stop_button := stop_button p; grid := grid p; main := main p |}.

Definition with_camerasConfig (v : list Admin.camera_config) (p : page)
    : page :=
  {| logLevel := logLevel p; console := console p; requests := requests p;
     additional_cameras := additional_cameras p; camerasConfig := v;
     start_button := start_button p; stop_button := stop_button p;
     grid := grid p; main := main p |}.

Definition with_start_button (f : multi_button -> multi_button) (p : page)
    : page :=
  {| logLevel := logLevel p; console := console p; requests := requests p;
     additional_cameras := additional_cameras p;
     camerasConfig := camerasConfig p; start_button := f (start_button p);
     stop_button := stop_button p; grid := grid p; main := main p |}.

Definition with_stop_button (f : multi_button -> multi_button) (p : page)
    : page :=
  {| logLevel := logLevel p; console := console p; requests := requests p;
     additional_cameras := additional_cameras p;
     camerasConfig := camerasConfig p; start_button := start_button p;
     stop_button := f (stop_button p); grid := grid p; main := main p |}.

Definition with_grid (f : list tile -> list tile) (p : page) : page :=
  {| logLevel := logLevel p; console := console p; requests := requests p;
     additional_cameras := additional_cameras p;
     camerasConfig := camerasConfig p; start_button := start_button p;
     stop_button := stop_button p; grid := f (grid p); main := main p |}.

Definition with_main (f : main_camera -> main_camera) (p : page) : page :=
  {| logLevel := logLevel p; console := console p; requests := requests p;
     additional_cameras := additional_cameras p;
     camerasConfig := camerasConfig p; start_button := start_button p;
     stop_button := stop_button p; grid := grid p; main := f (main p) |}.

(** [btn.disabled = v] and [btn.innerHTML = ...] *)
Definition disable (v : bool) (b : multi_button) : multi_button :=
  {| btn_disabled := v; btn_busy := btn_busy b |}.

Definition label (busy : bool) (b : multi_button) : multi_button :=
  {| btn_disabled := btn_disabled b; btn_busy := busy |}.

(** [consoleLog(type, message)] and [addLog(message, type)], as in
    [App]. *)
Definition consoleLog (type : level) (m : msg) (p : page) : page :=
  with_console (fun c => c ++ [(consoleLog_method type, m)]) p.

Definition addLog (m : msg) (type : level) (p : page) : page :=
  if shouldLog (logLevel p) type then consoleLog type m p else p.

Definition console_line (method : console_method) (m : msg) (p : page)
    : page :=
  with_console (fun c => c ++ [(method, m)]) p.

Definition send (r : request) (p : page) : page :=
  with_requests (fun rs => rs ++ [r]) p.

(** [loadCamerasConfiguration()] of app.js: the descriptors that the
    admin page stored become [this.camerasConfig], by the same mapping as
    in [testCameras] of admin.js.  The stored text is the one that
    [saveCamerasConfiguration] wrote, so [JSON.parse] gives the array
    back and the [catch] clause is not reached. *)
Definition loadCamerasConfiguration (p : page) : page :=
  let p := match additional_cameras p with
           | Some cameras =>
               with_camerasConfig (map Admin.camera_to_test cameras) p
           | None => with_camerasConfig [] p
           end in
  addLog (ConfigLoaded (List.length (camerasConfig p))) info p.

(** [updateMainCameraStatus(isActive, message)]; a missing [message] is
    [null], which is as falsy as [undefined].  The elements, the heading
    of the placeholder included, are taken to exist. *)
Definition updateMainCameraStatus (isActive message : value)
    (m : main_camera) : main_camera :=
  if truthy isActive then
    {| status_text := VStr "Active"; status_active := true;
       main_toggle_display := App.unset; main_icon := main_icon m;
       main_no_capture := App.none; main_ready := App.block;
       main_ready_text := if truthy message then message
                          else main_ready_text m;
       main_stream_display := main_stream_display m;
       main_stream_src := main_stream_src m |}
  else
    {| status_text := or_else message (VStr "Arrêtée");
       status_active := false;
       main_toggle_display := App.none; main_icon := main_icon m;
       main_no_capture := App.block; main_ready := App.none;
       main_ready_text := main_ready_text m;
       main_stream_display := main_stream_display m;
       main_stream_src := main_stream_src m |}.

Section Grid.

(** [String(v)] for a value that is not a string: the engine's
    conversion. *)
Variable String_of : value -> string.

(** The tile that [addCameraToGrid(cameraResult)] appends: the image is
    hidden, the placeholder is shown by the style sheet. *)
Definition new_tile (cameraResult camera_id : value) : tile :=
  {| tile_id := JSMore.text_of String_of camera_id;
     tile_result := cameraResult;
     stream_display := App.none; stream_src := "";
     placeholder_display := App.unset; tile_icon := "bi bi-eye" |}.

(** [addCameraToGrid(cameraResult)] *)
Definition addCameraToGrid (cameraResult : value) : Exec page unit :=
  (camera_id <- get cameraResult "camera_id" ;;
   modify (with_grid (fun g => g ++ [new_tile cameraResult camera_id])))%exec.

(** The loop of [setupCamerasGrid] *)
Fixpoint place_results (results : list value) : Exec page unit :=
  match results with
  | [] => ret tt
  | result :: rest =>
      (camera_id <- get result "camera_id" ;;
       (if is_string camera_id "main" then
          succeeded <- get result "success" ;;
          message <- get result "message" ;;
          modify (with_main (updateMainCameraStatus succeeded message))
        else addCameraToGrid result) ;;;
       place_results rest)%exec
  end.

(** [setupCamerasGrid(results)]: the tiles are removed before
    [results.forEach] is looked up. *)
Definition setupCamerasGrid (results : value) : Exec page unit :=
  (modify (with_grid (fun _ => [])) ;;;
   match results with
   | VArr items => place_results items
   | VUndefined | VNull =>
       throw (TypeError "Cannot read properties of undefined")
   | _ => throw (TypeError "results.forEach is not a function")
   end)%exec.

(** [result.results.filter((r) => r.success).length] *)
Fixpoint count_successes (results : list value) : Exec page nat :=
  match results with
  | [] => ret 0
  | r :: rest =>
      (succeeded <- get r "success" ;;
       n <- count_successes rest ;;
       ret (if truthy succeeded then S n else n))%exec
  end.

(** The camera that [startMultiCapture] puts first. *)
Definition main_config : Admin.camera_config :=
  {| Admin.cfg_id := "main"; Admin.cfg_name := "Caméra Principale";
     Admin.cfg_mode := "rtsp"; Admin.cfg_rtsp_url := None;
     Admin.cfg_rtsp_username := None; Admin.cfg_rtsp_password := None;
     Admin.cfg_ha_entity := None; Admin.cfg_ha_attr := None;
     Admin.cfg_ha_interval := None |}.

(** [startMultiCapture()]; [reply] is what the fetch settles with. *)
Definition startMultiCapture (reply : settled response) : page -> page :=
  try_catch_finally
    (modify (addLog Starting info) ;;;
     modify loadCamerasConfiguration ;;;
     modify (with_start_button (fun b => label true (disable true b))) ;;;
     allCameras <- gets (fun p => main_config :: camerasConfig p) ;;
     (if Nat.eqb (List.length allCameras) 1
      then modify (addLog OnlyMainCamera info) else ret tt) ;;;
     modify (send (StartMultiple allCameras)) ;;;
     response <- await reply ;;
     result <- await (json response) ;;
     succeeded <- get result "success" ;;
     if truthy succeeded then
       results <- get result "results" ;;
       setupCamerasGrid results ;;;
       modify (with_start_button (disable true)) ;;;
       modify (with_stop_button (disable false)) ;;;
       match results with
       | VArr items =>
           successCount <- count_successes items ;;
           modify (addLog (Started successCount (List.length items)) success)
       | _ => throw (TypeError "result.results.filter is not a function")
       end
     else
       reason <- get result "error" ;;
       modify (addLog (StartRefused reason) error_))%exec
    (fun e => addLog (StartFailed e) error_)
    (with_start_button (fun b => label false (disable false b))).

(** [resetCamerasGrid()]; [this.activeCameras], which nothing reads, is
    left out. *)
Definition resetCamerasGrid (p : page) : page :=
  let p := addLog GridResetting info p in
  let p := addLog (GridRemoving (List.length (grid p))) info p in
  let p := with_grid (fun _ => []) p in
  let p := with_main (updateMainCameraStatus (VBool false) (VStr "Arrêtée"))
             p in
  let p := with_main
             (fun m =>
                {| status_text := status_text m;
                   status_active := status_active m;
                   main_toggle_display := main_toggle_display m;
                   main_icon := main_icon m;
                   main_no_capture := main_no_capture m;
                   main_ready := main_ready m;
                   main_ready_text := main_ready_text m;
                   main_stream_display := App.none;
                   main_stream_src := "" |}) p in
  addLog GridReset success p.

(** [stopMultiCapture()]; the error thrown for a response that is not
    ok is kept by its status. *)
Definition stopMultiCapture (reply : settled response) : page -> page :=
  try_catch_finally
    (modify (addLog Stopping info) ;;;
     modify (with_stop_button (fun b => label true (disable true b))) ;;;
     modify (send StopAll) ;;;
     response <- await reply ;;
     (if negb (ok response) then throw (HttpError (status response))
      else ret tt) ;;;
     result <- await (json response) ;;
     succeeded <- get result "success" ;;
     if truthy succeeded then
       modify resetCamerasGrid ;;;
       modify (with_start_button (disable false)) ;;;
       modify (with_stop_button (disable true)) ;;;
       modify (addLog Stopped success) ;;;
       message <- get result "message" ;;
       modify (addLog (StopInfo message) info)
     else
       reason <- get result "error" ;;
       modify (addLog (StopRefused reason) error_))%exec
    (fun e p =>
       console_line console_error (StopFailedConsole e)
         (addLog (StopFailed e) error_ p))
    (fun p =>
       with_stop_button (fun b => label false (disable true b))
         (with_start_button (fun b => label false (disable false b)) p)).

End Grid.

(** *** Observers for the statements *)

(** The body of the reply is an object whose [success] is truthy; the
    stop request also needs [response.ok]. *)
Definition reports_success (reply : settled response) : bool :=
  match reply with
  | Fulfilled r =>
      match json r with
      | Fulfilled (VObj fields) => truthy (lookup "success" fields)
      | _ => false
      end
  | Rejected _ => false
  end.

Definition stop_confirmed (reply : settled response) : bool :=
  match reply with
  | Fulfilled r => ok r && reports_success reply
  | Rejected _ => false
  end.

Definition is_main (result : value) : bool :=
  is_string (field result "camera_id") "main".

Definition succeeded (result : value) : bool :=
  truthy (field result "success").

(** The tiles that a list of results gives: one for each result whose
    [camera_id] is not "main", in the order of the list. *)
Definition tiles_of (String_of : value -> string) (results : list value)
    : list tile :=
  map (fun r => new_tile String_of r (field r "camera_id"))
    (filter (fun r => negb (is_main r)) results).

(** The main camera after the results: each result for "main" updates
    it in turn. *)
Definition main_after (results : list value) (m : main_camera)
    : main_camera :=
  fold_left
    (fun m r =>
       if is_main r
       then updateMainCameraStatus (field r "success") (field r "message") m
       else m)
    results m.

(** The stored descriptors, none when the item is not set. *)
Definition stored (p : page) : list Admin.camera :=
  match additional_cameras p with
  | Some cameras => cameras
  | None => []
  end.

(** What the handlers change besides the console. *)
Definition view (p : page)
    : list request * multi_button * multi_button * list tile * main_camera
      * list Admin.camera_config :=
  (requests p, start_button p, stop_button p, grid p, main p,
   camerasConfig p).

Definition idle_enabled : multi_button :=
  {| btn_disabled := false; btn_busy := false |}.

Definition idle_disabled : multi_button :=
  {| btn_disabled := true; btn_busy := false |}.

(** A page for the examples: both buttons idle, the stop button
    disabled, no tile, the main camera stopped. *)
Definition fresh_page : page :=
  {| logLevel := info; console := []; requests := [];
     additional_cameras := None; camerasConfig := [];
     start_button := idle_enabled; stop_button := idle_disabled;
     grid := [];
     main := {| status_text := VStr "Arrêtée"; status_active := false;
                main_toggle_display := App.none; main_icon := "bi bi-eye";
                main_no_capture := App.block; main_ready := App.none;
                main_ready_text := VStr "";
                main_stream_display := App.none; main_stream_src := "" |} |}.

(** The tile shows its placeholder and no stream. *)
Definition tile_hidden (t : tile) : Prop :=
  stream_display t = App.none /\ stream_src t = "".
End Multi.

(** ** The log level of both classes, as the string it is

    [initLogLevelFromUrl()] and [shouldLog(type)] are the same in
    admin.js and app.js but for the name of the localStorage item,
    ADMIN_LOG_LEVEL and LOG_LEVEL. *)

Module LogLevel.
Import JS.

(** The name of a level, as the call sites of [addLog] write it. *)
Definition name_of (l : level) : string :=
  match l with
  | error_ => "error" | warning => "warning" | info => "info"
  | success => "success" | debug => "debug"
  end.

(** [this.logLevels[k]] for an own property. *)
Definition own_level (k : string) : option level :=
  if String.eqb k "error" then Some error_
  else if String.eqb k "warning" then Some warning
  else if String.eqb k "info" then Some info
  else if String.eqb k "success" then Some success
  else if String.eqb k "debug" then Some debug
  else None.

(** The names that an object literal inherits from [Object.prototype]. *)
Definition inherited : list string :=
  ["constructor"; "__proto__"; "hasOwnProperty"; "isPrototypeOf";
   "propertyIsEnumerable"; "toLocaleString"; "toString"; "valueOf";
   "__defineGetter__"; "__defineSetter__"; "__lookupGetter__";
   "__lookupSetter__"].

(** [k in this.logLevels]: the operator follows the prototype chain. *)
Definition in_logLevels (k : string) : bool :=
  match own_level k with
  | Some _ => true
  | None => existsb (String.eqb k) inherited
  end.

(** localStorage as the function sees it: the item, [None] for [null],
    and whether [setItem] succeeds (it throws when the quota is
    exceeded).  No storage at all, where every access throws, is [None]
    of [option storage]. *)
Record storage : Type := { item : option string; writable : bool }.

(** [localStorage.setItem(key, v)] *)
Definition setItem (v : string) : Exec (option storage) unit :=
  fun st =>
    match st with
    | Some s =>
        if writable s
        then (Normal tt, Some {| item := Some v; writable := true |})
        else (Thrown (NetworkError "QuotaExceededError"), st)
    | None => (Thrown (NetworkError "SecurityError"), st)
    end.

(** [localStorage.getItem(key)] *)
Definition getItem : Exec (option storage) (option string) :=
  fun st =>
    match st with
    | Some s => (Normal (item s), st)
    | None => (Thrown (NetworkError "SecurityError"), st)
    end.

(** [a || d] for a string or [null]. *)
Definition string_or (a : option string) (d : string) : string :=
  match a with
  | Some s => if nonempty_s s then s else d
  | None => d
  end.

(** [initLogLevelFromUrl()]: [param] is the value of [log] in the query
    string, [None] when [p.has("log")] is false.  The result is
    [this.logLevel] and the storage. *)
Definition initLogLevelFromUrl (param : option string)
    (st : option storage) : string * option storage :=
  let body : Exec (option storage) string :=
    ((match param with
      | Some v =>
          let lvl := toLowerCase (string_or (Some v) "") in
          if in_logLevels lvl then setItem lvl else ret tt
      | None => ret tt
      end) ;;;
     saved <- getItem ;;
     let stored := toLowerCase (string_or saved "info") in
     ret (if in_logLevels stored then stored else "info"))%exec in
  match body st with
  | (Normal logLevel, st') => (logLevel, st')
  | (_, st') => ("info", st')
  end.

(** [shouldLog(type)] with [this.logLevel] as a string: [lvl <= current],
    where [current] is the number of an own name, 2 (by [?? 2]) for a
    name that the object does not have, and for an inherited name the
    function or object found there, which compares as NaN. *)
Definition shouldLog (logLevel : string) (type : level) : bool :=
  match own_level logLevel with
  | Some current => Nat.leb (logLevels type) (logLevels current)
  | None =>
      if in_logLevels logLevel then false
      else Nat.leb (logLevels type) 2
  end.

(** The level is one that silences every line. *)
Definition silent (logLevel : string) : Prop :=
  forall type, shouldLog logLevel type = false.
End LogLevel.

(** ** Symbolic execution of a handler

    One step: unfold the monad operations, then split on the first awaited
    promise, value read or condition that is still open. *)
Ltac exec_step :=
  cbv beta iota zeta delta
    [JS.bind JS.modify JS.ret JS.throw JS.leave JS.await JS.get JS.gets
     fst snd];
  match goal with
  | |- context [match ?x with JS.Fulfilled _ => _ | JS.Rejected _ => _ end] =>
      destruct x
  | |- context [match ?x with JS.VUndefined => _ | _ => _ end] => destruct x
  | |- context [if ?b then _ else _] => destruct b
  end.

(** ** AdminApp: properties *)

Module AdminFacts.
Import JS Admin.

Lemma addLog_frame m t p :
  logLevel (addLog m t p) = logLevel p /\
  requests (addLog m t p) = requests p /\
  reloaded (addLog m t p) = reloaded p /\
  disabled (addLog m t p) = disabled p /\
  badges (addLog m t p) = badges p.
Proof. unfold addLog; destruct (shouldLog _ _); repeat split. Qed.

Lemma addLog_shown m t p :
  shouldLog (logLevel p) t = true ->
  console (addLog m t p) = console p ++ [(consoleLog_method t, m)].
Proof. unfold addLog; intros ->; reflexivity. Qed.

(** The poll touches nothing but the request trace. *)
Lemma waitLoop_frame fuel net : forall k t m p b p',
  waitLoop fuel net k t m p = Some (b, p') ->
  logLevel p' = logLevel p /\ console p' = console p /\
  reloaded p' = reloaded p /\ disabled p' = disabled p /\
  badges p' = badges p.
Proof.
  induction fuel as [|fuel IH]; intros k t m p b p' H; simpl in H.
  - discriminate.
  - destruct (t <? m * 1000)%N.
    + destruct (fst (fetchWithTimeout _ _)) as [r|e].
      * destruct (ok r).
        -- inversion H; subst; repeat split.
        -- apply IH in H; simpl in H; exact H.
      * apply IH in H; simpl in H; exact H.
    + inversion H; subst; repeat split.
Qed.

Lemma time_from_grows net : forall j k t,
  (t + 1000 * N.of_nat j <= time_from net k t j)%N.
Proof.
  induction j as [|j IH]; intros k t; simpl time_from.
  - lia.
  - specialize (IH (S k) (t + round_time net k t)%N).
    unfold round_time in *. lia.
Qed.

(** A probe issued before the deadline that answers ok ends the poll
    with [true]. *)
Lemma waitLoop_true net m : forall j fuel k t p,
  j < fuel ->
  (time_from net k t j < m * 1000)%N ->
  probe_ok net (k + j) (time_from net k t j) = true ->
  exists p', waitLoop fuel net k t m p = Some (true, p').
Proof.
  induction j as [|j IH]; intros fuel k t p Hf Ht Hok;
    (destruct fuel as [|fuel]; [lia|]); simpl waitLoop.
  - simpl in Ht, Hok. rewrite Nat.add_0_r in Hok.
    apply N.ltb_lt in Ht; rewrite Ht.
    unfold probe_ok in Hok.
    destruct (fst (fetchWithTimeout _ _)) as [r|e]; [|discriminate].
    rewrite Hok. eauto.
  - pose proof (time_from_grows net (S j) k t) as Hg.
    assert (Hlt : (t <? m * 1000)%N = true) by (apply N.ltb_lt; lia).
    rewrite Hlt. simpl in Ht, Hok.
    replace (k + S j) with (S k + j) in Hok by lia.
    unfold round_time in Ht, Hok. rewrite !N.add_assoc in Ht, Hok.
    destruct (fst (fetchWithTimeout _ _)) as [r|e].
    + destruct (ok r); [eauto|]. apply IH; [lia|exact Ht|exact Hok].
    + apply IH; [lia|exact Ht|exact Hok].
Qed.

(** When no probe issued before the deadline answers ok, the poll ends
    with [false], provided the fuel covers the remaining time. *)
Lemma waitLoop_false net m : forall fuel k t p,
  (m * 1000 <= t + 1000 * N.of_nat fuel)%N ->
  (forall j, (time_from net k t j < m * 1000)%N ->
             probe_ok net (k + j) (time_from net k t j) = false) ->
  exists p', waitLoop (S fuel) net k t m p = Some (false, p').
Proof.
  induction fuel as [|fuel IH]; intros k t p Hf Hno;
    cbn [waitLoop]; destruct (t <? m * 1000)%N eqn:Hlt; eauto;
    apply N.ltb_lt in Hlt; [lia|].
  pose proof (Hno 0) as H0; simpl in H0; rewrite Nat.add_0_r in H0.
  specialize (H0 Hlt). unfold probe_ok in H0.
  assert (Hrec : exists p', waitLoop (S fuel) net (S k)
             (t + snd (fetchWithTimeout (probe_exchange (net k t)) 2000)
              + 1000 + timer_lag (net k t))%N m (send metrics_probe p)
             = Some (false, p')).
  { apply IH.
    - lia.
    - intros j Hj. specialize (Hno (S j)). simpl in Hno.
      unfold round_time in Hno. rewrite !N.add_assoc in Hno.
      replace (k + S j) with (S k + j) in Hno by lia.
      auto. }
  destruct (fst (fetchWithTimeout _ _)) as [r|e]; [|exact Hrec].
  rewrite H0. exact Hrec.
Qed.

Lemma waitLoop_total net m : forall fuel k t p,
  (m * 1000 <= t + 1000 * N.of_nat fuel)%N ->
  exists r, waitLoop (S fuel) net k t m p = Some r.
Proof.
  induction fuel as [|fuel IH]; intros k t p Hf;
    cbn [waitLoop]; destruct (t <? m * 1000)%N eqn:Hlt; eauto;
    apply N.ltb_lt in Hlt; [lia|].
  destruct (fst (fetchWithTimeout _ _)) as [r|e];
    [destruct (ok r); eauto|]; apply IH; lia.
Qed.

(** The poll always returns: its fuel is never used up. *)
Lemma waitForServerBack_total net m p :
  exists r, waitForServerBack net m p = Some r.
Proof. unfold waitForServerBack. apply waitLoop_total. lia. Qed.

Lemma waitForServerBack_true net m p k :
  (issue_time net k < m * 1000)%N -> answers_ok net k = true ->
  exists p', waitForServerBack net m p = Some (true, p').
Proof.
  intros Ht Hok. unfold waitForServerBack.
  apply (waitLoop_true net m k); [|exact Ht|exact Hok].
  pose proof (time_from_grows net k 0 0%N). unfold issue_time in Ht. lia.
Qed.

Lemma waitForServerBack_false net m p :
  (forall k, (issue_time net k < m * 1000)%N -> answers_ok net k = false) ->
  exists p', waitForServerBack net m p = Some (false, p').
Proof.
  intros H. unfold waitForServerBack. apply waitLoop_false; [lia|exact H].
Qed.

Lemma restart_finally_frame p :
  console (restart_finally p) = console p /\
  reloaded (restart_finally p) = reloaded p.
Proof. split; reflexivity. Qed.

(** C1, amended.  After a confirmed restart whose POST is answered ok, the
    flow polls /api/metrics while less than 60 s have elapsed.  It always
    ends.  If some probe issued before the 60 s deadline comes back ok,
    the flow logs the success line and reloads the page; if no probe issued
    before the deadline comes back ok, it logs the manual-reload warning and
    does not reload. *)
Theorem restart_health_poll (env : restart_env) (p : page) (r : response) :
  confirm_answer env = true ->
  restart_reply env = Fulfilled r ->
  ok r = true ->
  exists p',
    restartApplication env p = Some p' /\
    ((exists k, (issue_time (health env) k < 60 * 1000)%N /\
                answers_ok (health env) k = true) ->
     reloaded p' = true /\
     (shouldLog (logLevel p) success = true ->
      exists c, console p' = c ++ [(console_log, ServerBackReloading)])) /\
    ((forall k, (issue_time (health env) k < 60 * 1000)%N ->
                answers_ok (health env) k = false) ->
     reloaded p' = reloaded p /\
     (shouldLog (logLevel p) warning = true ->
      exists c, console p' = c ++ [(console_warn, CannotConfirmRestart)])).
Proof.
  intros Hc Hr Hok. unfold restartApplication. rewrite Hc, Hr, Hok.
  cbn [negb].
  set (p2 := addLog WaitingForServer info _).
  assert (Hlvl : logLevel p2 = logLevel p /\ reloaded p2 = reloaded p).
  { subst p2.
    destruct (addLog_frame WaitingForServer info
                (addLog RestartInitiated success
                   (send restart_request
                      (set_disabled restart_app true
                         (addLog Restarting info p))))) as (-> & _ & -> & _).
    destruct (addLog_frame RestartInitiated success
                (send restart_request
                   (set_disabled restart_app true
                      (addLog Restarting info p)))) as (-> & _ & -> & _).
    cbn [send with_requests logLevel reloaded set_disabled with_disabled].
    destruct (addLog_frame Restarting info p) as (-> & _ & -> & _).
    split; reflexivity. }
  destruct Hlvl as [Hlvl Hrel].
  destruct (waitForServerBack_total (health env) 60 p2) as [[b p3] Hw].
  rewrite Hw.
  destruct (waitLoop_frame _ _ _ _ _ _ _ _ Hw) as (Hl3 & Hc3 & Hr3 & _).
  destruct b; eexists; (split; [reflexivity|]); split.
  - intros _. split; [reflexivity|]. intros Hs.
    exists (console p3). rewrite (proj1 (restart_finally_frame _)).
    cbn [with_reloaded console].
    rewrite addLog_shown by congruence. reflexivity.
  - intros Hno. exfalso.
    destruct (waitForServerBack_false (health env) 60 p2 Hno) as [p4 Hw'].
    congruence.
  - intros [k [Hk Hak]]. exfalso.
    destruct (waitForServerBack_true (health env) 60 p2 k Hk Hak) as [p4 Hw'].
    congruence.
  - intros _. cbn [restart_finally set_disabled with_disabled reloaded].
    destruct (addLog_frame CannotConfirmRestart warning p3)
      as (_ & _ & -> & _).
    split; [congruence|]. intros Hs. exists (console p3).
    rewrite (proj1 (restart_finally_frame _)).
    rewrite addLog_shown by congruence. reflexivity.
Qed.

(** With probes answered at once and timers on time, 59 non-ok answers
    followed by an ok answer to the 60th probe (issued at second 59) end
    in a reload. *)
Lemma restart_health_poll_witness :
  exists p',
    restartApplication (restart_with (back_at_probe 59 0 0)) fresh_page
      = Some p' /\
    reloaded p' = true /\
    exists c, console p' = c ++ [(console_log, ServerBackReloading)].
Proof.
  destruct (restart_health_poll (restart_with (back_at_probe 59 0 0))
              fresh_page (http 200 VNull) eq_refl eq_refl eq_refl)
    as (p' & Hrun & Hyes & _).
  exists p'. split; [exact Hrun|].
  destruct Hyes as [Hrel Hlog].
  - exists 59. split; [vm_compute; reflexivity|vm_compute; reflexivity].
  - split; [exact Hrel|]. apply Hlog. reflexivity.
Defined.

(** C1 as stated fails.  (1) An endpoint that is non-ok when asked before
    second 60 and ok when asked from second 60 on is never asked at second
    60: the loop guard is [elapsed < 60 s].  (2) When every answer takes
    20 ms, only 59 probes fit into the 60 s, so an endpoint that answers
    ok from the 60th probe on is not seen either.  (3) When the timers fire
    half a second late, an endpoint that is back from second 59 on is
    probed at 58.5 s and not again.  In each case the flow logs the
    manual-reload warning and does not reload. *)
Lemma restart_ok_at_second_60_missed :
  ((forall k t, probe_ok (back_after 60000 0 0) k t = (60000 <=? t)%N) /\
   poll_missed (back_after 60000 0 0)) /\
  ((forall k t, probe_ok (back_at_probe 59 20 0) k t = Nat.leb 59 k) /\
   poll_missed (back_at_probe 59 20 0)) /\
  ((forall k t, probe_ok (back_after 59000 0 500) k t = (59000 <=? t)%N) /\
   poll_missed (back_after 59000 0 500)).
Proof.
  assert (Hmiss : forall net p', 
            restartApplication (restart_with net) fresh_page = Some p' ->
            reloaded p' = false ->
            last (console p') (console_log, Restarting)
              = (console_warn, CannotConfirmRestart) ->
            console p' <> [] -> poll_missed net).
  { intros net p' Hrun Hrel Hl Hne. exists p'. repeat split; auto.
    exists (removelast (console p')). rewrite <- Hl.
    apply app_removelast_last, Hne. }
  repeat split.
  - intros k t. unfold probe_ok, back_after.
    rewrite (N.leb_antisym t 60000).
    destruct (t <? 60000)%N; reflexivity.
  - eapply Hmiss; [vm_compute; reflexivity|reflexivity|reflexivity|discriminate].
  - intros k t. unfold probe_ok, back_at_probe.
    rewrite (Nat.leb_antisym k 59).
    destruct (Nat.ltb k 59); reflexivity.
  - eapply Hmiss; [vm_compute; reflexivity|reflexivity|reflexivity|discriminate].
  - intros k t. unfold probe_ok, back_after.
    rewrite (N.leb_antisym t 59000).
    destruct (t <? 59000)%N; reflexivity.
  - eapply Hmiss; [vm_compute; reflexivity|reflexivity|reflexivity|discriminate].
Qed.

(** *** Camera fragments *)

Lemma addLog_cameras m t p :
  cameras (addLog m t p) = cameras p /\
  additional_cameras (addLog m t p) = additional_cameras p.
Proof. unfold addLog; destruct (shouldLog _ _); split; reflexivity. Qed.

Lemma has_camera_In cameraId p :
  has_camera cameraId p = true <-> In cameraId (camera_ids p).
Proof.
  unfold has_camera, camera_ids. rewrite existsb_exists, in_map_iff.
  split; intros [f [H1 H2]]; exists f.
  - apply String.eqb_eq in H2. auto.
  - split; [exact H2|]. apply String.eqb_eq. exact H1.
Qed.

Lemma addCameraConfig_ids p :
  camera_ids (addCameraConfig p) = camera_ids p \/
  (~ In (next_camera_id p) (camera_ids p) /\
   camera_ids (addCameraConfig p) = camera_ids p ++ [next_camera_id p]).
Proof.
  unfold addCameraConfig. fold (next_camera_id p).
  destruct (has_camera (next_camera_id p) p) eqn:E.
  - left. reflexivity.
  - right. split.
    + rewrite <- has_camera_In. congruence.
    + unfold camera_ids.
      rewrite (proj1 (addLog_cameras _ _ _)). cbn [with_cameras cameras].
      rewrite map_app. reflexivity.
Qed.

Lemma addCameraConfig_NoDup p :
  NoDup (camera_ids p) -> NoDup (camera_ids (addCameraConfig p)).
Proof.
  intros H. destruct (addCameraConfig_ids p) as [-> | [Hn ->]]; [exact H|].
  apply NoDup_rev in H. rewrite <- (rev_involutive (_ ++ _)).
  apply NoDup_rev. rewrite rev_app_distr. cbn [rev app].
  constructor; [rewrite <- in_rev; exact Hn|exact H].
Qed.

Lemma remove_fragment_sub cameraId : forall cs rest,
  remove_fragment cameraId cs = Some rest ->
  forall x, In x (map camera_id rest) -> In x (map camera_id cs).
Proof.
  induction cs as [|f cs IH]; intros rest H x Hx; cbn in H; [discriminate|].
  destruct (String.eqb (camera_id f) cameraId).
  - inversion H; subst. right. exact Hx.
  - destruct (remove_fragment cameraId cs) as [r|]; [|discriminate].
    inversion H; subst. destruct Hx as [Hx|Hx]; [left; exact Hx|].
    right. eapply IH; eauto.
Qed.

Lemma remove_fragment_NoDup cameraId : forall cs rest,
  remove_fragment cameraId cs = Some rest ->
  NoDup (map camera_id cs) -> NoDup (map camera_id rest).
Proof.
  induction cs as [|f cs IH]; intros rest H Hnd; cbn in H; [discriminate|].
  inversion Hnd as [|? ? Hnotin Hnd']; subst.
  destruct (String.eqb (camera_id f) cameraId).
  - inversion H; subst. exact Hnd'.
  - destruct (remove_fragment cameraId cs) as [r|] eqn:E; [|discriminate].
    inversion H; subst. cbn [map]. constructor.
    + intros Hin. apply Hnotin. eapply remove_fragment_sub; eauto.
    + eapply IH; eauto.
Qed.

Lemma set_named_names key v : forall fs fs',
  set_named key v fs = Some fs' -> map f_name fs' = map f_name fs.
Proof.
  induction fs as [|i fs IH]; intros fs' H; cbn in H; [discriminate|].
  destruct (String.eqb (f_name i) key).
  - inversion H; subst. reflexivity.
  - destruct (set_named key v fs) as [r|]; [|discriminate].
    inversion H; subst. cbn [map]. f_equal. apply IH. reflexivity.
Qed.

Lemma set_in_fragments_ids key v : forall cs cs',
  set_in_fragments key v cs = Some cs' ->
  map camera_id cs' = map camera_id cs.
Proof.
  induction cs as [|f cs IH]; intros cs' H; cbn in H; [discriminate|].
  destruct (set_named key v (inputs f)).
  - inversion H; subst. reflexivity.
  - destruct (set_in_fragments key v cs) as [r|]; [|discriminate].
    inversion H; subst. cbn [map]. f_equal. apply IH. reflexivity.
Qed.

Lemma populateCameraFields_ids camera : forall p,
  camera_ids (populateCameraFields camera p) = camera_ids p.
Proof.
  unfold populateCameraFields.
  induction camera as [|kv camera IH]; intros p; cbn [fold_left].
  - reflexivity.
  - rewrite IH.
    destruct (set_in_fragments (fst kv) (snd kv) (cameras p)) eqn:E.
    + unfold camera_ids. cbn [with_cameras cameras].
      eapply set_in_fragments_ids; eauto.
    + reflexivity.
Qed.

Lemma loadCamerasConfiguration_NoDup p :
  NoDup (camera_ids (loadCamerasConfiguration p)).
Proof.
  unfold loadCamerasConfiguration.
  destruct (additional_cameras (clearExistingCameras p)) as [cs|];
    [|constructor].
  assert (H0 : NoDup (camera_ids (clearExistingCameras p))) by constructor.
  revert H0. generalize (clearExistingCameras p).
  induction cs as [|c cs IH]; intros q Hq; cbn [fold_left]; [exact Hq|].
  apply IH. rewrite populateCameraFields_ids.
  apply addCameraConfig_NoDup, Hq.
Qed.

Lemma act_NoDup p a :
  NoDup (camera_ids p) -> NoDup (camera_ids (act p a)).
Proof.
  intros H. destruct a as [|cameraId| | |]; cbn [act].
  - apply addCameraConfig_NoDup, H.
  - unfold removeCameraConfig.
    destruct (remove_fragment cameraId (cameras p)) as [rest|] eqn:E;
      [|exact H].
    unfold camera_ids, saveCamerasConfiguration.
    cbn [snd with_additional_cameras cameras].
    rewrite (proj1 (addLog_cameras _ _ _)). cbn [with_cameras cameras].
    eapply remove_fragment_NoDup; eauto.
  - unfold clearCamerasStorage, camera_ids.
    rewrite (proj1 (addLog_cameras _ _ _)). constructor.
  - apply loadCamerasConfiguration_NoDup.
  - exact H.
Qed.

(** C5.  When the id that [addCameraConfig] would generate,
    camera_{count+1}, is already the data-camera-id of a fragment, the call
    changes neither the fragments nor the stored descriptors and writes
    one [console.warn] line; and in every state reached from an empty
    container by adding, removing, resetting, loading and saving, no two
    fragments share a data-camera-id. *)
Theorem addCameraConfig_no_duplicate :
  (forall p,
     In (next_camera_id p) (camera_ids p) ->
     cameras (addCameraConfig p) = cameras p /\
     additional_cameras (addCameraConfig p) = additional_cameras p /\
     requests (addCameraConfig p) = requests p /\
     console (addCameraConfig p)
       = console p ++ [(console_warn, CameraExists (next_camera_id p))]) /\
  (forall start actions,
     cameras start = [] ->
     NoDup (camera_ids (fold_left act actions start))).
Proof.
  split.
  - intros p Hin. apply has_camera_In in Hin.
    unfold addCameraConfig. fold (next_camera_id p). rewrite Hin.
    repeat split.
  - intros start actions H0.
    assert (H : NoDup (camera_ids start))
      by (unfold camera_ids; rewrite H0; constructor).
    clear H0. revert start H.
    induction actions as [|a actions IH]; intros start H; cbn [fold_left].
    + exact H.
    + apply IH, act_NoDup, H.
Qed.

(** Three cameras added, the second removed: the next id, camera_3, is
    taken, and adding again changes nothing. *)
Lemma addCameraConfig_no_duplicate_witness :
  let p := fold_left act
             [AddCamera; AddCamera; AddCamera; RemoveCamera "camera_2"]
             fresh_page in
  camera_ids p = ["camera_1"; "camera_3"] /\
  cameras (addCameraConfig p) = cameras p /\
  console (addCameraConfig p)
    = console p ++ [(console_warn, CameraExists "camera_3")] /\
  NoDup (camera_ids
           (fold_left act
              [AddCamera; AddCamera; AddCamera; RemoveCamera "camera_2";
               AddCamera] fresh_page)).
Proof.
  cbv zeta.
  set (p := fold_left act _ fresh_page).
  assert (Hin : In (next_camera_id p) (camera_ids p))
    by (vm_compute; right; left; reflexivity).
  destruct addCameraConfig_no_duplicate as [Hnoop Hinv].
  destruct (Hnoop p Hin) as (Hc & _ & _ & Hw).
  split; [vm_compute; reflexivity|].
  split; [exact Hc|].
  split; [rewrite Hw; vm_compute; reflexivity|].
  apply Hinv. reflexivity.
Defined.
(** *** Strings: the generated names are distinct *)

Lemma string_of_uint_digits d : all_digits (NilEmpty.string_of_uint d) = true.
Proof. induction d; cbn; auto. Qed.

Lemma decimal_digits n : all_digits (decimal n) = true.
Proof.
  unfold decimal, NilZero.string_of_uint.
  destruct (Nat.to_uint n); try reflexivity;
    apply (string_of_uint_digits (_ _)).
Qed.

Lemma to_uint_nonnil n : Nat.to_uint n <> Nil.
Proof.
  rewrite <- (Unsigned.of_to n) at 1. rewrite Unsigned.to_of.
  apply unorm_nonnil.
Qed.

Lemma decimal_inj n m : decimal n = decimal m -> n = m.
Proof.
  unfold decimal. intros H.
  apply Unsigned.to_uint_inj.
  assert (Hs : Some (Nat.to_uint n) = Some (Nat.to_uint m)).
  { rewrite <- (NilZero.usu (Nat.to_uint n)) by apply to_uint_nonnil.
    rewrite <- (NilZero.usu (Nat.to_uint m)) by apply to_uint_nonnil.
    rewrite H. reflexivity. }
  congruence.
Qed.

Lemma append_inv_head s : forall a b, (s ++ a = s ++ b)%string -> a = b.
Proof. induction s as [|c s IH]; cbn; intros a b H; [exact H|]. inversion H; auto. Qed.

Lemma eqb_append_head s a b :
  String.eqb (s ++ a) (s ++ b) = String.eqb a b.
Proof.
  induction s as [|c s IH]; cbn; [reflexivity|].
  rewrite Ascii.eqb_refl. exact IH.
Qed.

(** Digits followed by an underscore: the split is unique. *)
Lemma digits_underscore : forall d1 d2 r1 r2,
  all_digits d1 = true -> all_digits d2 = true ->
  (d1 ++ String "_" r1 = d2 ++ String "_" r2)%string ->
  d1 = d2 /\ r1 = r2.
Proof.
  induction d1 as [|c d1 IH]; intros [|c2 d2] r1 r2 H1 H2 H; cbn in *.
  - inversion H; auto.
  - inversion H; subst. discriminate.
  - inversion H; subst. discriminate.
  - inversion H; subst.
    apply andb_true_iff in H1, H2.
    destruct (IH d2 r1 r2) as [-> ->]; tauto.
Qed.

Lemma camera_name_attr k j a b :
  (camera_name k ++ String "_" a = camera_name j ++ String "_" b)%string ->
  k = j /\ a = b.
Proof.
  unfold camera_name. cbn [String.append]. intros H. injection H as H.
  apply digits_underscore in H; try apply decimal_digits.
  destruct H as [H ->]. split; [apply decimal_inj, H|reflexivity].
Qed.

Lemma camera_name_inj k j : camera_name k = camera_name j -> k = j.
Proof.
  intros H. assert (H' : (camera_name k ++ "_" = camera_name j ++ "_")%string)
    by (rewrite H; reflexivity).
  apply camera_name_attr in H'. tauto.
Qed.

(** *** Saving and loading the fragments *)

Lemma set_named_None key v : forall fs,
  ~ In key (map f_name fs) -> set_named key v fs = None.
Proof.
  induction fs as [|i fs IH]; intros H; cbn; [reflexivity|].
  destruct (String.eqb_spec (f_name i) key) as [E|E].
  - exfalso. apply H. left. exact E.
  - rewrite IH; [reflexivity|]. intros Hin. apply H. right. exact Hin.
Qed.

Lemma set_named_Some key v : forall fs,
  In key (map f_name fs) -> exists fs', set_named key v fs = Some fs'.
Proof.
  induction fs as [|i fs IH]; intros H; cbn; [destruct H|].
  destruct (String.eqb_spec (f_name i) key) as [E|E]; [eauto|].
  destruct H as [H|H]; [contradiction|].
  destruct (IH H) as [fs' ->]. cbn. eauto.
Qed.

Lemma field_value_set_named key v n : forall fs fs',
  set_named key v fs = Some fs' ->
  field_value n fs' = if String.eqb key n then v else field_value n fs.
Proof.
  induction fs as [|i fs IH]; intros fs' H; cbn in H; [discriminate|].
  destruct (String.eqb_spec (f_name i) key) as [E|E].
  - inversion H; subst. cbn.
    destruct (String.eqb (f_name i) n); reflexivity.
  - destruct (set_named key v fs) as [r|]; [|discriminate].
    inversion H; subst. cbn. rewrite (IH r eq_refl).
    destruct (String.eqb_spec (f_name i) n) as [E2|E2]; [|reflexivity].
    destruct (String.eqb_spec key n); [congruence|reflexivity].
Qed.

Lemma step_field_names fs kv : map f_name (step_field fs kv) = map f_name fs.
Proof.
  unfold step_field. destruct (set_named _ _ fs) eqn:E; [|reflexivity].
  eapply set_named_names; eauto.
Qed.

Lemma populate_controls_names c : forall fs,
  map f_name (populate_controls c fs) = map f_name fs.
Proof.
  unfold populate_controls.
  induction c as [|kv c IH]; intros fs; cbn; [reflexivity|].
  rewrite IH. apply step_field_names.
Qed.

(** After [populateCameraFields], the first control with a name holds
    the value of the descriptor's property of that name, if there is
    one. *)
Lemma field_value_populate n c : forall fs,
  In n (map f_name fs) ->
  field_value n (populate_controls c fs)
    = match assoc_last n c with
      | Some v => v
      | None => field_value n fs
      end.
Proof.
  unfold populate_controls.
  induction c as [|kv c IH]; intros fs Hin; cbn [fold_left assoc_last];
    [reflexivity|].
  rewrite IH by (rewrite step_field_names; exact Hin).
  destruct (assoc_last n c); [reflexivity|].
  unfold step_field.
  destruct (String.eqb_spec (fst kv) n) as [E|E].
  - destruct (set_named_Some (fst kv) (snd kv) fs) as [fs' Hs];
      [rewrite E; exact Hin|].
    rewrite Hs. rewrite (field_value_set_named _ _ n _ _ Hs).
    rewrite E, String.eqb_refl. reflexivity.
  - destruct (set_named (fst kv) (snd kv) fs) as [fs'|] eqn:Hs;
      [|reflexivity].
    rewrite (field_value_set_named _ _ n _ _ Hs).
    destruct (String.eqb_spec (fst kv) n); [contradiction|reflexivity].
Qed.

Lemma assoc_last_absent n : forall c,
  ~ In n (map fst c) -> assoc_last n c = None.
Proof.
  induction c as [|kv c IH]; intros H; cbn; [reflexivity|].
  rewrite IH by (intros Hin; apply H; right; exact Hin).
  destruct (String.eqb_spec (fst kv) n); [|reflexivity].
  exfalso. apply H. left. assumption.
Qed.

Lemma obj_set_keys k v : forall o x,
  In x (map fst (obj_set k v o)) <-> x = k \/ In x (map fst o).
Proof.
  induction o as [|[k' v'] o IH]; intros x; cbn.
  - intuition.
  - destruct (String.eqb_spec k k') as [E|E]; cbn.
    + subst. intuition.
    + rewrite IH. intuition.
Qed.

Lemma obj_set_NoDup k v : forall o,
  NoDup (map fst o) -> NoDup (map fst (obj_set k v o)).
Proof.
  induction o as [|[k' v'] o IH]; intros H; cbn.
  - constructor; [intros []|constructor].
  - inversion H as [|? ? Hn Hd]; subst.
    destruct (String.eqb_spec k k') as [E|E]; cbn.
    + subst. constructor; assumption.
    + constructor; [|apply IH; exact Hd].
      rewrite obj_set_keys. intros [E'|Hin]; [congruence|contradiction].
Qed.

Lemma assoc_last_obj_set n k v : forall o,
  NoDup (map fst o) ->
  assoc_last n (obj_set k v o)
    = if String.eqb k n then Some v else assoc_last n o.
Proof.
  induction o as [|[k' v'] o IH]; intros H; cbn.
  - reflexivity.
  - inversion H as [|? ? Hn Hd]; subst.
    destruct (String.eqb_spec k k') as [E|E]; cbn.
    + subst k'. destruct (String.eqb_spec k n) as [E2|E2].
      * subst n. rewrite (assoc_last_absent k o Hn). reflexivity.
      * reflexivity.
    + rewrite (IH Hd).
      destruct (String.eqb_spec k n) as [E2|E2]; [|reflexivity].
      subst n. destruct (String.eqb_spec k' k); [congruence|].
      reflexivity.
Qed.

Lemma collect_fold n : forall fs o,
  NoDup (map fst o) ->
  NoDup (map fst (fold_left collect_step fs o)) /\
  assoc_last n (fold_left collect_step fs o)
    = last_value n fs (assoc_last n o).
Proof.
  unfold last_value.
  induction fs as [|i fs IH]; intros o Ho; cbn [fold_left]; [auto|].
  assert (Hs : NoDup (map fst (collect_step o i))).
  { unfold collect_step. destruct (_ && _); [apply obj_set_NoDup|]; auto. }
  destruct (IH _ Hs) as [Hd ->]. split; [exact Hd|]. f_equal.
  unfold collect_step.
  destruct (negb (String.eqb (f_name i) "")) eqn:E1;
    destruct (negb (String.eqb (f_value i) "")) eqn:E2; cbn [andb];
    rewrite ?andb_false_r, ?andb_true_r; try reflexivity.
  rewrite assoc_last_obj_set by exact Ho. reflexivity.
Qed.

Lemma collect_keys f x :
  In x (map fst (collect f)) -> x = "id" \/ In x (map f_name (inputs f)).
Proof.
  unfold collect. fold collect_step.
  assert (G : forall fs o, In x (map fst (fold_left collect_step fs o)) ->
                In x (map fst o) \/ In x (map f_name fs)).
  { induction fs as [|i fs IH]; intros o H; cbn [fold_left] in H; [auto|].
    apply IH in H. destruct H as [H|H]; [|right; right; exact H].
    unfold collect_step in H. destruct (_ && _); [|auto].
    apply obj_set_keys in H. destruct H as [->|H]; [right; left|left]; auto. }
  intros H. apply G in H. cbn in H. intuition.
Qed.

Lemma collect_assoc f n :
  assoc_last n (collect f)
    = last_value n (inputs f)
        (if String.eqb "id" n then Some (camera_id f) else None).
Proof.
  unfold collect. fold collect_step.
  assert (Hid : NoDup (map fst [("id", camera_id f)]))
    by (cbn; constructor; [intros []|constructor]).
  destruct (collect_fold n (inputs f) [("id", camera_id f)] Hid) as [_ ->].
  reflexivity.
Qed.

Lemma set_in_fragments_skip key v : forall before rest,
  (forall g, In g before -> ~ In key (map f_name (inputs g))) ->
  set_in_fragments key v (before ++ rest)
    = option_map (List.app before) (set_in_fragments key v rest).
Proof.
  induction before as [|g before IH]; intros rest H; cbn [List.app set_in_fragments].
  - destruct (set_in_fragments key v rest); reflexivity.
  - rewrite set_named_None by (apply H; left; reflexivity).
    rewrite IH by (intros g' Hg'; apply H; right; exact Hg').
    destruct (set_in_fragments key v rest); reflexivity.
Qed.

(** Populating the last fragment, when no fragment before it holds a
    control with the name of a property. *)
Lemma populate_last before : forall c F p,
  cameras p = before ++ [F] ->
  (forall kv g, In kv c -> In g before ->
                ~ In (fst kv) (map f_name (inputs g))) ->
  cameras (populateCameraFields c p)
    = before ++ [{| camera_id := camera_id F;
                    inputs := populate_controls c (inputs F) |}].
Proof.
  unfold populateCameraFields, populate_controls.
  induction c as [|kv c IH]; intros F p Hp Hk; cbn [fold_left].
  - rewrite Hp. destruct F; reflexivity.
  - set (p' := match set_in_fragments _ _ _ with Some _ => _ | None => _ end).
    assert (Hp' : cameras p' = before ++
              [{| camera_id := camera_id F;
                  inputs := step_field (inputs F) kv |}]).
    { subst p'. rewrite Hp.
      rewrite set_in_fragments_skip
        by (intros g Hg; apply (Hk kv g); [left; reflexivity|exact Hg]).
      unfold step_field. cbn [set_in_fragments].
      destruct (set_named (fst kv) (snd kv) (inputs F)); cbn.
      - reflexivity.
      - rewrite Hp. destruct F; reflexivity. }
    rewrite (IH _ p' Hp'); [reflexivity|].
    intros kv' g Hin Hg. apply Hk; [right; exact Hin|exact Hg].
Qed.

Lemma numbered_app : forall a b k,
  numbered_from k (a ++ b) <->
  numbered_from k a /\ numbered_from (k + List.length a) b.
Proof.
  induction a as [|f a IH]; intros b k; cbn [List.app numbered_from List.length].
  - rewrite Nat.add_0_r. tauto.
  - rewrite IH. replace (S k + List.length a) with (k + S (List.length a)) by lia.
    tauto.
Qed.

Lemma numbered_In : forall cs k g,
  numbered_from k cs -> In g cs ->
  exists j, k <= j < k + List.length cs /\
            camera_id g = camera_name j /\
            map f_name (inputs g)
              = map f_name (camera_template (camera_name j) j).
Proof.
  induction cs as [|f cs IH]; intros k g H Hin; [destruct Hin|].
  cbn in H. destruct H as (Hid & Hn & Hrest).
  destruct Hin as [->|Hin].
  - exists k. cbn [List.length]. repeat split; auto; lia.
  - destruct (IH (S k) g Hrest Hin) as (j & Hj & H1 & H2).
    exists j. cbn [List.length]. repeat split; auto; lia.
Qed.

Lemma template_name_form j number n :
  In n (map f_name (camera_template (camera_name j) number)) ->
  exists b, n = (camera_name j ++ String "_" b)%string.
Proof.
  cbn. intros H.
  repeat (destruct H as [H|H]; [subst n; eexists; reflexivity|]).
  destruct H.
Qed.

Lemma id_not_a_control_name j b :
  "id" <> (camera_name j ++ String "_" b)%string.
Proof. unfold camera_name. cbn. discriminate. Qed.

(** The names of the descriptor of fragment [k] are not names of controls
    of a fragment with another number. *)
Lemma foreign_key f g k j kv :
  map f_name (inputs f) = map f_name (camera_template (camera_name k) k) ->
  map f_name (inputs g) = map f_name (camera_template (camera_name j) j) ->
  k <> j ->
  In kv (collect f) ->
  ~ In (fst kv) (map f_name (inputs g)).
Proof.
  intros Hf Hg Hkj Hin Hc.
  rewrite Hg in Hc. apply template_name_form in Hc. destruct Hc as [b Hb].
  assert (Hk : In (fst kv) (map fst (collect f))) by (apply in_map, Hin).
  apply collect_keys in Hk. destruct Hk as [Hk|Hk].
  - rewrite Hk in Hb. exact (id_not_a_control_name _ _ Hb).
  - rewrite Hf in Hk. apply template_name_form in Hk. destruct Hk as [a Ha].
    rewrite Ha in Hb. apply camera_name_attr in Hb. tauto.
Qed.

Lemma reload_fragment_numbered k f :
  numbered_from k [reload_fragment k f].
Proof.
  cbn. repeat split. apply populate_controls_names.
Qed.

Lemma load_from : forall cs m before p,
  cameras p = before ->
  numbered_from 1 before ->
  List.length before = m ->
  numbered_from (S m) cs ->
  cameras (fold_left
             (fun p c => populateCameraFields c (addCameraConfig p))
             (map collect cs) p)
    = before ++ reload_from (S m) cs.
Proof.
  induction cs as [|f cs IH]; intros m before p Hp Hb Hm Hcs;
    cbn [map fold_left reload_from].
  - rewrite List.app_nil_r. exact Hp.
  - cbn in Hcs. destruct Hcs as (Hid & Hnames & Hrest).
    assert (Hadd : cameras (addCameraConfig p)
              = before ++ [{| camera_id := camera_name (S m);
                              inputs := camera_template (camera_name (S m))
                                          (S m) |}]).
    { unfold addCameraConfig. rewrite Hp, Hm, Nat.add_1_r.
      fold (camera_name (S m)).
      destruct (has_camera (camera_name (S m)) p) eqn:E.
      - exfalso. apply has_camera_In in E. unfold camera_ids in E.
        rewrite Hp in E. apply in_map_iff in E.
        destruct E as (g & Hg & Hin).
        destruct (numbered_In _ _ _ Hb Hin) as (j & Hj & Hgid & _).
        rewrite Hgid in Hg. apply camera_name_inj in Hg. lia.
      - rewrite (proj1 (addLog_cameras _ _ _)). cbn [with_cameras cameras].
        rewrite Hp. reflexivity. }
    rewrite (IH (S m) (before ++ [reload_fragment (S m) f])).
    + rewrite <- List.app_assoc. reflexivity.
    + rewrite (populate_last before _ _ _ Hadd); [reflexivity|].
      intros kv g Hkv Hg.
      destruct (numbered_In _ _ _ Hb Hg) as (j & Hj & _ & Hgn).
      apply (foreign_key f g (S m) j); auto. lia.
    + apply numbered_app. split; [exact Hb|].
      rewrite Hm. apply reload_fragment_numbered.
    + rewrite List.length_app, Hm. cbn. lia.
    + exact Hrest.
Qed.

Lemma load_numbered q cs :
  additional_cameras q = Some (map collect cs) ->
  numbered_from 1 cs ->
  cameras (loadCamerasConfiguration q) = reload_from 1 cs.
Proof.
  intros Hq Hcs. unfold loadCamerasConfiguration.
  cbn [clearExistingCameras with_cameras additional_cameras]. rewrite Hq.
  rewrite (load_from cs 0 []); auto. cbn. exact I.
Qed.

Lemma control_name_nonempty k a :
  String.eqb (camera_name k ++ a) "" = false.
Proof. reflexivity. Qed.

Lemma id_eqb_control_name k a :
  String.eqb "id" (camera_name k ++ a) = false.
Proof. reflexivity. Qed.

(** A fragment with the controls of the markup: what the descriptor holds
    for a name that occurs once, and what a new fragment holds. *)
Lemma single_control k f attr :
  map f_name (inputs f) = map f_name (camera_template (camera_name k) k) ->
  In attr descriptor_attrs ->
  let n := (camera_name k ++ attr)%string in
  In n (map f_name (camera_template (camera_name k) k)) /\
  assoc_last n (collect f)
    = (if String.eqb (field_value n (inputs f)) "" then None
       else Some (field_value n (inputs f))).
Proof.
  intros Hn Hattr n. subst n. rewrite collect_assoc.
  destruct (inputs f)
    as [|i1 [|i2 [|i3 [|i4 [|i5 [|i6 [|i7 [|i8 [|i9 [|i10 [|i11 [|]]]]]]]]]]]];
    cbn [map camera_template control f_name] in Hn; try discriminate.
  injection Hn as H1 H2 H3 H4 H5 H6 H7 H8 H9 H10 H11.
  unfold last_value, camera_name.
  cbn [fold_left field_value map camera_template control f_name].
  rewrite H1, H2, H3, H4, H5, H6, H7, H8, H9, H10, H11.
  cbn [descriptor_attrs In] in Hattr.
  repeat (destruct Hattr as [<-|Hattr]; [
    split; [cbn -[decimal]; tauto|];
    cbn -[decimal]; rewrite !eqb_append_head; cbn -[decimal];
    match goal with |- context [String.eqb (f_value ?i) ""] =>
      destruct (String.eqb (f_value i) ""); reflexivity end |]).
  destruct Hattr.
Qed.

Lemma reload_from_nth : forall cs k i f,
  nth_error cs i = Some f ->
  nth_error (reload_from k cs) i = Some (reload_fragment (k + i) f).
Proof.
  induction cs as [|g cs IH]; intros k [|i] f H; cbn in H; try discriminate.
  - inversion H; subst. cbn. rewrite Nat.add_0_r. reflexivity.
  - cbn [reload_from nth_error]. rewrite (IH (S k) i f H).
    replace (S k + i) with (k + S i) by lia. reflexivity.
Qed.

Lemma numbered_nth : forall cs k i f,
  numbered_from k cs -> nth_error cs i = Some f ->
  camera_id f = camera_name (k + i) /\
  map f_name (inputs f)
    = map f_name (camera_template (camera_name (k + i)) (k + i)).
Proof.
  induction cs as [|g cs IH]; intros k [|i] f H Hn; cbn in Hn;
    try discriminate; cbn in H; destruct H as (Hid & Hnames & Hrest).
  - inversion Hn; subst. rewrite Nat.add_0_r. auto.
  - replace (k + S i) with (S k + i) by lia. eapply IH; eauto.
Qed.

Lemma reload_from_ids : forall cs k,
  numbered_from k cs ->
  map camera_id (reload_from k cs) = map camera_id cs.
Proof.
  induction cs as [|g cs IH]; intros k H; cbn; [reflexivity|].
  cbn in H. destruct H as (Hid & _ & Hrest).
  rewrite (IH _ Hrest), Hid. reflexivity.
Qed.

(** C2, amended.  For a container whose fragments carry the ids camera_1,
    camera_2, ... in order, saving the descriptors and loading them again
    gives fragments with the same ids, in which the name, the mode, the
    technical id and each mode-specific field holds the value it had when
    it was not empty, and the value of a newly added fragment when it was
    empty (which is empty again for the RTSP URL, user and password and
    for the entity id). *)
Theorem camera_round_trip (p q : page) :
  numbered_from 1 (cameras p) ->
  additional_cameras q
    = additional_cameras (snd (saveCamerasConfiguration p)) ->
  camera_ids (loadCamerasConfiguration q) = camera_ids p /\
  forall i f f',
    nth_error (cameras p) i = Some f ->
    nth_error (cameras (loadCamerasConfiguration q)) i = Some f' ->
    forall attr, In attr descriptor_attrs ->
      let n := (camera_id f ++ attr)%string in
      field_value n (inputs f')
        = if String.eqb (field_value n (inputs f)) ""
          then field_value n (camera_template (camera_id f) (S i))
          else field_value n (inputs f).
Proof.
  intros Hnum Hq. cbn in Hq.
  pose proof (load_numbered q (cameras p) Hq Hnum) as Hload.
  split.
  - unfold camera_ids. rewrite Hload. apply reload_from_ids, Hnum.
  - intros i f f' Hf Hf' attr Hattr n. subst n.
    rewrite Hload, (reload_from_nth _ 1 i f Hf) in Hf'.
    inversion Hf'; subst f'. clear Hf'.
    destruct (numbered_nth _ _ _ _ Hnum Hf) as [Hid Hnames].
    cbn [Nat.add] in Hid, Hnames. rewrite Hid.
    destruct (single_control (S i) f attr Hnames Hattr) as [Hin Hassoc].
    cbn [reload_fragment inputs Nat.add].
    rewrite field_value_populate by exact Hin.
    rewrite Hassoc.
    destruct (String.eqb (field_value _ (inputs f)) ""); reflexivity.
Qed.

(** Two cameras, the second with an RTSP URL and user: after saving and
    a page load, the ids and these values are back. *)
Lemma camera_round_trip_witness :
  let p' := reload_page (snd (saveCamerasConfiguration two_cameras)) in
  camera_ids p' = ["camera_1"; "camera_2"] /\
  forall f', nth_error (cameras p') 1 = Some f' ->
    field_value "camera_2_rtsp_url" (inputs f')
      = "rtsp://192.168.1.100:554/stream".
Proof.
  cbv zeta. unfold reload_page.
  assert (Hnum : numbered_from 1 (cameras two_cameras))
    by (vm_compute; repeat split).
  pose proof (camera_round_trip two_cameras
              (with_additional_cameras
                 (fun _ => additional_cameras
                             (snd (saveCamerasConfiguration two_cameras)))
                 fresh_page)
              Hnum eq_refl) as HH.
  destruct HH as [Hids Hvals].
  split.
  - rewrite Hids. vm_compute. reflexivity.
  - intros f' Hf'.
    assert (Hf : exists f, nth_error (cameras two_cameras) 1 = Some f /\
              camera_id f = "camera_2" /\
              field_value "camera_2_rtsp_url" (inputs f)
                = "rtsp://192.168.1.100:554/stream")
      by (eexists; vm_compute; repeat split).
      destruct Hf as (f & Hf & Hid & Hv).
    pose proof (Hvals 1 f f' Hf Hf' "_rtsp_url") as H.
      cbv zeta in H. rewrite Hid in H. cbn [String.append] in H.
      rewrite H.
    + rewrite Hv. reflexivity.
    + cbn. tauto.
Defined.

(** C2 as stated fails: the name of the only camera is cleared; the
    descriptor then has no name, and after saving and a page load the
    fragment shows the name of a new camera, which the next save stores. *)
Lemma cleared_name_not_reproduced :
  let p := type_into "camera_1_name" "" (addCameraConfig fresh_page) in
  let saved := fst (saveCamerasConfiguration p) in
  let p' := reload_page (snd (saveCamerasConfiguration p)) in
  numbered_from 1 (cameras p) /\
  map (assoc_last "camera_1_name") saved = [None] /\
  map (fun f => field_value "camera_1_name" (inputs f)) (cameras p')
    = ["Caméra 1"] /\
  map (assoc_last "camera_1_name") (fst (saveCamerasConfiguration p'))
    = [Some "Caméra 1"] /\
  fst (saveCamerasConfiguration p') <> saved.
Proof.
  cbv zeta. split; [vm_compute; repeat split|].
  split; [vm_compute; reflexivity|].
  split; [vm_compute; reflexivity|].
  split; [vm_compute; reflexivity|].
  vm_compute. discriminate.
Qed.

(** Not covered by the amended claim: after the first of two cameras is
    removed, the stored descriptor of camera_2 is loaded into a fragment
    that is numbered camera_1 again, and none of its values is found. *)
Example removed_camera_renumbered :
  let p := removeCameraConfig "camera_1"
             (type_into "camera_2_rtsp_url" "rtsp://192.168.1.100:554/stream"
                (addCameraConfig (addCameraConfig fresh_page))) in
  let p' := reload_page p in
  camera_ids p = ["camera_2"] /\
  camera_ids p' = ["camera_1"] /\
  cameras p' = cameras (addCameraConfig fresh_page).
Proof. cbv zeta. repeat split; vm_compute; reflexivity. Qed.

(** *** The interval action *)

Lemma addLog_requests m t p : requests (addLog m t p) = requests p.
Proof. apply addLog_frame. Qed.

Lemma interval_reply_requests cameraId interval reply p :
  requests (interval_reply cameraId interval reply p) = requests p.
Proof.
  unfold interval_reply, try_catch, try_catch_finally, bind, await, get,
    modify, ret, throw.
  destruct reply as [r|e]; cbn -[addLog];
    [destruct (json r) as [data|e]; cbn -[addLog];
     [destruct data; cbn -[addLog];
      try match goal with
          | |- context [truthy ?v] => destruct (truthy v); cbn -[addLog]
          end|]|];
    rewrite ?addLog_requests; reflexivity.
Qed.

(** *** The posted configuration *)

Lemma config_get_set k v : forall c,
  config_get k (config_set k v c) = Some v.
Proof.
  induction c as [|[k' v'] c IH]; cbn.
  - rewrite String.eqb_refl. reflexivity.
  - destruct (String.eqb_spec k k') as [E|E]; cbn.
    + rewrite String.eqb_refl. reflexivity.
    + destruct (String.eqb_spec k k'); [contradiction|exact IH].
Qed.

Lemma config_get_set_other k k2 v : forall c,
  k <> k2 -> config_get k (config_set k2 v c) = config_get k c.
Proof.
  induction c as [|[k' v'] c IH]; intros H; cbn.
  - destruct (String.eqb_spec k k2); [contradiction|reflexivity].
  - destruct (String.eqb_spec k2 k') as [E|E]; cbn.
    + subst k'. destruct (String.eqb_spec k k2); [contradiction|reflexivity].
    + destruct (String.eqb_spec k k'); [reflexivity|apply IH, H].
Qed.

Lemma form_entries_get k : forall formData c,
  ~ In k (map fst formData) ->
  config_get k
    (fold_left (fun c kv => config_set (fst kv) (FormValue (snd kv)) c)
       formData c)
    = config_get k c.
Proof.
  induction formData as [|kv formData IH]; intros c H; cbn [fold_left].
  - reflexivity.
  - rewrite IH by (intros Hin; apply H; right; exact Hin).
    apply config_get_set_other. intros E. apply H. left. auto.
Qed.

Lemma log_if_requests b m t p : requests (log_if b m t p) = requests p.
Proof. unfold log_if. destruct b; [apply addLog_requests|reflexivity]. Qed.

Lemma log_if_cameras b m t p : cameras (log_if b m t p) = cameras p.
Proof. unfold log_if. destruct b; [apply addLog_cameras|reflexivity]. Qed.

Lemma validateConfiguration_requests isValidUrl config p :
  requests (snd (validateConfiguration isValidUrl config p)) = requests p.
Proof.
  unfold validateConfiguration. cbn [snd].
  rewrite !log_if_requests. reflexivity.
Qed.

(** C10.  The configuration that [saveConfiguration] posts is the form's
    entries plus, when there is at least one camera fragment, the key
    ADDITIONAL_CAMERAS with the JSON text of the descriptors.  With no
    fragment the key is not set: unless the form itself has a control of
    that name, the posted object has no such key, and so nothing in it
    says that the cameras were cleared.  The only request the handler can
    send before the reply is the POST of that object. *)
Theorem additional_cameras_key_only_with_cameras
    (isValidUrl : string -> bool) (formData : list (string * string))
    (p : page) :
  ~ In "ADDITIONAL_CAMERAS" (map fst formData) ->
  (cameras p = [] ->
     config_get "ADDITIONAL_CAMERAS" (save_payload formData p) = None) /\
  (cameras p <> [] ->
     config_get "ADDITIONAL_CAMERAS" (save_payload formData p)
       = Some (CamerasJson (map collect (cameras p)))) /\
  (requests (saveConfiguration isValidUrl formData p) = requests p \/
   requests (saveConfiguration isValidUrl formData p)
     = requests p ++ [config_request (save_payload formData p)]).
Proof.
  intros Hform. split; [|split].
  - intros Hc. unfold save_payload. cbn [saveCamerasConfiguration fst].
    rewrite Hc. cbn [map List.length Nat.ltb Nat.leb].
    rewrite form_entries_get by exact Hform. reflexivity.
  - intros Hc. unfold save_payload. cbn [saveCamerasConfiguration fst].
    rewrite length_map.
    destruct (cameras p) as [|f cs]; [contradiction|].
    cbn [List.length Nat.ltb Nat.leb]. apply config_get_set.
  - unfold saveConfiguration.
    assert (Hp : save_payload formData (addLog SavingConfiguration info p)
                 = save_payload formData p).
    { unfold save_payload, saveCamerasConfiguration. cbn [fst].
      rewrite (proj1 (addLog_cameras _ _ _)). reflexivity. }
    rewrite Hp.
    destruct (fst (validateConfiguration isValidUrl _ _)); cbn [negb].
    + right. cbn [send with_requests requests].
      rewrite validateConfiguration_requests.
      cbn [saveCamerasConfiguration snd with_additional_cameras requests].
      rewrite addLog_requests. reflexivity.
    + left. rewrite addLog_requests, validateConfiguration_requests.
      cbn [saveCamerasConfiguration snd with_additional_cameras requests].
      apply addLog_requests.
Qed.

(** The last camera was removed: the broker address is posted, the key
    ADDITIONAL_CAMERAS is not. *)
Lemma additional_cameras_key_only_with_cameras_witness :
  let p := removeCameraConfig "camera_1" (addCameraConfig fresh_page) in
  let formData := [("MQTT_BROKER", "192.168.1.2")] in
  cameras p = [] /\
  additional_cameras p = Some [] /\
  save_payload formData p = [("MQTT_BROKER", FormValue "192.168.1.2")] /\
  config_get "ADDITIONAL_CAMERAS" (save_payload formData p) = None /\
  requests (saveConfiguration (fun _ => true) formData p)
    = [config_request [("MQTT_BROKER", FormValue "192.168.1.2")]].
Proof.
  cbv zeta.
  assert (Hform : ~ In "ADDITIONAL_CAMERAS"
                      (map fst [("MQTT_BROKER", "192.168.1.2")]))
    by (cbn; intros [H|[]]; discriminate H).
  destruct (additional_cameras_key_only_with_cameras (fun _ => true)
              [("MQTT_BROKER", "192.168.1.2")]
              (removeCameraConfig "camera_1" (addCameraConfig fresh_page))
              Hform) as (Hnone & _ & _).
  split; [vm_compute; reflexivity|].
  split; [vm_compute; reflexivity|].
  split; [vm_compute; reflexivity|].
  split; [apply Hnone; vm_compute; reflexivity|].
  vm_compute. reflexivity.
Defined.

(** *** Connectivity tests: the button and the badge *)

Lemma addLog_disabled m t p : disabled (addLog m t p) = disabled p.
Proof. apply addLog_frame. Qed.

Lemma setBadge_settled id state text p :
  state <> st_loading -> badge_settled id (setBadge id state text p).
Proof.
  intros Hs b. unfold setBadge. cbn [with_badges badges].
  destruct id; cbn [badge_eqb]; destruct (badges p _); intros H;
    inversion H; subst; cbn [badge_cls]; destruct state;
    try discriminate; contradiction.
Qed.

Lemma badge_settled_same id p q :
  badges q = badges p -> badge_settled id p -> badge_settled id q.
Proof. unfold badge_settled. intros ->. exact (fun H => H). Qed.

Lemma addLog_settled id m t p :
  badge_settled id p -> badge_settled id (addLog m t p).
Proof.
  unfold badge_settled.
  replace (badges (addLog m t p)) with (badges p); [auto|].
  symmetry. apply addLog_frame.
Qed.

Lemma consoleLog_settled id t m p :
  badge_settled id p -> badge_settled id (consoleLog t m p).
Proof. exact (fun H => H). Qed.

Lemma set_disabled_released b v p :
  disabled (set_disabled b false (set_disabled b v p)) b
    = option_map (fun _ => false) (disabled p b).
Proof.
  unfold set_disabled. cbn [with_disabled disabled].
  destruct b; cbn [button_eqb]; destruct (disabled p _); reflexivity.
Qed.

Lemma send_disabled r p : disabled (send r p) = disabled p.
Proof. reflexivity. Qed.

Lemma setBadge_disabled id state text p :
  disabled (setBadge id state text p) = disabled p.
Proof. reflexivity. Qed.

Lemma consoleLog_disabled t m p : disabled (consoleLog t m p) = disabled p.
Proof. reflexivity. Qed.

Lemma stored_cameras_disabled f p :
  disabled (with_additional_cameras f p) = disabled p.
Proof. reflexivity. Qed.

Create HintDb cleanup.
Create Rewrite HintDb buttons.
#[local] Hint Resolve addLog_settled consoleLog_settled : cleanup.
#[local] Hint Extern 1 (badge_settled _ (setBadge _ _ _ _)) =>
  apply setBadge_settled; discriminate : cleanup.
#[local] Hint Rewrite addLog_disabled send_disabled setBadge_disabled
  consoleLog_disabled stored_cameras_disabled : buttons.

Lemma released_after b p p1 q :
  disabled p1 = disabled (set_disabled b true p) -> disabled q = disabled p1 ->
  disabled (set_disabled b false q) b
    = option_map (fun _ => false) (disabled p b).
Proof.
  intros H1 H2. rewrite <- (set_disabled_released b true p).
  unfold set_disabled in *. cbn [with_disabled disabled] in *.
  rewrite H2, H1. reflexivity.
Qed.

(** A test built as the source builds its four tests: badge to loading,
    button disabled, [try], [catch] with the error badge, [finally] with
    the button enabled. *)
Lemma test_cleanup (b : button) (id : badge_id) (body : Exec page unit)
    (thrown : error -> msg) (p : page) :
  (forall q, test_body_post id q (body q)) ->
  let final :=
    try_catch_finally body
      (fun e q => addLog (thrown e) error_ (setBadge id st_error "KO" q))
      (set_disabled b false)
      (set_disabled b true (setBadge id st_loading "..." p)) in
  button_released b p final /\ badge_settled id final.
Proof.
  intros Hbody final. subst final. unfold try_catch_finally, button_released.
  set (p1 := set_disabled b true _).
  specialize (Hbody p1). unfold test_body_post in Hbody.
  destruct (body p1) as [[[]|e|] q]; cbn [fst snd] in Hbody;
    destruct Hbody as [Hd Hb].
  - split; [|exact Hb]. apply (released_after b _ p1); [reflexivity|exact Hd].
  - split.
    + apply (released_after b _ p1); [reflexivity|].
      rewrite addLog_disabled. exact Hd.
    + apply (addLog_settled id), setBadge_settled. discriminate.
  - split; [|exact Hb]. apply (released_after b _ p1); [reflexivity|exact Hd].
Qed.

Ltac exec_leaf :=
  cbv beta iota zeta delta [test_body_post leave fst snd];
  split; [autorewrite with buttons; reflexivity
         |try exact I; auto 8 with cleanup].

Lemma testAI_cleanup x p :
  button_released test_ai p (testAI x p) /\
  badge_settled test_ai_status (testAI x p).
Proof.
  apply test_cleanup. intros q. unfold test_body_post.
  generalize (fst (fetchWithTimeout x 5000)). intros res.
  repeat exec_step; exec_leaf.
Qed.

Lemma testMQTT_cleanup x p :
  button_released test_mqtt p (testMQTT x p) /\
  badge_settled test_mqtt_status (testMQTT x p).
Proof.
  apply test_cleanup. intros q. unfold test_body_post.
  generalize (fst (fetchWithTimeout x 5000)). intros res.
  repeat exec_step; exec_leaf.
Qed.

Lemma testRTSP_cleanup urlField x p :
  button_released test_rtsp p (testRTSP urlField x p) /\
  badge_settled test_rtsp_status (testRTSP urlField x p).
Proof.
  apply test_cleanup. intros q. unfold test_body_post.
  generalize (fst (fetchWithTimeout x 7000)). intros res.
  repeat exec_step; exec_leaf.
Qed.

(** Counting the successes reads the results and nothing else. *)
Lemma count_successes_pure : forall results p,
  snd (count_successes results p) = p /\
  fst (count_successes results p) <> Returned.
Proof.
  induction results as [|r rest IH]; intros p;
    [split; [reflexivity|discriminate]|].
  cbn [count_successes]. specialize (IH p).
  destruct r; cbv beta iota delta [bind get ret throw fst snd];
    try (split; [reflexivity|discriminate]);
    destruct (count_successes rest p) as [[n|e|] st]; cbn [fst snd] in *;
    destruct IH as [-> IH];
    try (split; [reflexivity|discriminate]);
    exfalso; apply IH; reflexivity.
Qed.

(** The lines of the results leave the buttons and the badges alone. *)
Lemma log_results_frame : forall results p,
  disabled (snd (log_results results p)) = disabled p /\
  badges (snd (log_results results p)) = badges p /\
  fst (log_results results p) <> Returned.
Proof.
  induction results as [|r rest IH]; intros p;
    [repeat split; discriminate|].
  cbn [log_results].
  destruct r; cbv beta iota delta [bind get modify ret throw fst snd];
    try (repeat split; discriminate);
    match goal with
    | |- context [log_results rest ?s] =>
        destruct (IH s) as (Hd & Hb & Hr);
        destruct (log_results rest s) as [[[]|e|] st];
        cbn [fst snd] in Hd, Hb, Hr |- *; rewrite Hd, Hb
    end;
    (split; [apply addLog_frame|split; [apply addLog_frame|]]);
    solve [discriminate|exact Hr].
Qed.

Lemma testCameras_cleanup x p :
  button_released test_cameras p (testCameras x p) /\
  badge_settled test_cameras_status (testCameras x p).
Proof.
  apply test_cleanup. intros q. unfold test_body_post.
  generalize (fst (fetchWithTimeout x 10000)). intros res.
  cbv beta iota zeta delta [bind modify fst snd saveCamerasConfiguration].
  generalize (map collect (cameras (addLog CamerasStart info q))).
  intros [|c cs]; [exec_leaf|].
  generalize (map camera_to_test (c :: cs)). intros tested.
  repeat exec_step; try exec_leaf;
    match goal with
    | |- context [count_successes ?l ?s] =>
        destruct (count_successes_pure l s) as [Hs Hr];
        destruct (count_successes l s) as [[n|e|] s'];
        cbn [fst snd] in Hs, Hr; subst s'; [clear Hr|exec_leaf|contradiction]
    end;
    repeat exec_step;
    match goal with
    | |- context [log_results ?l ?s] =>
        destruct (log_results_frame l s) as (Hd & Hb & Hr);
        destruct (log_results l s) as [[[]|e|] s'];
        cbn [fst snd] in Hd, Hb, Hr |- *; [| |contradiction];
        (split; [rewrite Hd; autorewrite with buttons; reflexivity|]);
        try exact I;
        apply (badge_settled_same _ _ _ Hb); auto with cleanup
    end.
Qed.

(** *** Restart: the button *)

(** A confirmed restart ends, with the restart button enabled. *)
Lemma restartApplication_cleanup env p :
  confirm_answer env = true ->
  exists p', restartApplication env p = Some p' /\
             button_released restart_app p p'.
Proof.
  intros Hc. unfold restartApplication, button_released. rewrite Hc.
  cbn [negb]. unfold restart_finally, restart_catch.
  set (p0 := addLog Restarting info p).
  assert (H0 : disabled p0 = disabled p) by apply addLog_frame.
  assert (Hrel : forall q,
            disabled q = disabled (set_disabled restart_app true p0) ->
            disabled (set_disabled restart_app false q) restart_app
              = option_map (fun _ => false) (disabled p restart_app)).
  { intros q Hq. rewrite <- H0.
    apply (released_after restart_app p0
             (set_disabled restart_app true p0) q);
      [reflexivity|exact Hq]. }
  destruct (restart_reply env) as [response|e].
  - destruct (ok response).
    + match goal with
      | |- context [waitForServerBack ?n ?m ?s] =>
          destruct (waitForServerBack_total n m s) as [[back p3] Hw];
          rewrite Hw; apply waitLoop_frame in Hw;
          destruct Hw as (_ & _ & _ & Hd & _)
      end.
      destruct back; eexists; (split; [reflexivity|]); apply Hrel;
        cbn [disabled with_reloaded]; rewrite addLog_disabled, Hd;
        rewrite !addLog_disabled; reflexivity.
    + eexists; split; [reflexivity|]. apply Hrel.
      unfold console_error_line. cbn [disabled with_console].
      rewrite addLog_disabled. reflexivity.
  - eexists; split; [reflexivity|]. apply Hrel.
    unfold console_error_line. cbn [disabled with_console].
    rewrite addLog_disabled. reflexivity.
Qed.
End AdminFacts.

(** ** IActionApp: properties *)

Module AppFacts.
Import JS App.

(** *** The status poll *)

Lemma poll_reports reply b p :
  reports reply b ->
  checkCaptureStatusUpdate reply p
    = if b && negb (captureInProgress p)
      then capture_started (send status_request p)
      else if negb b && captureInProgress p
      then capture_ended (send status_request p)
      else send status_request p.
Proof.
  intros (response & fields & -> & Hok & Hjson & Hb).
  unfold checkCaptureStatusUpdate, try_catch, try_catch_finally, bind,
    await, get, modify, gets, ret.
  rewrite Hok, Hjson, Hb.
  destruct p as [lvl ? ? ? inProgress ? timer];
    destruct b, inProgress, lvl, timer; vm_compute; reflexivity.
Qed.

Lemma capture_started_facts p :
  captureInProgress (capture_started p) = true /\
  toggle_display (capture_started p) = block /\
  no_capture_display (capture_started p) = none /\
  video_src (capture_started p) = video_src p /\
  video_display (capture_started p) = video_display p /\
  requests (capture_started p) = requests p.
Proof.
  destruct p as [lvl]; destruct lvl; repeat split; vm_compute; reflexivity.
Qed.

Lemma capture_ended_facts p :
  captureInProgress (capture_ended p) = false /\
  toggle_display (capture_ended p) = none /\
  video_src (capture_ended p) = "" /\
  video_display (capture_ended p) = none /\
  requests (capture_ended p) = requests p.
Proof.
  destruct p as [lvl ? ? ? ? ? timer]; destruct lvl, timer; repeat split;
    vm_compute; reflexivity.
Qed.

Lemma poll_mirrors reply b p :
  reports reply b ->
  captureInProgress (checkCaptureStatusUpdate reply p) = b.
Proof.
  intros H. rewrite (poll_reports reply b p H).
  destruct b, (captureInProgress p) eqn:E; cbn [andb negb].
  - exact E.
  - exact (proj1 (capture_started_facts _)).
  - exact (proj1 (capture_ended_facts _)).
  - exact E.
Qed.

(** C4.  Two polls in a row, both answered ok.  When [is_capturing] goes
    from false to true, the second poll shows the toggle button and hides
    the "no capture" placeholder and leaves the [src] of the video element
    as it was; when it goes from true to false, the second poll clears
    that [src] and hides the toggle button; when it does not change, the
    second poll sends its request and changes nothing else. *)
Theorem capture_status_edges (p : page) (reply1 reply2 : settled response)
    (b1 b2 : bool) :
  reports reply1 b1 ->
  reports reply2 b2 ->
  let p1 := checkCaptureStatusUpdate reply1 p in
  let p2 := checkCaptureStatusUpdate reply2 p1 in
  (b1 = false -> b2 = true ->
     toggle_display p2 = block /\ no_capture_display p2 = none /\
     video_src p2 = video_src p1 /\ video_display p2 = video_display p1 /\
     requests p2 = requests p1 ++ [status_request]) /\
  (b1 = true -> b2 = false ->
     video_src p2 = "" /\ toggle_display p2 = none /\
     requests p2 = requests p1 ++ [status_request]) /\
  (b1 = b2 -> p2 = send status_request p1).
Proof.
  intros H1 H2 p1 p2. subst p2.
  pose proof (poll_mirrors reply1 b1 p H1) as Hm. fold p1 in Hm.
  rewrite (poll_reports reply2 b2 p1 H2), Hm.
  split; [|split].
  - intros -> ->. cbn [andb negb].
    destruct (capture_started_facts (send status_request p1))
      as (_ & -> & -> & -> & -> & ->). repeat split.
  - intros -> ->. cbn [andb negb].
    destruct (capture_ended_facts (send status_request p1))
      as (_ & -> & -> & _ & ->). repeat split.
  - intros ->. destruct b2; reflexivity.
Qed.

(** The capture starts between two polls and stops between the next
    two. *)
Lemma capture_status_edges_witness :
  let off := json_reply 200 (VObj [("is_capturing", VBool false)]) in
  let on := json_reply 200 (VObj [("is_capturing", VBool true)]) in
  let p1 := checkCaptureStatusUpdate off fresh_page in
  let p2 := checkCaptureStatusUpdate on p1 in
  let p3 := checkCaptureStatusUpdate off p2 in
  (toggle_display p2 = block /\ no_capture_display p2 = none /\
   video_src p2 = video_src p1) /\
  (video_src p3 = "" /\ toggle_display p3 = none) /\
  checkCaptureStatusUpdate off p3 = send status_request p3.
Proof.
  cbv zeta.
  assert (Hoff : reports
            (json_reply 200 (VObj [("is_capturing", VBool false)])) false)
    by (do 2 eexists; repeat split).
  assert (Hon : reports
            (json_reply 200 (VObj [("is_capturing", VBool true)])) true)
    by (do 2 eexists; repeat split).
  split; [|split].
  - destruct (capture_status_edges fresh_page _ _ false true Hoff Hon)
      as (H & _ & _).
    destruct (H eq_refl eq_refl) as (Ht & Hn & Hs & _). auto.
  - destruct (capture_status_edges
                (checkCaptureStatusUpdate
                   (json_reply 200 (VObj [("is_capturing", VBool false)]))
                   fresh_page) _ _ true false Hon Hoff)
      as (_ & H & _).
    destruct (H eq_refl eq_refl) as (Hs & Ht & _). auto.
  - destruct (capture_status_edges
                (checkCaptureStatusUpdate
                   (json_reply 200 (VObj [("is_capturing", VBool true)]))
                   (checkCaptureStatusUpdate
                      (json_reply 200
                         (VObj [("is_capturing", VBool false)]))
                      fresh_page)) _ _ false false Hoff Hoff)
      as (_ & _ & H).
    exact (H eq_refl).
Defined.

(** *** Starting the capture *)

Lemma log_keeps_capture m t p :
  isCapturing (addLog m t p) = isCapturing p /\
  captureInProgress (addLog m t p) = captureInProgress p /\
  requests (addLog m t p) = requests p.
Proof. unfold addLog. destruct (shouldLog _ _); repeat split. Qed.

(** C7.  [startCapture] first fetches /api/config.  When the
    configuration names the capture mode "rtsp" (or none, which defaults to
    "rtsp") and has no [rtsp_url] (or an empty one), the handler logs the
    warning and returns: the request for the configuration is the only one
    sent, and [isCapturing] and [captureInProgress] are as before. *)
Theorem startCapture_refuses_without_rtsp_url
    (env : capture_env) (p : page) (response : response)
    (fields : list (string * value)) :
  config_reply env = Fulfilled response ->
  json response = Fulfilled (VObj fields) ->
  is_string (or_else (lookup "capture_mode" fields) (VStr "rtsp")) "rtsp"
    = true ->
  truthy (lookup "rtsp_url" fields) = false ->
  startCapture env p = addLog RtspUrlMissing warning (send config_request p) /\
  requests (startCapture env p) = requests p ++ [config_request] /\
  isCapturing (startCapture env p) = isCapturing p /\
  captureInProgress (startCapture env p) = captureInProgress p.
Proof.
  intros Hreply Hjson Hmode Hurl.
  assert (E : startCapture env p
              = addLog RtspUrlMissing warning (send config_request p)).
  { unfold startCapture, fetch_capture_config, bind, await, get, modify, ret.
    rewrite Hreply, Hjson, Hmode.
    unfold or_else at 1. rewrite Hurl. reflexivity. }
  rewrite E. destruct (log_keeps_capture RtspUrlMissing warning
                         (send config_request p)) as (-> & -> & ->).
  repeat split.
Qed.

(** The configuration says "rtsp" and has no URL; the page is left as it
    was but for the request and the warning. *)
Lemma startCapture_refuses_without_rtsp_url_witness :
  let env := {| config_reply :=
                  json_reply 200 (VObj [("capture_mode", VStr "rtsp")]);
                start_reply := json_reply 200 (VObj []) |} in
  startCapture env fresh_page
    = console_line console_warn RtspUrlMissing
        (send config_request fresh_page).
Proof.
  cbv zeta.
  destruct (startCapture_refuses_without_rtsp_url
              {| config_reply :=
                   json_reply 200 (VObj [("capture_mode", VStr "rtsp")]);
                 start_reply := json_reply 200 (VObj []) |}
              fresh_page _ [("capture_mode", VStr "rtsp")]
              eq_refl eq_refl eq_refl eq_refl) as [H _].
  rewrite H. reflexivity.
Defined.

(** *** Saving a detection *)

Section DetectionFacts.
Variable JSON_parse : string -> option value.

Lemma log_keeps_requests m t p : requests (addLog m t p) = requests p.
Proof. unfold addLog. destruct (shouldLog _ _); reflexivity. Qed.

Lemma log_keeps_modal m t p : modal_shown (addLog m t p) = modal_shown p.
Proof. unfold addLog. destruct (shouldLog _ _); reflexivity. Qed.

(** What [saveDetection] does once both checks pass and the fetch is
    answered. *)
Lemma saveDetection_answered env p response :
  create_incomplete p = false ->
  webhook_malformed p = false ->
  save_reply env = Fulfilled response ->
  saveDetection JSON_parse env p
    = let sent := send (save_request (editDetectionId p)
                          (trim (detection_name p))
                          (trim (detection_phrase p))
                          (trim (detection_webhook p))) p in
      match body_of JSON_parse response with
      | inl body =>
          if ok response
          then detection_saved env (truthy (editDetectionId p))
                 (trim (detection_name p)) sent
          else addLog (refusal response body) error_ sent
      | inr e => addLog (SaveFailed e) error_ sent
      end.
Proof.
  intros H1 H2 Hr. unfold saveDetection. rewrite H1, H2.
  unfold try_catch, try_catch_finally, bind, await, modify, read_body,
    ret, throw.
  rewrite Hr. cbv zeta.
  destruct (body_of JSON_parse response) as [body|e]; [|reflexivity].
  destruct (ok response); reflexivity.
Qed.

Lemma render_items_frame : forall items p,
  modal_shown (snd (render_items items p)) = modal_shown p /\
  requests (snd (render_items items p)) = requests p.
Proof.
  induction items as [|d items IH]; intros p; cbn [render_items];
    [split; reflexivity|].
  unfold bind, get, modify, throw, ret.
  destruct d; try (split; reflexivity);
    match goal with
    | |- context [render_items items ?q] =>
        destruct (IH q) as [H1 H2];
        destruct (render_items items q) as [[| |] q'];
        cbn [snd] in *; rewrite H1, H2; split; reflexivity
    end.
Qed.

Lemma loadDetections_frame reply p :
  modal_shown (loadDetections reply p) = modal_shown p /\
  (requests (loadDetections reply p) = requests p ++ [list_request]).
Proof.
  unfold loadDetections, try_catch, try_catch_finally, bind, await,
    modify, updateDetectionsList, gets, throw, ret.
  destruct reply as [response|e]; cbn -[addLog];
    [|rewrite log_keeps_requests, log_keeps_modal; split; reflexivity].
  destruct (json response) as [d|e]; cbn -[addLog];
    [|rewrite log_keeps_requests, log_keeps_modal; split; reflexivity].
  destruct d as [| | | |[|c s]|[|d items]|fields];
    try destruct (is_zero (lookup "length" fields));
    cbn -[addLog render_items];
    rewrite ?log_keeps_requests, ?log_keeps_modal; try (split; reflexivity).
  match goal with
  | |- context [render_items ?l ?q] =>
      destruct (render_items_frame l q) as [H1 H2];
      destruct (render_items l q) as [[| |] q'];
      cbn [snd] in *; cbn -[addLog];
      rewrite ?log_keeps_requests, ?log_keeps_modal, H1, H2; split; reflexivity
  end.
Qed.

Lemma detection_saved_facts env edit name p :
  modal_shown (detection_saved env edit name p) = false /\
  editDetectionId (detection_saved env edit name p) = VNull /\
  detection_name (detection_saved env edit name p) = "" /\
  detection_phrase (detection_saved env edit name p) = "" /\
  detection_webhook (detection_saved env edit name p) = "" /\
  requests (detection_saved env edit name p)
    = requests p ++ [list_request].
Proof.
  unfold detection_saved.
  set (q := loadDetections (reload_reply env) (set_modal_shown false p)).
  assert (Hq : modal_shown q = false /\
               requests q = requests p ++ [list_request]).
  { subst q.
    destruct (loadDetections_frame (reload_reply env)
                (set_modal_shown false p)) as [-> ->].
    split; reflexivity. }
  destruct Hq as [Hm Hr]. clearbody q.
  destruct q as [lvl]. cbn in Hm, Hr. subst.
  destruct lvl; repeat split.
Qed.


(** C9, amended.  Once the request is sent and answered, the outcome
    depends on [response.ok] and on whether the body can be read, not
    on what the body says: with [response.ok] and a body that was read,
    whatever its content, the modal is hidden, the form emptied and the
    detections loaded again; the [error] field of the body is looked at
    when [response.ok] is false only. *)
Theorem saveDetection_by_status (env : detection_env) (p : page)
    (response : response) (body : value * string) :
  create_incomplete p = false ->
  webhook_malformed p = false ->
  save_reply env = Fulfilled response ->
  body_of JSON_parse response = inl body ->
  let sent := send (save_request (editDetectionId p)
                      (trim (detection_name p)) (trim (detection_phrase p))
                      (trim (detection_webhook p))) p in
  (ok response = true ->
     saveDetection JSON_parse env p
       = detection_saved env (truthy (editDetectionId p))
           (trim (detection_name p)) sent /\
     modal_shown (saveDetection JSON_parse env p) = false /\
     detection_name (saveDetection JSON_parse env p) = "" /\
     detection_phrase (saveDetection JSON_parse env p) = "" /\
     detection_webhook (saveDetection JSON_parse env p) = "" /\
     requests (saveDetection JSON_parse env p)
       = requests sent ++ [list_request]) /\
  (ok response = false ->
     saveDetection JSON_parse env p
       = addLog (refusal response body) error_ sent).
Proof.
  intros H1 H2 Hr Hbody sent.
  rewrite (saveDetection_answered env p response H1 H2 Hr).
  cbv zeta. rewrite Hbody. fold sent. split; intros ->.
  - destruct (detection_saved_facts env (truthy (editDetectionId p))
                (trim (detection_name p)) sent)
      as (Hm & _ & Hn & Hp & Hw & Hq).
    repeat split; assumption.
  - reflexivity.
Qed.
End DetectionFacts.



(** A 200 whose body says [success: false]: the modal is closed and the
    form emptied all the same. *)
Lemma saveDetection_by_status_witness :
  let env := replies
               (json_reply 200 (VObj [("success", VBool false);
                                      ("error", VStr "phrase too short")]))
               (json_reply 200 (VArr [])) in
  let p := modal_with "Porch" "a person at the door" "" in
  modal_shown (saveDetection no_parse env p) = false /\
  detection_name (saveDetection no_parse env p) = "" /\
  console (saveDetection no_parse env p)
    = [(console_log, DetectionsLoaded (VArr []));
       (console_log, DetectionSaved false "Porch")].
Proof.
  cbv zeta.
  destruct (saveDetection_by_status no_parse
              (replies
                 (json_reply 200 (VObj [("success", VBool false);
                                        ("error", VStr "phrase too short")]))
                 (json_reply 200 (VArr [])))
              (modal_with "Porch" "a person at the door" "") _ _
              eq_refl eq_refl eq_refl eq_refl) as [H _].
  destruct (H eq_refl) as (Heq & Hm & Hn & _).
  split; [exact Hm|]. split; [exact Hn|].
  rewrite Heq. vm_compute. reflexivity.
Defined.

(** C9 as stated fails: the response has status 200, but reading its
    body throws; the handler logs the error of the [catch] clause and the
    modal stays open, the form as it was. *)
Lemma ok_response_with_broken_body :
  let env := replies broken_body (json_reply 200 (VArr [])) in
  let p := modal_with "Porch" "a person at the door" "" in
  saveDetection no_parse env p
    = addLog (SaveFailed (NetworkError "network error")) error_
        (send (create_request "Porch" "a person at the door" "") p) /\
  modal_shown (saveDetection no_parse env p) = true /\
  detection_name (saveDetection no_parse env p) = "Porch".
Proof. cbv zeta. repeat split; vm_compute; reflexivity. Qed.

(** *** The capture controls after start and stop *)

Lemma addLog_controls m t p :
  capture_controls (addLog m t p) = capture_controls p.
Proof. unfold addLog. destruct (shouldLog _ _); reflexivity. Qed.

Lemma send_controls r p : capture_controls (send r p) = capture_controls p.
Proof. reflexivity. Qed.

Lemma console_line_controls c m p :
  capture_controls (console_line c m p) = capture_controls p.
Proof. reflexivity. Qed.

Lemma spinner_shown_controls p :
  capture_controls (showCaptureLoading true p)
    = let '(c, _, pd, _, _) := capture_controls p in (c, true, pd, true, false).
Proof. reflexivity. Qed.

Lemma spinner_hidden_controls p :
  capture_controls (showCaptureLoading false p)
    = let '(c, sd, pd, _, _) := capture_controls p in
      (c, c && sd, pd, false, true).
Proof.
  unfold showCaptureLoading.
  change (isCapturing (set_start_loading_hidden true
                         (set_start_content_hidden false p)))
    with (isCapturing p).
  cbv zeta. destruct (isCapturing p) eqn:E; cbn [negb];
    unfold capture_controls, console_line; cbn; rewrite ?E; reflexivity.
Qed.

Lemma started_controls p :
  capture_controls
    (showToggleButton
       (updateCaptureControls
          (set_captureInProgress true (set_isCapturing true p))))
    = let '(_, _, _, sch, slh) := capture_controls p in
      (true, true, false, sch, slh).
Proof. unfold showToggleButton. rewrite addLog_controls. reflexivity. Qed.

Lemma stopped_controls p :
  capture_controls
    (stopVideoStream
       (hideToggleButton
          (updateCaptureControls
             (set_captureInProgress false (set_isCapturing false p)))))
    = let '(_, _, _, sch, slh) := capture_controls p in
      (false, false, true, sch, slh).
Proof.
  destruct p as [lvl c rq cap prog vis timer ed ds sd pd sch slh td ncd crd
                  vd vs tt ti dn dp dw ms dl].
  destruct timer; reflexivity.
Qed.

Create Rewrite HintDb controls.
#[local] Hint Rewrite addLog_controls send_controls console_line_controls
  spinner_shown_controls spinner_hidden_controls started_controls
  stopped_controls : controls.

Ltac controls_leaf :=
  autorewrite with controls;
  cbv beta iota zeta delta [capture_controls];
  rewrite ?andb_true_r;
  first [left; reflexivity | right; left; reflexivity
        | right; right; reflexivity].

(** [startCapture] either returns before it shows the spinner and leaves
    the controls alone, or starts the capture, or fails to; in the last
    two cases the spinner is hidden at the end. *)
Lemma startCapture_controls env p :
  let after := capture_controls (startCapture env p) in
  after = capture_controls p \/
  after = (true, true, false, false, true) \/
  after = (isCapturing p, isCapturing p, stop_disabled p, false, true).
Proof.
  cbv zeta. unfold startCapture, fetch_capture_config, try_catch_finally,
    displayCameraInfo.
  generalize (config_reply env) (start_reply env). intros cr sr.
  repeat exec_step; controls_leaf.
Qed.

(** [stopCapture] hides the spinner on every path. *)
Lemma stopCapture_controls reply p :
  let after := capture_controls (stopCapture reply p) in
  after = (false, false, true, false, true) \/
  after = (isCapturing p, isCapturing p && start_disabled p, stop_disabled p,
           false, true).
Proof.
  cbv zeta. unfold stopCapture, try_catch_finally.
  repeat exec_step; autorewrite with controls;
    cbv beta iota zeta delta [capture_controls];
    first [left; reflexivity | right; reflexivity].
Qed.

Lemma at_rest_controls p :
  at_rest p <->
  capture_controls p
    = (isCapturing p, isCapturing p, negb (isCapturing p), false, true).
Proof.
  unfold at_rest, capture_controls. split.
  - intros (H1 & H2 & H3 & H4). rewrite H1, H2, H3, H4. reflexivity.
  - intros H. injection H as H1 H2 H3 H4. repeat split; congruence.
Qed.

(** Both handlers keep the controls at rest, whatever the server does. *)
Lemma capture_handlers_rest env reply p :
  at_rest p -> at_rest (startCapture env p) /\ at_rest (stopCapture reply p).
Proof.
  intros H. pose proof (proj1 (at_rest_controls p) H) as Hp.
  unfold capture_controls in Hp. injection Hp as Hsd Hpd Hsch Hslh.
  split; apply at_rest_controls.
  - destruct (startCapture_controls env p) as [E|[E|E]]; cbv zeta in E;
      rewrite E; unfold capture_controls in *;
      injection E as E1 E2 E3 E4 E5; rewrite ?E1; try reflexivity;
      congruence.
  - destruct (stopCapture_controls reply p) as [E|E]; cbv zeta in E;
      rewrite E; unfold capture_controls in *;
      injection E as E1 E2 E3 E4 E5; rewrite ?E1; try reflexivity;
      rewrite Hsd, Hpd, andb_diag; reflexivity.
Qed.
End AppFacts.

(** ** Both pages: cleanup after the asynchronous handlers *)

Module CleanupFacts.
Import JS.

(** C8, amended.  Each connectivity test ends, on every path, with its
    button enabled and its badge out of the loading class.  A confirmed
    restart ends with the restart button enabled.  [startCapture] and
    [stopCapture] keep the capture controls at rest on every path: the
    spinner hidden, the label shown, the start button disabled exactly
    while the page is capturing and the stop button exactly while it is
    not. *)
Theorem handlers_clean_up
    (x : Admin.exchange) (urlField : option string)
    (restart : Admin.restart_env) (a : Admin.page)
    (capture : App.capture_env) (stop : settled response) (p : App.page) :
  Admin.confirm_answer restart = true ->
  App.at_rest p ->
  (Admin.button_released Admin.test_ai a (Admin.testAI x a) /\
   Admin.badge_settled Admin.test_ai_status (Admin.testAI x a)) /\
  (Admin.button_released Admin.test_mqtt a (Admin.testMQTT x a) /\
   Admin.badge_settled Admin.test_mqtt_status (Admin.testMQTT x a)) /\
  (Admin.button_released Admin.test_rtsp a (Admin.testRTSP urlField x a) /\
   Admin.badge_settled Admin.test_rtsp_status
     (Admin.testRTSP urlField x a)) /\
  (Admin.button_released Admin.test_cameras a (Admin.testCameras x a) /\
   Admin.badge_settled Admin.test_cameras_status (Admin.testCameras x a)) /\
  (exists a', Admin.restartApplication restart a = Some a' /\
              Admin.button_released Admin.restart_app a a') /\
  App.at_rest (App.startCapture capture p) /\
  App.at_rest (App.stopCapture stop p).
Proof.
  intros Hconfirm Hrest.
  split; [apply AdminFacts.testAI_cleanup|].
  split; [apply AdminFacts.testMQTT_cleanup|].
  split; [apply AdminFacts.testRTSP_cleanup|].
  split; [apply AdminFacts.testCameras_cleanup|].
  split; [apply AdminFacts.restartApplication_cleanup, Hconfirm|].
  apply AppFacts.capture_handlers_rest, Hrest.
Qed.

(** On the fresh pages: the AI test is answered in 100 ms with a success,
    the restart is confirmed and the server is back at the second probe,
    the capture starts, and a stop is refused. *)
Lemma handlers_clean_up_witness :
  Admin.disabled
    (Admin.testAI
       (Admin.answered
          (Admin.http 200 (VObj [("success", VBool true)])) 100)
       Admin.fresh_page) Admin.test_ai = Some false /\
  App.at_rest
    (App.startCapture
       (App.rtsp_configured (App.json_reply 200 (VObj [])))
       App.fresh_page).
Proof.
  destruct (handlers_clean_up
              (Admin.answered
                 (Admin.http 200 (VObj [("success", VBool true)])) 100)
              None
              (Admin.restart_with (Admin.back_at_probe 1 0 0))
              Admin.fresh_page
              (App.rtsp_configured (App.json_reply 200 (VObj [])))
              (App.json_reply 500 (VObj []))
              App.fresh_page
              eq_refl
              (conj eq_refl (conj eq_refl (conj eq_refl eq_refl))))
    as ((Hai & _) & _ & _ & _ & _ & Hstart & _).
  split; [exact Hai|exact Hstart].
Defined.

(** C8 as stated fails.  After a start that succeeds, the start button,
    which triggered it, is still disabled, and after a stop that succeeds
    the stop button is: the two buttons follow the capture flag, and
    [showCaptureLoading(false)] enables the start button only when the
    page is not capturing. *)
Lemma started_capture_keeps_start_disabled :
  let started :=
    App.startCapture (App.rtsp_configured (App.json_reply 200 (VObj [])))
      App.fresh_page in
  let stopped := App.stopCapture (App.json_reply 200 (VObj [])) started in
  App.capture_controls started = (true, true, false, false, true) /\
  App.capture_controls stopped = (false, false, true, false, true).
Proof. cbv zeta. split; vm_compute; reflexivity. Qed.
End CleanupFacts.

(** A step that also decides the truthiness of [undefined] and [null],
    and splits on [response.ok] before its negation. *)
Ltac exec_step_lit :=
  cbv beta iota zeta delta
    [JS.bind JS.modify JS.ret JS.throw JS.leave JS.await JS.get JS.gets
     fst snd negb andb];
  match goal with
  | |- context [JS.truthy JS.VUndefined] =>
      change (JS.truthy JS.VUndefined) with false
  | |- context [JS.truthy JS.VNull] =>
      change (JS.truthy JS.VNull) with false
  | |- context [JS.ok ?r] => destruct (JS.ok r)
  | |- context [match ?x with JS.Fulfilled _ => _ | JS.Rejected _ => _ end] =>
      destruct x
  | |- context [match ?x with JS.VUndefined => _ | _ => _ end] => destruct x
  | |- context [if ?b then _ else _] => destruct b
  end.

(** ** AdminApp: further properties *)

Module AdminMoreFacts.
Import JS JSMore Admin AdminFacts AdminMore.

(** *** The health poll: how many probes *)

(** Every round of the poll takes a second at least, so the probes sent
    from [elapsed] on fit between [elapsed] and the deadline. *)
Lemma waitLoop_probes net m : forall fuel k t p b p',
  waitLoop fuel net k t m p = Some (b, p') ->
  exists n,
    requests p' = requests p ++ repeat metrics_probe n /\
    (n = 0 \/ (t + 1000 * N.of_nat n < m * 1000 + 1000)%N) /\
    (b = true -> 0 < n).
Proof.
  induction fuel as [|fuel IH]; intros k t p b p' H; cbn [waitLoop] in H;
    [discriminate|].
  destruct (t <? m * 1000)%N eqn:Hlt.
  - apply N.ltb_lt in Hlt.
    set (pr := net k t) in *.
    set (res := fetchWithTimeout (probe_exchange pr) 2000) in *.
    assert (Hnext : forall b p',
              waitLoop fuel net (S k)
                (t + snd res + 1000 + timer_lag pr) m (send metrics_probe p)
                = Some (b, p') ->
              exists n,
                requests p' = requests p ++ repeat metrics_probe n /\
                (n = 0 \/ (t + 1000 * N.of_nat n < m * 1000 + 1000)%N) /\
                (b = true -> 0 < n)).
    { intros b0 p0 H0. apply IH in H0. destruct H0 as (n & Hr & Hn & _).
      exists (S n). split; [|split].
      - rewrite Hr. cbn [send with_requests requests repeat].
        rewrite <- List.app_assoc. reflexivity.
      - right. destruct Hn as [->|Hn]; lia.
      - intros _. lia. }
    destruct (fst res) as [r|e].
    + destruct (ok r).
      * inversion H; subst. exists 1. split; [reflexivity|].
        split; [right; lia|intros _; lia].
      * apply Hnext, H.
    + apply Hnext, H.
  - inversion H; subst. exists 0. split.
    + cbn [repeat]. rewrite List.app_nil_r. reflexivity.
    + split; [left; reflexivity|discriminate].
Qed.

(** X1.  [waitForServerBack(maxSeconds)] always returns, and what it sent
    are probes of /api/metrics, [maxSeconds] of them at most (60 for the
    restart); it returns true only after a probe. *)
Theorem waitForServerBack_probes (net : network) (maxSeconds : N) (p : page) :
  exists b p' n,
    waitForServerBack net maxSeconds p = Some (b, p') /\
    requests p' = requests p ++ repeat metrics_probe n /\
    (N.of_nat n <= maxSeconds)%N /\
    (b = true -> 0 < n).
Proof.
  destruct (waitForServerBack_total net maxSeconds p) as [[b p'] H].
  exists b, p'. unfold waitForServerBack in *.
  destruct (waitLoop_probes _ _ _ _ _ _ _ _ H) as (n & Hr & Hn & Hb).
  exists n. split; [exact H|]. split; [exact Hr|]. split; [|exact Hb].
  destruct Hn as [->|Hn]; lia.
Qed.

(** *** Connectivity tests: an answer that comes too late *)

Lemma setBadge_same id state text p :
  badges (setBadge id state text p) id
    = option_map (fun _ => {| badge_cls := badge_class_of state;
                              badge_text := text |}) (badges p id).
Proof.
  unfold setBadge. cbn [with_badges badges].
  destruct id; cbn [badge_eqb]; destruct (badges p _); reflexivity.
Qed.

Lemma setBadge_twice id s1 t1 s2 t2 p :
  badges (setBadge id s2 t2 (setBadge id s1 t1 p)) id
    = option_map (fun _ => {| badge_cls := badge_class_of s2;
                              badge_text := t2 |}) (badges p id).
Proof. rewrite !setBadge_same. destruct (badges p id); reflexivity. Qed.

Lemma addLog_badges m t p : badges (addLog m t p) = badges p.
Proof. apply addLog_frame. Qed.

Lemma addLog_sent m t p : requests (addLog m t p) = requests p.
Proof. apply addLog_frame. Qed.

Lemma fetch_too_late timeout x :
  too_late timeout x ->
  fst (fetchWithTimeout x timeout) = Rejected AbortError.
Proof.
  unfold too_late, fetchWithTimeout. intros H.
  destruct (latency x <? timeout)%N eqn:E; [|reflexivity].
  apply N.ltb_lt in E. lia.
Qed.

Lemma aborted_after b id sent thrown p q :
  requests q = requests p ++ [sent] ->
  disabled q = disabled (set_disabled b true p) ->
  option_map (fun _ => tt) (badges q id)
    = option_map (fun _ => tt) (badges p id) ->
  aborted b id sent thrown p
    (set_disabled b false
       (addLog thrown error_ (setBadge id st_error "KO" q))).
Proof.
  intros Hreq Hdis Hbad. unfold aborted.
  split; [cbn [set_disabled with_disabled requests];
          rewrite addLog_sent; exact Hreq|].
  split; [|split].
  - cbn [set_disabled with_disabled badges]. rewrite addLog_badges.
    rewrite setBadge_same. unfold ko_badge.
    destruct (badges q id), (badges p id); try discriminate; reflexivity.
  - unfold button_released.
    apply (released_after b p (set_disabled b true p)); [reflexivity|].
    exact Hdis.
  - eexists. reflexivity.
Qed.

Ltac late_test H :=
  unfold try_catch_finally; rewrite H;
  cbv beta iota zeta delta [bind modify await throw fst snd];
  apply aborted_after;
  [ cbn [send with_requests requests]; rewrite addLog_sent; reflexivity
  | rewrite send_disabled, addLog_disabled; reflexivity
  | cbn [send with_requests badges]; rewrite addLog_badges;
    cbn [set_disabled with_disabled badges]; rewrite setBadge_same;
    match goal with |- context [badges ?p ?id] => destruct (badges p id) end;
    reflexivity ].


(** *** The cameras test *)

(** X3.  With no camera fragment on the page, [testCameras] sends
    nothing: the badge reads N/C in the info class, the button is
    enabled again, and the stored descriptors are the empty array that
    [saveCamerasConfiguration] wrote. *)
Theorem testCameras_without_cameras (x : exchange) (p : page) :
  cameras p = [] ->
  requests (testCameras x p) = requests p /\
  badges (testCameras x p) test_cameras_status
    = option_map (fun _ => {| badge_cls := bg_info; badge_text := "N/C" |})
        (badges p test_cameras_status) /\
  button_released test_cameras p (testCameras x p) /\
  additional_cameras (testCameras x p) = Some [] /\
  cameras (testCameras x p) = [].
Proof.
  intros Hc.
  assert (E : testCameras x p
              = set_disabled test_cameras false
                  (addLog NoExtraCamera warning
                     (setBadge test_cameras_status st_info "N/C"
                        (with_additional_cameras (fun _ => Some [])
                           (addLog CamerasStart info
                              (set_disabled test_cameras true
                                 (setBadge test_cameras_status st_loading
                                    "..." p))))))).
  { unfold testCameras, try_catch_finally, saveCamerasConfiguration.
    cbv beta iota zeta delta [bind modify fst snd].
    rewrite (proj1 (addLog_cameras _ _ _)).
    cbn [set_disabled with_disabled setBadge with_badges cameras].
    rewrite Hc. reflexivity. }
  split; [|split; [|split; [apply (testCameras_cleanup x p)|]]]; rewrite E.
  - cbn [set_disabled with_disabled requests]. rewrite addLog_sent.
    cbn [setBadge with_badges with_additional_cameras requests].
    rewrite addLog_sent. reflexivity.
  - cbn [set_disabled with_disabled badges]. rewrite addLog_badges.
    rewrite setBadge_same.
    cbn [with_additional_cameras badges]. rewrite addLog_badges.
    cbn [set_disabled with_disabled badges]. rewrite setBadge_same.
    destruct (badges p test_cameras_status); reflexivity.
  - cbn [set_disabled with_disabled additional_cameras cameras].
    rewrite (proj2 (addLog_cameras _ _ _)), (proj1 (addLog_cameras _ _ _)).
    cbn [setBadge with_badges with_additional_cameras additional_cameras
         cameras].
    rewrite (proj1 (addLog_cameras _ _ _)).
    split; [reflexivity|exact Hc].
Qed.

(** Counting and listing results that can be read. *)
Lemma count_successes_readable : forall rs p,
  Forall readable rs ->
  count_successes rs p = (Normal (List.length (filter succeeded rs)), p).
Proof.
  induction rs as [|r rs IH]; intros p H; [reflexivity|].
  inversion H as [|? ? [H1 H2] Hrs]; subst.
  cbn [count_successes filter].
  destruct r; try contradiction;
    cbv beta iota zeta delta [bind get ret fst snd];
    rewrite (IH p Hrs); cbn [succeeded truthy]; try reflexivity.
  destruct (truthy (lookup "success" fields)); reflexivity.
Qed.

Lemma log_results_readable : forall rs p,
  Forall readable rs ->
  fst (log_results rs p) = Normal tt /\
  badges (snd (log_results rs p)) = badges p /\
  requests (snd (log_results rs p)) = requests p.
Proof.
  induction rs as [|r rs IH]; intros p H; [repeat split|].
  inversion H as [|? ? [H1 H2] Hrs]; subst.
  cbn [log_results].
  destruct r; try contradiction;
    cbv beta iota zeta delta [bind get modify ret fst snd];
    match goal with
    | |- context [log_results rs ?s] =>
        destruct (IH s Hrs) as (Hn & Hb & Hr);
        destruct (log_results rs s) as [c s']; cbn [fst snd] in *;
        subst c; rewrite Hb, Hr, addLog_badges, addLog_sent
    end; repeat split.
Qed.

(** X4.  When the back end answers in time with [success] and an array of
    results, the badge of the cameras test reads "k/n", k of the n results
    having a truthy [success]; it is in the success class when k = n, and
    otherwise in bg-secondary, the class of an idle badge: [setBadge] does
    not know the state "warning" that [testCameras] passes. *)
Theorem testCameras_badge_counts (x : exchange) (p : page) (r : response)
    (fields : list (string * value)) (results : list value) :
  cameras p <> [] ->
  (latency x < 10000)%N ->
  reply x = Fulfilled r ->
  json r = Fulfilled (VObj fields) ->
  truthy (lookup "success" fields) = true ->
  lookup "results" fields = VArr results ->
  Forall readable results ->
  let k := List.length (filter succeeded results) in
  let n := List.length results in
  badges (testCameras x p) test_cameras_status
    = option_map
        (fun _ => {| badge_cls := if Nat.eqb k n then bg_success
                                  else bg_secondary;
                     badge_text := (decimal k ++ "/" ++ decimal n)%string |})
        (badges p test_cameras_status) /\
  requests (testCameras x p)
    = requests p
      ++ [post_request "/api/admin/cameras/test_multiple"
            (CamerasBody (map camera_to_test (map collect (cameras p))))
            10000].
Proof.
  intros Hc Hlat Hreply Hjson Hok Hres Hread k n.
  assert (Hf : fst (fetchWithTimeout x 10000) = Fulfilled r).
  { unfold fetchWithTimeout. apply N.ltb_lt in Hlat. rewrite Hlat.
    exact Hreply. }
  unfold testCameras, try_catch_finally, saveCamerasConfiguration.
  rewrite Hf.
  cbv beta iota zeta delta [bind modify await ret fst snd].
  replace (cameras (addLog CamerasStart info
                      (set_disabled test_cameras true
                         (setBadge test_cameras_status st_loading "..." p))))
    with (cameras p)
    by (rewrite (proj1 (addLog_cameras _ _ _)); reflexivity).
  destruct (map collect (cameras p)) as [|c cs] eqn:E;
    [destruct (cameras p); [contradiction|discriminate]|].
  cbv beta iota zeta delta [bind modify await ret fst snd].
  rewrite Hjson. cbv beta iota zeta delta [bind get modify await ret fst snd].
  rewrite Hok, Hres.
  cbv beta iota zeta delta [bind get modify await ret fst snd].
  rewrite (count_successes_readable _ _ Hread). fold k n.
  set (q := send _ _).
  assert (Hq : badges q test_cameras_status
               = option_map (fun _ => {| badge_cls := bg_warning;
                                         badge_text := "..." |})
                   (badges p test_cameras_status)).
  { subst q. cbn [send with_requests badges]. rewrite addLog_badges.
    cbn [with_additional_cameras badges]. rewrite addLog_badges.
    cbn [set_disabled with_disabled badges]. rewrite setBadge_same.
    reflexivity. }
  assert (Hqr : requests q
                = requests p
                  ++ [post_request "/api/admin/cameras/test_multiple"
                        (CamerasBody (map camera_to_test (c :: cs))) 10000]).
  { subst q. cbn [send with_requests requests]. rewrite addLog_sent.
    cbn [with_additional_cameras requests]. rewrite addLog_sent.
    reflexivity. }
  clearbody q.
  destruct (Nat.eqb k n);
    cbv beta iota zeta delta [bind modify ret fst snd];
    match goal with
    | |- context [log_results results ?s] =>
        destruct (log_results_readable results s Hread) as (Hn & Hb & Hr);
        destruct (log_results results s) as [c0 s']; cbn [fst snd] in *;
        subst c0
    end;
    cbn [set_disabled with_disabled badges requests];
    rewrite Hb, Hr, addLog_badges, addLog_sent, setBadge_same, Hq;
    cbn [setBadge with_badges requests]; rewrite Hqr;
    (split; [destruct (badges p test_cameras_status); reflexivity
            |reflexivity]).
Qed.

(** *** The "apply interval" action: what is posted *)

Lemma interval_reply_cameras cameraId interval reply p :
  cameras (interval_reply cameraId interval reply p) = cameras p.
Proof.
  unfold interval_reply, try_catch, try_catch_finally.
  repeat exec_step; rewrite ?(proj1 (addLog_cameras _ _ _)); reflexivity.
Qed.

(** The literal 0.1 of the range test: the double next to one tenth, which
    is a little more than one tenth. *)
Lemma tenth_double :
  to_double (1 # 10) = Finite (7205759403792794 # 72057594037927936).
Proof. vm_compute. reflexivity. Qed.

Lemma tenth_below_its_double :
  (1 # 10 <= 7205759403792794 # 72057594037927936)%Q.
Proof. unfold Qle. cbn. lia. Qed.

(** X5.  [applyCameraInterval] sends at most one request, a POST to
    /api/camera/interval, and only with an interval between 0.1 and 60:
    the double that [parseFloat] reads at the head of the first control
    named [`${cameraId}_analysis_interval`].  It never changes the
    fragments. *)
Theorem applyCameraInterval_posts_in_range
    (cameraId : string) (reply : settled response) (p : page) :
  let p' := applyCameraInterval cameraId reply p in
  cameras p' = cameras p /\
  (requests p' = requests p \/
   exists input q,
     find_in_fragments (cameraId ++ "_analysis_interval")%string (cameras p)
       = Some input /\
     parseFloat (f_value input) = Finite q /\
     (1 # 10 <= q)%Q /\ (q <= inject_Z 60)%Q /\
     requests p' = requests p ++ [interval_request cameraId q]).
Proof.
  cbv zeta. unfold applyCameraInterval.
  destruct (find_in_fragments _ (cameras p)) as [input|] eqn:Hfind.
  - destruct (parseFloat (f_value input)) as [|q|neg] eqn:Hparse;
      cbn [isNaN orb].
    + split; [apply addLog_cameras|left; apply addLog_requests].
    + rewrite tenth_double. unfold num_gt, num_lt.
      destruct (Qle_bool (7205759403792794 # 72057594037927936) q) eqn:Hlo;
        cbn [negb orb];
        [|split; [apply addLog_cameras|left; apply addLog_requests]].
      destruct (Qle_bool q (inject_Z 60)) eqn:Hhi; cbn [negb];
        [|split; [apply addLog_cameras|left; apply addLog_requests]].
      split.
      * rewrite interval_reply_cameras. cbn [send with_requests cameras].
        apply addLog_cameras.
      * right. exists input, q. split; [reflexivity|].
        split; [exact Hparse|].
        split; [apply (Qle_trans _ _ _ tenth_below_its_double);
                apply Qle_bool_iff, Hlo|].
        split; [apply Qle_bool_iff, Hhi|].
        rewrite interval_reply_requests.
        cbn [send with_requests requests]. rewrite addLog_requests.
        reflexivity.
    + rewrite tenth_double.
      destruct (num_lt (Infinity neg)
                  (Finite (7205759403792794 # 72057594037927936))
                || num_gt (Infinity neg) (Finite (inject_Z 60)));
        split; try apply addLog_cameras; try reflexivity;
        left; try apply addLog_requests; reflexivity.
  - split; [apply addLog_cameras|left; apply addLog_requests].
Qed.

(** *** Removing a camera, and adding one afterwards *)

Lemma remove_fragment_None cameraId : forall cs,
  remove_fragment cameraId cs = None <-> ~ In cameraId (map camera_id cs).
Proof.
  induction cs as [|f cs IH]; cbn [remove_fragment map In].
  - split; [intros _ []|reflexivity].
  - destruct (String.eqb (camera_id f) cameraId) eqn:E.
    + apply String.eqb_eq in E. split; [discriminate|].
      intros H. exfalso. apply H. left. exact E.
    + apply String.eqb_neq in E.
      destruct (remove_fragment cameraId cs) as [r|]; cbn [option_map].
      * split; [discriminate|]. intros H. exfalso.
        destruct IH as [_ IH]. enough (None = Some r) by discriminate.
        symmetry. apply IH. intros Hin. apply H. right. exact Hin.
      * split; [|reflexivity]. intros _ [H|H]; [contradiction|].
        destruct IH as [IH _]. exact (IH eq_refl H).
Qed.

Lemma filter_other_absent cameraId : forall cs,
  ~ In cameraId (map camera_id cs) -> filter (other_than cameraId) cs = cs.
Proof.
  induction cs as [|f cs IH]; intros H; [reflexivity|].
  cbn [filter map In] in *. unfold other_than at 1.
  destruct (String.eqb (camera_id f) cameraId) eqn:E.
  - apply String.eqb_eq in E. exfalso. apply H. left. exact E.
  - cbn [negb]. f_equal. apply IH. intros Hin. apply H. right. exact Hin.
Qed.

Lemma remove_fragment_filter cameraId : forall cs rest,
  NoDup (map camera_id cs) ->
  remove_fragment cameraId cs = Some rest ->
  rest = filter (other_than cameraId) cs.
Proof.
  induction cs as [|f cs IH]; intros rest Hnd H; cbn [remove_fragment] in H;
    [discriminate|].
  inversion Hnd as [|? ? Hnotin Hnd']; subst.
  cbn [filter]. unfold other_than at 1.
  destruct (String.eqb (camera_id f) cameraId) eqn:E; cbn [negb].
  - inversion H; subst. apply String.eqb_eq in E. subst cameraId.
    symmetry. apply filter_other_absent, Hnotin.
  - destruct (remove_fragment cameraId cs) as [r|] eqn:Er; [|discriminate].
    inversion H; subst. f_equal. apply IH; [exact Hnd'|reflexivity].
Qed.

Lemma filter_other_ids cameraId cs :
  ~ In cameraId (map camera_id (filter (other_than cameraId) cs)).
Proof.
  rewrite in_map_iff. intros [f [Hid Hin]]. apply filter_In in Hin.
  destruct Hin as [_ Hin]. unfold other_than in Hin. rewrite Hid in Hin.
  rewrite String.eqb_refl in Hin. discriminate.
Qed.

Lemma removeCameraConfig_cameras cameraId p :
  NoDup (camera_ids p) ->
  cameras (removeCameraConfig cameraId p)
    = filter (other_than cameraId) (cameras p) /\
  (In cameraId (camera_ids p) ->
   additional_cameras (removeCameraConfig cameraId p)
     = Some (map collect (cameras (removeCameraConfig cameraId p)))) /\
  (~ In cameraId (camera_ids p) -> removeCameraConfig cameraId p = p).
Proof.
  intros Hnd. unfold removeCameraConfig, camera_ids in *.
  destruct (remove_fragment cameraId (cameras p)) as [rest|] eqn:E.
  - pose proof (remove_fragment_filter _ _ _ Hnd E) as Hrest.
    unfold saveCamerasConfiguration.
    cbn [snd with_additional_cameras cameras additional_cameras].
    rewrite (proj1 (addLog_cameras _ _ _)). cbn [with_cameras cameras].
    split; [exact Hrest|]. split.
    + intros _. reflexivity.
    + intros Hnot. apply remove_fragment_None in Hnot. congruence.
  - apply remove_fragment_None in E.
    split; [symmetry; apply filter_other_absent, E|].
    split; [contradiction|reflexivity].
Qed.

(** X6.  On a page whose fragments have distinct ids,
    [removeCameraConfig(cameraId)] removes the fragment with that id and
    keeps the others in their order; it then stores the descriptors of
    the fragments that are left.  For an id that no fragment carries it
    changes nothing, the stored descriptors included. *)
Theorem removeCameraConfig_removes_one (cameraId : string) (p : page) :
  NoDup (camera_ids p) ->
  let p' := removeCameraConfig cameraId p in
  cameras p' = filter (other_than cameraId) (cameras p) /\
  ~ In cameraId (camera_ids p') /\
  (In cameraId (camera_ids p) ->
   additional_cameras p' = Some (map collect (cameras p'))) /\
  (~ In cameraId (camera_ids p) -> p' = p).
Proof.
  intros Hnd. cbv zeta.
  destruct (removeCameraConfig_cameras cameraId p Hnd) as (Hcs & Hst & Hno).
  split; [exact Hcs|]. split; [|split; [exact Hst|exact Hno]].
  unfold camera_ids. rewrite Hcs. apply filter_other_ids.
Qed.

Lemma filter_ids cameraId : forall cs,
  map camera_id (filter (other_than cameraId) cs)
    = filter (fun s => negb (String.eqb s cameraId)) (map camera_id cs).
Proof.
  induction cs as [|f cs IH]; [reflexivity|].
  cbn [filter map]. unfold other_than at 1.
  destruct (String.eqb (camera_id f) cameraId); cbn [negb map];
    rewrite IH; reflexivity.
Qed.

Lemma filter_names_absent k : forall l,
  ~ In k l ->
  filter (fun s => negb (String.eqb s (camera_name k))) (map camera_name l)
    = map camera_name l.
Proof.
  induction l as [|a l IH]; intros H; [reflexivity|].
  cbn [map filter].
  destruct (String.eqb (camera_name a) (camera_name k)) eqn:E.
  - apply String.eqb_eq, camera_name_inj in E. subst a.
    exfalso. apply H. left. reflexivity.
  - cbn [negb]. f_equal. apply IH. intros Hin. apply H. right. exact Hin.
Qed.

Lemma camera_names_NoDup : forall l, NoDup l -> NoDup (map camera_name l).
Proof.
  induction l as [|a l IH]; intros H; cbn [map]; [constructor|].
  inversion H as [|? ? Hnotin Hnd]; subst. constructor; [|apply IH, Hnd].
  rewrite in_map_iff. intros [b [Hb Hin]]. apply camera_name_inj in Hb.
  subst b. contradiction.
Qed.

Lemma ids_upto_NoDup n : NoDup (ids_upto n).
Proof. apply camera_names_NoDup, seq_NoDup. Qed.

Lemma ids_upto_In n k : In (camera_name k) (ids_upto n) <-> 1 <= k <= n.
Proof.
  unfold ids_upto. rewrite in_map_iff. split.
  - intros [j [Hj Hin]]. apply camera_name_inj in Hj. subst j.
    apply in_seq in Hin. lia.
  - intros H. exists k. split; [reflexivity|]. apply in_seq. lia.
Qed.

Lemma filter_length_NoDup cameraId : forall cs,
  NoDup (map camera_id cs) -> In cameraId (map camera_id cs) ->
  S (List.length (filter (other_than cameraId) cs)) = List.length cs.
Proof.
  induction cs as [|f cs IH]; intros Hnd Hin; [destruct Hin|].
  inversion Hnd as [|? ? Hnotin Hnd']; subst.
  cbn [filter List.length]. unfold other_than at 1.
  destruct (String.eqb (camera_id f) cameraId) eqn:E; cbn [negb].
  - apply String.eqb_eq in E. subst cameraId.
    rewrite filter_other_absent; [reflexivity|exact Hnotin].
  - apply String.eqb_neq in E. destruct Hin as [Hin|Hin]; [contradiction|].
    cbn [List.length]. f_equal. apply IH; assumption.
Qed.

(** X7.  On a page with the fragments camera_1 .. camera_n, removing
    camera_k and then adding a camera adds one only when the removed
    camera was the last: after the removal of an earlier one the id
    that [addCameraConfig] generates from the count, camera_n, is still
    taken, so the call is refused with the console warning and the page
    keeps n - 1 cameras. *)
Theorem add_after_remove (p : page) (n k : nat) :
  camera_ids p = ids_upto n -> 1 <= k <= n ->
  let removed := removeCameraConfig (camera_name k) p in
  let added := addCameraConfig removed in
  (k < n ->
   cameras added = cameras removed /\
   List.length (cameras added) = n - 1 /\
   console added
     = console removed ++ [(console_warn, CameraExists (camera_name n))]) /\
  (k = n -> camera_ids added = ids_upto n).
Proof.
  intros Hids Hk. cbv zeta.
  assert (Hnd : NoDup (camera_ids p)) by (rewrite Hids; apply ids_upto_NoDup).
  assert (Hin : In (camera_name k) (camera_ids p))
    by (rewrite Hids; apply ids_upto_In; exact Hk).
  destruct (removeCameraConfig_cameras (camera_name k) p Hnd) as (Hcs & _).
  set (removed := removeCameraConfig (camera_name k) p) in *.
  assert (Hlen : S (List.length (cameras removed)) = n).
  { rewrite Hcs, filter_length_NoDup; [|exact Hnd|exact Hin].
    unfold camera_ids in Hids.
    rewrite <- (List.length_map camera_id), Hids. unfold ids_upto.
    rewrite List.length_map, length_seq. reflexivity. }
  assert (Hnext : next_camera_id removed = camera_name n).
  { unfold next_camera_id, camera_name. do 2 f_equal. lia. }
  split.
  - intros Hlt.
    assert (Hstill : In (next_camera_id removed) (camera_ids removed)).
    { rewrite Hnext. unfold camera_ids. rewrite Hcs.
      apply in_map_iff.
      assert (Hn : In (camera_name n) (map camera_id (cameras p)))
        by (fold (camera_ids p); rewrite Hids; apply ids_upto_In; lia).
      apply in_map_iff in Hn. destruct Hn as [f [Hf Hfin]].
      exists f. split; [exact Hf|]. apply filter_In. split; [exact Hfin|].
      unfold other_than. rewrite Hf.
      destruct (String.eqb (camera_name n) (camera_name k)) eqn:E;
        [|reflexivity].
      apply String.eqb_eq, camera_name_inj in E. lia. }
    apply has_camera_In in Hstill.
    unfold addCameraConfig. fold (next_camera_id removed). rewrite Hstill.
    cbn [with_console cameras console]. rewrite Hnext.
    split; [reflexivity|]. split; [lia|reflexivity].
  - intros ->.
    assert (Hfree : ~ In (next_camera_id removed) (camera_ids removed)).
    { rewrite Hnext. unfold camera_ids. rewrite Hcs.
      apply filter_other_ids. }
    destruct (addCameraConfig_ids removed) as [E|[_ E]].
    + exfalso. unfold addCameraConfig in E.
      fold (next_camera_id removed) in E.
      destruct (has_camera (next_camera_id removed) removed) eqn:Hh;
        [apply has_camera_In in Hh; contradiction|].
      unfold camera_ids in E.
      rewrite (proj1 (addLog_cameras _ _ _)) in E.
      cbn [with_cameras cameras] in E. rewrite map_app in E.
      apply (f_equal (@List.length string)) in E.
      rewrite List.length_app in E. cbn in E. lia.
    + rewrite E, Hnext. unfold camera_ids. rewrite Hcs, filter_ids.
      fold (camera_ids p). rewrite Hids.
      destruct n as [|m]; [lia|].
      unfold ids_upto. rewrite seq_S, map_app, filter_app. cbn [map filter].
      replace (1 + m) with (S m) by lia.
      rewrite String.eqb_refl. cbn [negb]. rewrite List.app_nil_r.
      f_equal. apply filter_names_absent. rewrite in_seq. lia.
Qed.

(** *** Resetting the cameras *)

(** X8.  A confirmed reset of the cameras removes every fragment and the
    stored descriptors: a page load afterwards shows no camera, and the
    next camera added is camera_1 again.  A declined reset changes
    nothing. *)
Theorem reset_forgets_the_cameras (p : page) :
  let cleared := clear_cameras_click true p in
  cameras cleared = [] /\
  additional_cameras cleared = None /\
  requests cleared = requests p /\
  cameras (reload_page cleared) = [] /\
  camera_ids (addCameraConfig cleared) = ["camera_1"] /\
  clear_cameras_click false p = p.
Proof.
  cbv zeta. unfold clear_cameras_click.
  set (q := clearCamerasStorage (clearExistingCameras p)).
  assert (Hc : cameras q = [])
    by (unfold q, clearCamerasStorage;
        rewrite (proj1 (addLog_cameras _ _ _)); reflexivity).
  assert (Hs : additional_cameras q = None)
    by (unfold q, clearCamerasStorage;
        rewrite (proj2 (addLog_cameras _ _ _)); reflexivity).
  split; [exact Hc|]. split; [exact Hs|].
  split; [unfold q, clearCamerasStorage; rewrite addLog_requests;
          reflexivity|].
  split; [|split; [|reflexivity]].
  - unfold reload_page, loadCamerasConfiguration, clearExistingCameras.
    cbn [with_additional_cameras with_cameras additional_cameras cameras].
    rewrite Hs. reflexivity.
  - unfold addCameraConfig, has_camera, camera_ids. rewrite Hc.
    cbn [List.length existsb]. rewrite (proj1 (addLog_cameras _ _ _)).
    cbn [with_cameras cameras]. rewrite Hc. reflexivity.
Qed.

(** *** Validation of the form *)

Ltac classes_done :=
  cbn [fst snd set_value set_classes f_invalid f_valid f_name f_type f_min
       f_max f_shown f_value andb negb];
  repeat split; try discriminate; try assumption;
  try (symmetry; assumption);
  try (intros _; split; reflexivity).

Section ValidationFacts.
Variable isValidUrl : string -> bool.

(** X9.  After [validateField] the classes of the control tell the
    verdict: is-invalid is set exactly when the function returned false,
    and is-valid exactly when it returned true for a displayed control
    whose value is not empty; never both.  Name, type, bounds and
    visibility of the control are as before. *)
Theorem validateField_classes (fld : field) :
  let verdict := fst (validateField isValidUrl fld) in
  let after := snd (validateField isValidUrl fld) in
  f_invalid after = negb verdict /\
  f_valid after = verdict && f_shown fld && nonempty (f_value after) /\
  (f_valid after && f_invalid after = false) /\
  (f_shown fld = false -> verdict = true /\ f_value after = f_value fld) /\
  f_name after = f_name fld /\ f_type after = f_type fld /\
  f_min after = f_min fld /\ f_max after = f_max fld /\
  f_shown after = f_shown fld.
Proof.
  cbv zeta. unfold validateField.
  cbn [set_classes f_shown f_type f_value f_valid f_invalid].
  destruct (f_shown fld) eqn:Hs; cbn [negb]; [|classes_done].
  destruct (is_url (f_type fld) && nonempty (f_value fld)
            && negb (isValidUrl (f_value fld))); [classes_done|].
  destruct (is_number (f_type fld) && nonempty (f_value fld)).
  - unfold validate_number.
    cbn [set_classes f_min f_max f_value f_name f_type f_shown f_valid
         f_invalid].
    set (raw := replace_comma (trim (f_value fld))).
    destruct (negb (String.eqb raw (f_value fld)));
      cbn [set_value set_classes f_min f_max f_value f_name f_type f_shown
           f_valid f_invalid];
      (destruct (isNaN (Number raw)); [classes_done|]);
      (destruct (nonempty (f_min fld) && num_lt (Number raw) (Number (f_min fld))
                 || nonempty (f_max fld)
                    && num_gt (Number raw) (Number (f_max fld)));
       [classes_done|]);
      cbn [fst snd set_value f_value];
      match goal with
      | |- context [nonempty ?v] => destruct (nonempty v) eqn:?
      end; classes_done.
  - cbn [fst snd set_classes f_value].
    destruct (nonempty (f_value fld)) eqn:?; classes_done.
Qed.

Lemma save_payload_log formData m t p :
  save_payload formData (addLog m t p) = save_payload formData p.
Proof.
  unfold save_payload, saveCamerasConfiguration. cbn [fst].
  rewrite (proj1 (addLog_cameras _ _ _)). reflexivity.
Qed.

Lemma addLog_form m t p : form (addLog m t p) = form p.
Proof. unfold addLog. destruct (shouldLog _ _); reflexivity. Qed.

Lemma validateConfiguration_verdict config p :
  fst (validateConfiguration isValidUrl config p)
    = fields_pass isValidUrl p && negb (ollama_url_rejected isValidUrl config).
Proof.
  unfold validateConfiguration, fields_pass, ollama_url_rejected.
  cbn [fst]. f_equal.
  induction (form p) as [|f fs IH]; [reflexivity|].
  cbn [map forallb]. rewrite IH. reflexivity.
Qed.

(** X10.  [saveConfiguration] posts the configuration exactly when every
    control of the form passes [validateField] and, in the mode "ollama",
    a given OLLAMA_URL is a URL.  Otherwise it sends nothing and ends by
    handing the invalid configuration to [addLog] as an error.  A missing
    OpenAI key, Ollama model or MQTT broker does not keep it from posting.
    In both cases the camera descriptors were written to the storage. *)
Theorem saveConfiguration_posts_when_valid
    (formData : list (string * string)) (p : page) :
  let config := save_payload formData p in
  let p' := saveConfiguration isValidUrl formData p in
  let passes := fields_pass isValidUrl p
                && negb (ollama_url_rejected isValidUrl config) in
  requests p'
    = requests p ++ (if passes then [config_request config] else []) /\
  (passes = false ->
   exists q, p' = addLog ConfigurationInvalid error_ q) /\
  additional_cameras p' = Some (map collect (cameras p)).
Proof.
  cbv zeta. unfold saveConfiguration.
  rewrite save_payload_log.
  set (config := save_payload formData p).
  set (p1 := snd (saveCamerasConfiguration (addLog SavingConfiguration info p))).
  assert (Hreq : requests p1 = requests p)
    by (unfold p1, saveCamerasConfiguration;
        cbn [snd with_additional_cameras requests]; apply addLog_requests).
  assert (Hform : form p1 = form p)
    by (unfold p1, saveCamerasConfiguration;
        cbn [snd with_additional_cameras form]; apply addLog_form).
  assert (Hst : additional_cameras p1 = Some (map collect (cameras p)))
    by (unfold p1, saveCamerasConfiguration;
        cbn [snd with_additional_cameras additional_cameras];
        rewrite (proj1 (addLog_cameras _ _ _)); reflexivity).
  assert (Hkeep : additional_cameras
                    (snd (validateConfiguration isValidUrl config p1))
                  = additional_cameras p1).
  { unfold validateConfiguration. cbn [snd]. unfold log_if.
    repeat match goal with
           | |- context [if ?b then _ else _] => destruct b
           end;
      rewrite ?(proj2 (addLog_cameras _ _ _)); reflexivity. }
  rewrite validateConfiguration_verdict.
  replace (fields_pass isValidUrl p1) with (fields_pass isValidUrl p)
    by (unfold fields_pass; rewrite Hform; reflexivity).
  destruct (fields_pass isValidUrl p
            && negb (ollama_url_rejected isValidUrl config)); cbn [negb].
  - cbn [send with_requests requests additional_cameras].
    rewrite validateConfiguration_requests, Hreq, Hkeep, Hst.
    split; [reflexivity|]. split; [discriminate|reflexivity].
  - rewrite addLog_requests, validateConfiguration_requests, Hreq,
      List.app_nil_r, (proj2 (addLog_cameras _ _ _)), Hkeep, Hst.
    split; [reflexivity|]. split; [|reflexivity].
    intros _. eexists. reflexivity.
Qed.
End ValidationFacts.

(** *** Examples *)

(** The endpoint answers 503 twice and then 200: the poll returns true,
    after probes of /api/metrics only. *)
Lemma waitForServerBack_probes_witness :
  exists p',
    waitForServerBack (back_at_probe 2 0 0) 60 fresh_page = Some (true, p') /\
    exists n, requests p' = repeat metrics_probe n /\ 0 < n.
Proof.
  destruct (waitForServerBack_probes (back_at_probe 2 0 0) 60 fresh_page)
    as (b & p' & n & Hrun & Hreq & _ & Hpos).
  assert (Hb : b = true).
  { assert (E : option_map fst
                  (waitForServerBack (back_at_probe 2 0 0) 60 fresh_page)
                = Some true) by (vm_compute; reflexivity).
    rewrite Hrun in E. cbn in E. now injection E. }
  subst b. exists p'. split; [exact Hrun|].
  exists n. split; [exact Hreq|]. exact (Hpos eq_refl).
Defined.


(** On the fresh page, without cameras, the test sends nothing and the
    badge reads N/C. *)
Lemma testCameras_without_cameras_witness :
  let x := answered (http 200 (VObj [("success", VBool true)])) 100 in
  requests (testCameras x fresh_page) = [] /\
  badges (testCameras x fresh_page) test_cameras_status
    = Some {| badge_cls := bg_info; badge_text := "N/C" |}.
Proof.
  cbv zeta.
  destruct (testCameras_without_cameras
              (answered (http 200 (VObj [("success", VBool true)])) 100)
              fresh_page eq_refl)
    as (Hreq & Hbadge & _).
  split; [exact Hreq|exact Hbadge].
Defined.

(** Two cameras, of which one passes: the badge reads 1/2 in the class
    of an idle badge. *)
Lemma testCameras_badge_counts_witness :
  let results := [VObj [("camera_id", VStr "camera_1");
                        ("success", VBool true)];
                  VObj [("camera_id", VStr "camera_2");
                        ("success", VBool false)]] in
  let x := answered
             (http 200 (VObj [("success", VBool true);
                              ("results", VArr results)])) 100 in
  badges (testCameras x two_cameras) test_cameras_status
    = Some {| badge_cls := bg_secondary; badge_text := "1/2" |}.
Proof.
  cbv zeta.
  destruct (testCameras_badge_counts
              (answered
                 (http 200
                    (VObj [("success", VBool true);
                           ("results",
                            VArr [VObj [("camera_id", VStr "camera_1");
                                        ("success", VBool true)];
                                  VObj [("camera_id", VStr "camera_2");
                                        ("success", VBool false)]])])) 100)
              two_cameras _ _ _
              ltac:(vm_compute; discriminate)
              ltac:(cbn; lia)
              eq_refl eq_refl eq_refl eq_refl
              ltac:(repeat constructor; discriminate))
    as [Hbadge _].
  exact Hbadge.
Defined.

(** An interval of 0.05 s is below the range: nothing is sent.  The
    value 0.09999999999999999999 is read as the double 0.1 and posted. *)
Lemma applyCameraInterval_posts_in_range_witness :
  requests (applyCameraInterval "camera_1"
              (Fulfilled (http 200 (VObj [("success", VBool true)])))
              (interval_page "0.05")) = [] /\
  exists q,
    requests (applyCameraInterval "camera_1"
                (Fulfilled (http 200 (VObj [("success", VBool true)])))
                (interval_page "0.09999999999999999999"))
      = [interval_request "camera_1" q] /\
    to_double (1 # 10) = Finite q.
Proof.
  split.
  - destruct (applyCameraInterval_posts_in_range "camera_1"
                (Fulfilled (http 200 (VObj [("success", VBool true)])))
                (interval_page "0.05"))
      as [_ [H|(input & q & Hf & Hq & Hlo & _)]].
    + exact H.
    + exfalso. vm_compute in Hf. injection Hf as <-.
      vm_compute in Hq. injection Hq as <-. vm_compute in Hlo.
      apply Hlo. reflexivity.
  - destruct (applyCameraInterval_posts_in_range "camera_1"
                (Fulfilled (http 200 (VObj [("success", VBool true)])))
                (interval_page "0.09999999999999999999"))
      as [_ [H|(input & q & Hf & Hq & _ & _ & Hreq)]].
    + exfalso. apply (f_equal (@List.length request)) in H.
      vm_compute in H. discriminate H.
    + exists q. split; [exact Hreq|].
      vm_compute in Hf. injection Hf as <-.
      vm_compute in Hq. rewrite <- Hq. vm_compute. reflexivity.
Defined.

(** Two cameras: removing camera_1 leaves camera_2, and removing a
    camera that is not there leaves the page as it is. *)
Lemma removeCameraConfig_removes_one_witness :
  camera_ids (removeCameraConfig "camera_1" two_cameras) = ["camera_2"] /\
  removeCameraConfig "camera_7" two_cameras = two_cameras.
Proof.
  assert (Hd : NoDup (camera_ids two_cameras)).
  { vm_compute. repeat constructor; cbn; intuition discriminate. }
  destruct (removeCameraConfig_removes_one "camera_1" two_cameras Hd)
    as (Hc & _).
  destruct (removeCameraConfig_removes_one "camera_7" two_cameras Hd)
    as (_ & _ & _ & Hsame).
  split.
  - unfold camera_ids. rewrite Hc. vm_compute. reflexivity.
  - apply Hsame. vm_compute. intuition discriminate.
Defined.

(** Two cameras: after the removal of camera_1 the add button adds
    nothing, after the removal of camera_2 it adds camera_2 again. *)
Lemma add_after_remove_witness :
  let removed := removeCameraConfig "camera_1" two_cameras in
  cameras (addCameraConfig removed) = cameras removed /\
  camera_ids
    (addCameraConfig (removeCameraConfig "camera_2" two_cameras))
    = ["camera_1"; "camera_2"].
Proof.
  cbv zeta.
  destruct (add_after_remove two_cameras 2 1 eq_refl ltac:(lia))
    as [Hearlier _].
  destruct (add_after_remove two_cameras 2 2 eq_refl ltac:(lia))
    as [_ Hlast].
  split.
  - exact (proj1 (Hearlier ltac:(lia))).
  - exact (Hlast eq_refl).
Defined.

(** A hidden URL control with a value that is no URL passes and keeps
    its value. *)
Lemma validateField_classes_witness :
  let hidden := control "OLLAMA_URL" type_url "not a url" "" "" false in
  fst (validateField is_http_url hidden) = true /\
  f_value (snd (validateField is_http_url hidden)) = "not a url".
Proof.
  cbv zeta.
  destruct (validateField_classes is_http_url
              (control "OLLAMA_URL" type_url "not a url" "" "" false))
    as (_ & _ & _ & H & _).
  exact (H eq_refl).
Defined.

(** A displayed URL control with a value that is no URL: nothing is
    posted and the error line is written. *)
Lemma saveConfiguration_posts_when_valid_witness :
  let p := with_form
             (fun _ => [control "OLLAMA_URL" type_url "not a url" "" "" true])
             fresh_page in
  requests (saveConfiguration is_http_url [] p) = [] /\
  exists q,
    saveConfiguration is_http_url [] p
      = addLog ConfigurationInvalid error_ q.
Proof.
  cbv zeta.
  destruct (saveConfiguration_posts_when_valid is_http_url []
              (with_form
                 (fun _ =>
                    [control "OLLAMA_URL" type_url "not a url" "" "" true])
                 fresh_page))
    as (Hreq & Hlog & _).
  split.
  - rewrite Hreq. vm_compute. reflexivity.
  - apply Hlog. vm_compute. reflexivity.
Defined.
End AdminMoreFacts.

(** ** IActionApp: further properties *)

Module AppMoreFacts.
Import JS JSMore App AppFacts AppMore.

(** *** Loading the detections *)

Lemma log_keeps_detections m t p :
  detections (addLog m t p) = detections p /\
  detections_list (addLog m t p) = detections_list p.
Proof. unfold addLog. destruct (shouldLog _ _); split; reflexivity. Qed.

Lemma render_items_readable : forall items p,
  Forall readable items ->
  fst (render_items items p) = Normal tt /\
  detections_list (snd (render_items items p)) = detections_list p ++ items /\
  detections (snd (render_items items p)) = detections p /\
  console (snd (render_items items p)) = console p /\
  logLevel (snd (render_items items p)) = logLevel p.
Proof.
  induction items as [|d items IH]; intros p H.
  - cbn [render_items ret fst snd]. rewrite List.app_nil_r. repeat split.
  - inversion H as [|? ? [H1 H2] Hrest]; subst.
    cbn [render_items].
    destruct d; try contradiction;
      cbv beta iota zeta delta [bind get modify ret fst snd];
      match goal with
      | |- context [render_items items ?s] =>
          destruct (IH s Hrest) as (Hn & Hl & Hd & Hc & Hlv);
          destruct (render_items items s) as [c s']; cbn [fst snd] in *;
          subst c; rewrite Hl, Hd, Hc, Hlv
      end;
      cbn [set_detections_list detections_list detections console logLevel];
      rewrite <- List.app_assoc; repeat split.
Qed.

(** X11.  [loadDetections] sends one GET for /api/detections and never
    looks at the status of the response.  When the fetch fails, the
    detections kept and the list shown stay as they were, and the error
    is handed to [addLog] as an error.  When the body is an array of
    values other than [null], every item is shown, in the order of the
    array.  When the body is an object (an error report of the back end,
    say), the object is kept as [this.detections] and the list is left
    empty: an object whose [length] is the number 0 counts as an empty
    list, and for any other object the failure of [forEach] is what is
    handed to [addLog]. *)
Theorem loadDetections_bodies (reply : settled response) (p : page) :
  let p' := loadDetections reply p in
  requests p' = requests p ++ [list_request] /\
  (forall e, reply = Rejected e ->
     detections p' = detections p /\
     detections_list p' = detections_list p /\
     p' = addLog (DetectionsLoadFailed e) error_ (send list_request p)) /\
  (forall r items,
     reply = Fulfilled r -> json r = Fulfilled (VArr items) ->
     Forall readable items ->
     detections p' = VArr items /\ detections_list p' = items) /\
  (forall r fields,
     reply = Fulfilled r -> json r = Fulfilled (VObj fields) ->
     let shown := set_detections_list []
                    (set_detections (VObj fields) (send list_request p)) in
     detections p' = VObj fields /\ detections_list p' = [] /\
     if is_zero (lookup "length" fields)
     then p' = addLog (DetectionsLoaded (VObj fields)) info shown
     else exists message,
            p' = addLog (DetectionsLoadFailed (TypeError message)) error_
                   shown).
Proof.
  cbv zeta. split; [apply loadDetections_frame|].
  unfold loadDetections, try_catch, try_catch_finally.
  split; [|split].
  - intros e ->. cbv beta iota zeta delta [bind modify await throw fst snd].
    rewrite !(proj1 (log_keeps_detections _ _ _)),
      !(proj2 (log_keeps_detections _ _ _)).
    repeat split.
  - intros r items -> Hjson Hread.
    cbv beta iota zeta delta [bind modify await ret fst snd]. rewrite Hjson.
    unfold updateDetectionsList.
    cbv beta iota zeta delta [bind modify gets await ret fst snd].
    cbn [set_detections detections].
    destruct items as [|d items].
    + cbv beta iota zeta delta [bind modify gets await ret fst snd].
      rewrite (proj1 (log_keeps_detections _ _ _)),
        (proj2 (log_keeps_detections _ _ _)). split; reflexivity.
    + cbv beta iota zeta delta [bind modify gets await ret fst snd].
      match goal with
      | |- context [render_items ?l ?s] =>
          destruct (render_items_readable l s Hread) as (Hn & Hl & Hd & _);
          destruct (render_items l s) as [c s']; cbn [fst snd] in *; subst c
      end.
      rewrite (proj1 (log_keeps_detections _ _ _)),
        (proj2 (log_keeps_detections _ _ _)), Hl, Hd. split; reflexivity.
  - intros r fields -> Hjson.
    cbv beta iota zeta delta [bind modify await ret fst snd]. rewrite Hjson.
    unfold updateDetectionsList.
    cbv beta iota zeta delta [bind modify gets await ret throw fst snd].
    cbn [set_detections detections].
    destruct (is_zero (lookup "length" fields));
      cbv beta iota zeta delta [bind modify gets await ret throw fst snd];
      rewrite (proj1 (log_keeps_detections _ _ _)),
        (proj2 (log_keeps_detections _ _ _));
      (split; [reflexivity|]); (split; [reflexivity|]).
    + reflexivity.
    + eexists. reflexivity.
Qed.

(** *** Saving in edit mode *)

Section EditFacts.
Variable JSON_parse : string -> option value.

Lemma saveDetection_sends env p :
  create_incomplete p = false -> webhook_malformed p = false ->
  exists rest,
    requests (saveDetection JSON_parse env p)
      = requests p
        ++ save_request (editDetectionId p) (trim (detection_name p))
             (trim (detection_phrase p)) (trim (detection_webhook p))
           :: rest.
Proof.
  intros Hc Hw. unfold saveDetection. rewrite Hc, Hw.
  unfold try_catch, try_catch_finally, read_body.
  cbv beta iota zeta delta [bind modify await ret throw fst snd].
  destruct (save_reply env) as [response|e].
  - cbv beta iota zeta delta [bind modify await ret throw fst snd].
    destruct (body_of JSON_parse response) as [body|e].
    + cbv beta iota zeta delta [bind modify await ret throw fst snd].
      destruct (ok response);
        cbv beta iota zeta delta [bind modify await ret throw fst snd].
      * destruct (detection_saved_facts env (truthy (editDetectionId p))
                    (trim (detection_name p))
                    (send (save_request (editDetectionId p)
                             (trim (detection_name p))
                             (trim (detection_phrase p))
                             (trim (detection_webhook p))) p))
          as (_ & _ & _ & _ & _ & Hr).
        rewrite Hr. cbn [send set_requests requests].
        rewrite <- List.app_assoc. eexists. reflexivity.
      * rewrite log_keeps_requests. exists []. reflexivity.
    + cbv beta iota zeta delta [bind modify await ret throw fst snd].
      rewrite log_keeps_requests. exists []. reflexivity.
  - rewrite log_keeps_requests. exists []. reflexivity.
Qed.

(** X12.  In edit mode [saveDetection] is never stopped for a missing
    name or phrase: unless the webhook is malformed, it sends a PATCH
    for /api/detections/{id}.  The body always has the webhook, and the
    name and the phrase when they are not empty; with all three controls
    empty the body is [{ webhook_url: "" }]. *)
Theorem saveDetection_edit (env : detection_env) (p : page) :
  truthy (editDetectionId p) = true ->
  webhook_malformed p = false ->
  let name := trim (detection_name p) in
  let phrase := trim (detection_phrase p) in
  let webhook := trim (detection_webhook p) in
  exists rest,
    requests (saveDetection JSON_parse env p)
      = requests p
        ++ {| req_method := PATCH; req_url := "/api/detections/";
              req_id := Some (editDetectionId p);
              req_body :=
                Some (VObj
                        ((if nonempty_s name then [("name", VStr name)]
                          else [])
                         ++ (if nonempty_s phrase
                             then [("phrase", VStr phrase)] else [])
                         ++ [("webhook_url", VStr webhook)])) |}
           :: rest.
Proof.
  intros Hedit Hw. cbv zeta.
  assert (Hc : create_incomplete p = false)
    by (unfold create_incomplete; rewrite Hedit; reflexivity).
  destruct (saveDetection_sends env p Hc Hw) as [rest Hr].
  exists rest. rewrite Hr. unfold save_request. rewrite Hedit.
  reflexivity.
Qed.
End EditFacts.

(** *** Start and stop: what changes, and when *)

Lemma addLog_view m t p : capture_view (addLog m t p) = capture_view p.
Proof. unfold addLog. destruct (shouldLog _ _); reflexivity. Qed.

Lemma send_view r p : capture_view (send r p) = capture_view p.
Proof. reflexivity. Qed.

Lemma console_line_view c m p :
  capture_view (console_line c m p) = capture_view p.
Proof. reflexivity. Qed.

Lemma showCaptureLoading_view show p :
  capture_view (showCaptureLoading show p) = capture_view p.
Proof.
  unfold showCaptureLoading. destruct show; [reflexivity|].
  cbv zeta.
  change (isCapturing (set_start_loading_hidden true
                         (set_start_content_hidden false p)))
    with (isCapturing p).
  destruct (isCapturing p); reflexivity.
Qed.

Lemma stopped_view p :
  capture_view
    (stopVideoStream
       (hideToggleButton
          (updateCaptureControls
             (set_captureInProgress false (set_isCapturing false p)))))
    = (false, false, false, None, true, (none, block, none, none),
       ("", "Voir le flux live", "bi bi-eye")).
Proof.
  destruct p as [lvl c rq cap prog vis timer ed ds sd pd sch slh td ncd crd
                  vd vs tt ti dn dp dw ms dl].
  destruct timer; reflexivity.
Qed.

Lemma started_view p :
  capture_view
    (showToggleButton
       (updateCaptureControls
          (set_captureInProgress true (set_isCapturing true p))))
    = let '(_, _, _, timer, _, (_, _, _, vd), texts) := capture_view p in
      (true, true, false, timer, false, (block, none, block, vd), texts).
Proof. unfold showToggleButton. rewrite addLog_view. reflexivity. Qed.

Lemma showCaptureLoading_requests show p :
  requests (showCaptureLoading show p) = requests p.
Proof.
  unfold showCaptureLoading. destruct show; [reflexivity|].
  cbv zeta.
  change (isCapturing (set_start_loading_hidden true
                         (set_start_content_hidden false p)))
    with (isCapturing p).
  destruct (isCapturing p); reflexivity.
Qed.

Lemma stopped_requests p :
  requests
    (stopVideoStream
       (hideToggleButton
          (updateCaptureControls
             (set_captureInProgress false (set_isCapturing false p)))))
    = requests p.
Proof.
  destruct p as [lvl c rq cap prog vis timer ed ds sd pd sch slh td ncd crd
                  vd vs tt ti dn dp dw ms dl].
  destruct timer; reflexivity.
Qed.

Lemma started_requests p :
  requests
    (showToggleButton
       (updateCaptureControls
          (set_captureInProgress true (set_isCapturing true p))))
    = requests p.
Proof. unfold showToggleButton. rewrite log_keeps_requests. reflexivity. Qed.

Lemma send_requests r p : requests (send r p) = requests p ++ [r].
Proof. reflexivity. Qed.

Lemma console_line_requests c m p :
  requests (console_line c m p) = requests p.
Proof. reflexivity. Qed.

Lemma start_disabled_controls p :
  start_disabled p = snd (fst (fst (fst (capture_controls p)))).
Proof. reflexivity. Qed.

Create Rewrite HintDb view.
Create Rewrite HintDb sent.
#[local] Hint Rewrite log_keeps_requests showCaptureLoading_requests
  stopped_requests started_requests send_requests console_line_requests
  : sent.
#[local] Hint Rewrite addLog_view send_view console_line_view
  showCaptureLoading_view stopped_view started_view : view.

(** X13.  [stopCapture] marks the capture as stopped exactly when the
    request is answered with [response.ok] and a body that
    [response.json()] can read: then the flags are off, the stop button
    is disabled and the start button enabled, the toggle button is hidden
    and the video element is hidden with an empty [src].  In every other
    case (the fetch fails, the body is no JSON, the status is not ok) the
    flags, the buttons for the stream and the video element are as they
    were. *)
Theorem stopCapture_outcomes (reply : settled response) (p : page) :
  let p' := stopCapture reply p in
  requests p' = requests p ++ [stop_request] /\
  (answered_ok reply = true ->
   capture_view p'
     = (false, false, false, None, true, (none, block, none, none),
        ("", "Voir le flux live", "bi bi-eye")) /\
   start_disabled p' = false) /\
  (answered_ok reply = false -> capture_view p' = capture_view p).
Proof.
  cbv zeta. unfold stopCapture, try_catch_finally, answered_ok.
  repeat exec_step;
    (split; [autorewrite with sent; reflexivity|]);
    (split; intros H; rewrite ?andb_false_r in H; try discriminate H);
    autorewrite with view; try reflexivity.
  all: split; [reflexivity|].
  all: match goal with
       | |- start_disabled ?q = false =>
           rewrite (start_disabled_controls q), spinner_hidden_controls,
             addLog_controls, spinner_hidden_controls, stopped_controls,
             send_controls;
           cbv beta iota zeta delta [capture_controls fst snd andb];
           reflexivity
       end.
Qed.

Ltac exec_step_eq :=
  cbv beta iota zeta delta [bind modify ret throw leave await get gets fst snd];
  match goal with
  | |- context [match ?x with Fulfilled _ => _ | Rejected _ => _ end] =>
      destruct x eqn:?
  | |- context [match ?x with VUndefined => _ | _ => _ end] => destruct x
  | |- context [if ?b then _ else _] => destruct b eqn:?
  end.

Lemma guard_gives_url mode url :
  is_string mode "rtsp" && negb (truthy url) = false ->
  is_string mode "rtsp" = true -> truthy url = true.
Proof.
  intros H E. rewrite E in H. destruct (truthy url); [reflexivity|discriminate].
Qed.

Lemma view_started s (v : bool * bool * bool * option N * bool
                          * (display * display * display * display)
                          * (string * string * string)) :
  capture_view s
    = (let '(_, _, _, timer, _, (_, _, _, vd), texts) := v in
       (true, true, false, timer, false, (block, none, block, vd), texts)) ->
  isCapturing s = true /\ captureInProgress s = true /\
  toggle_display s = block /\ stop_disabled s = false.
Proof.
  destruct v as [[[[[[a b] c] timer] d] [[[e f] g] vd]] texts].
  unfold capture_view. intros H. injection H. intros. repeat split; assumption.
Qed.

Lemma fetch_capture_config_shape env p :
  exists c,
    fetch_capture_config env p = (c, send config_request p) /\
    c <> Returned.
Proof.
  unfold fetch_capture_config.
  repeat exec_step; eexists; (split; [reflexivity|discriminate]).
Qed.

(** X14.  [startCapture] sends the request for the configuration and at
    most one start request, and a start request in the mode "rtsp" always
    carries a URL.  Unless the start request is answered with
    [response.ok] and a body that [response.json()] can read, the flags,
    the stop button, the toggle button, the placeholders and the video
    element are as they were; and whenever they are not as they were, the
    page is marked as capturing, with the toggle button shown, the stop
    button enabled and the start button disabled. *)
Theorem startCapture_outcomes (env : capture_env) (p : page) :
  let p' := startCapture env p in
  (requests p' = requests p ++ [config_request] \/
   exists mode url,
     requests p' = requests p ++ [config_request; start_request mode url] /\
     (is_string mode "rtsp" = true -> truthy url = true)) /\
  (answered_ok (start_reply env) = false ->
   capture_view p' = capture_view p) /\
  (capture_view p' = capture_view p \/
   isCapturing p' = true /\ captureInProgress p' = true /\
   toggle_display p' = block /\ stop_disabled p' = false /\
   start_disabled p' = true).
Proof.
  cbv zeta. unfold startCapture.
  destruct (fetch_capture_config_shape env p) as (c & -> & Hc).
  destruct c as [[mode url]|e|]; [|clear Hc|contradiction].
  2: { autorewrite with sent view.
       split; [left; reflexivity|]. split; [reflexivity|left; reflexivity]. }
  clear Hc.
  destruct (is_string mode "rtsp" && negb (truthy url)) eqn:Hguard.
  { autorewrite with sent view.
    split; [left; reflexivity|]. split; [reflexivity|left; reflexivity]. }
  pose proof (guard_gives_url _ _ Hguard) as Hurl. clear Hguard.
  cbv zeta.
  set (q := addLog _ info (showCaptureLoading true (send config_request p))).
  assert (Hq : requests q = requests p ++ [config_request])
    by (unfold q; autorewrite with sent; reflexivity).
  assert (Hv : capture_view q = capture_view p)
    by (unfold q; autorewrite with view; reflexivity).
  assert (Hd : start_disabled q = true).
  { unfold q. rewrite start_disabled_controls, addLog_controls,
      spinner_shown_controls.
    cbv beta iota zeta delta [capture_controls fst snd]. reflexivity. }
  rewrite <- Hv. clearbody q.
  unfold try_catch_finally, displayCameraInfo, answered_ok.
  generalize (start_reply env). intros sr.
  repeat exec_step.
  all: split;
    [ right; exists mode, url; split; [|exact Hurl];
      autorewrite with sent; rewrite Hq, <- List.app_assoc; reflexivity | ].
  all: split;
    [ intros H; rewrite ?andb_false_r in H; try discriminate H;
      autorewrite with view; reflexivity
    | ].
  all: first [ left; autorewrite with view; reflexivity | right ].
  all: match goal with
       | |- isCapturing ?s = true /\ _ =>
           destruct (view_started s
                       (capture_view (send (start_request mode url) q)))
             as (H1 & H2 & H3 & H4);
           [autorewrite with view; reflexivity|];
           split; [exact H1|]; split; [exact H2|]; split; [exact H3|];
           split; [exact H4|]
       end.
  all: match goal with
    | |- start_disabled ?s = true =>
        rewrite (start_disabled_controls s);
        repeat first [ rewrite spinner_hidden_controls
                     | rewrite addLog_controls
                     | rewrite console_line_controls
                     | rewrite started_controls
                     | rewrite send_controls ];
        cbv beta iota zeta delta [capture_controls fst snd andb];
        reflexivity
    end.
Qed.

(** *** The handlers around the page *)

Lemma core_line c m s : core (line c m s) = core s.
Proof. reflexivity. Qed.

Lemma core_log m t s : core (log m t s) = core s.
Proof. unfold log. destruct (shouldLog _ _); reflexivity. Qed.

Lemma core_on_core f s : core (on_core f s) = f (core s).
Proof. reflexivity. Qed.

Lemma core_delete d s : core (delete d s) = core s.
Proof. reflexivity. Qed.

Lemma core_set_modal t l s : core (set_modal t l s) = core s.
Proof. reflexivity. Qed.

Create Rewrite HintDb around.
#[local] Hint Rewrite core_line core_log core_on_core core_delete
  core_set_modal : around.

(** X15.  The check at startup sends one GET for /api/capture_status.
    It marks the capture as running exactly when the answer is ok with a
    truthy [is_capturing]: then both flags are set, the start button is
    disabled, the stop button enabled and the toggle button shown with
    the stream hidden.  In every other case, a failed fetch and an
    unreadable body included, the flags and the controls stay as they
    were. *)
Theorem checkCaptureStatus_outcomes (reply : settled response) (s : state) :
  let s' := checkCaptureStatus reply s in
  requests (core s') = requests (core s) ++ [status_request] /\
  (found_capturing reply = true ->
   capture_view (core s')
     = (let '(_, _, _, timer, _, (_, _, _, vd), texts)
          := capture_view (core s) in
        (true, true, false, timer, false, (block, none, block, vd), texts))
   /\ start_disabled (core s') = true) /\
  (found_capturing reply = false ->
   capture_view (core s') = capture_view (core s) /\
   start_disabled (core s') = start_disabled (core s)).
Proof.
  cbv zeta. unfold checkCaptureStatus, try_catch, try_catch_finally,
    found_capturing.
  repeat exec_step_lit.
  all: autorewrite with around sent.
  all: split; [reflexivity|].
  all: split; intros H; try discriminate H.
  all: autorewrite with view.
  all: try (split; reflexivity).
  all: split; [reflexivity|].
  unfold showToggleButton.
  rewrite (start_disabled_controls _), addLog_controls. reflexivity.
Qed.

Lemma checkCaptureStatus_view (reply : settled response) (s : state) :
  capture_view (core (checkCaptureStatus reply s))
    = if found_capturing reply then
        let '(_, _, _, timer, _, (_, _, _, vd), texts)
          := capture_view (core s) in
        (true, true, false, timer, false, (block, none, block, vd), texts)
      else capture_view (core s).
Proof.
  unfold checkCaptureStatus, try_catch, try_catch_finally, found_capturing.
  repeat exec_step_lit.
  all: autorewrite with around view.
  all: reflexivity.
Qed.

Lemma toggleVideoStream_view (now : N) (s : state) :
  capture_view (core (toggleVideoStream now s))
    = let '(cap, prog, vis, timer, sd, (td, ncd, crd, vd), texts)
        := capture_view (core s) in
      if prog then
        if vis
        then (cap, prog, false, timer, sd, (td, ncd, block, none),
              ("", "Voir le flux live", "bi bi-eye"))
        else (cap, prog, true, timer, sd, (td, ncd, none, block),
              (("/video_feed?" ++ stamp now)%string, "Masquer le flux",
               "bi bi-eye-slash"))
      else (cap, prog, vis, timer, sd, (td, ncd, crd, vd), texts).
Proof.
  unfold toggleVideoStream.
  destruct s as [p l d mt sl]. cbn [core].
  destruct p as [lvl c rq cap prog vis timer ed ds sd pd sch slh td ncd crd
                  vd vs tt ti dn dp dw ms dl].
  cbn [captureInProgress isVideoStreamVisible negb].
  destruct prog; [destruct vis|]; cbn [negb]; rewrite ?core_log;
    reflexivity.
Qed.

Lemma toggleVideoStream_refused (now : N) (s : state) :
  captureInProgress (core s) = false ->
  core (toggleVideoStream now s) = core s.
Proof.
  intros H. unfold toggleVideoStream. rewrite H. apply core_log.
Qed.

(** X16.  A capture found at startup can be watched: the first
    [toggleVideoStream] shows the stream, from /video_feed? followed by
    the time, in place of the placeholder, and the second hides it again
    and empties its [src].  When the check found no capture and none was
    in progress, both toggles leave the page as it was. *)
Theorem stream_after_startup (reply : settled response) (now later : N)
    (s : state) :
  let s1 := checkCaptureStatus reply s in
  let s2 := toggleVideoStream now s1 in
  let s3 := toggleVideoStream later s2 in
  (found_capturing reply = true ->
   (isVideoStreamVisible (core s2), video_display (core s2),
    video_src (core s2), capture_ready_display (core s2))
     = (true, block, ("/video_feed?" ++ stamp now)%string, none) /\
   (isVideoStreamVisible (core s3), video_display (core s3),
    video_src (core s3), capture_ready_display (core s3))
     = (false, none, "", block)) /\
  (found_capturing reply = false -> captureInProgress (core s) = false ->
   core s2 = core s1 /\ core s3 = core s1).
Proof.
  cbv zeta. split.
  - intros Hf.
    pose proof (toggleVideoStream_view later
                  (toggleVideoStream now (checkCaptureStatus reply s)))
      as H3.
    pose proof (toggleVideoStream_view now (checkCaptureStatus reply s))
      as H2.
    rewrite H2 in H3. rewrite checkCaptureStatus_view, Hf in H2, H3.
    destruct (capture_view (core s))
      as [[[[[[c pr] v] t] sd] [[[td ncd] crd] vd]] [[src txt] ic]].
    cbv beta iota zeta in H2, H3.
    unfold capture_view in H2, H3.
    split.
    + injection H2 as _ _ E1 _ _ _ _ E2 E3 E4 _ _.
      now rewrite E1, E2, E3, E4.
    + injection H3 as _ _ E1 _ _ _ _ E2 E3 E4 _ _.
      now rewrite E1, E2, E3, E4.
  - intros Hf Hp.
    assert (H1 : captureInProgress (core (checkCaptureStatus reply s))
                 = false).
    { pose proof (checkCaptureStatus_view reply s) as V. rewrite Hf in V.
      unfold capture_view in V. injection V as _ E _ _ _ _ _ _ _ _ _ _.
      now rewrite E. }
    assert (E2 := toggleVideoStream_refused now _ H1).
    split; [exact E2|].
    rewrite toggleVideoStream_refused; [exact E2|]. now rewrite E2.
Qed.

(** *** Editing and removing a detection *)

Section ModalFacts.
Variable String_of : value -> string.

Lemma get_field (v : value) (k : string) (s : state) :
  readable v -> get v k s = (Normal (field v k), s).
Proof. intros [Hu Hn]. destruct v; try reflexivity; congruence. Qed.

Lemma find_detection_readable (detectionId : string) (items : list value)
    (s : state) :
  Forall readable items ->
  find_detection detectionId items s
    = (Normal (find (fun d => is_string (field d "id") detectionId) items),
       s).
Proof.
  induction 1 as [|d rest Hd _ IH]; [reflexivity|].
  cbn [find_detection find]. unfold bind at 1. rewrite (get_field _ _ _ Hd).
  destruct (is_string (field d "id") detectionId); [reflexivity|exact IH].
Qed.

Lemma is_string_eq (v : value) (t : string) :
  is_string v t = true -> v = VStr t.
Proof.
  destruct v; try discriminate. cbn. intros H.
  apply String.eqb_eq in H. now subst.
Qed.

Lemma editDetection_run (detectionId : string) (items : list value)
    (s : state) :
  detections (core s) = VArr items -> Forall readable items ->
  editDetection String_of detectionId s
    = match find (fun d => is_string (field d "id") detectionId) items with
      | Some d => showEditDetectionModal String_of d s
      | None => (Normal tt, log DetectionNotFound error_ s)
      end.
Proof.
  intros Hd Hall. unfold editDetection.
  unfold bind at 1. unfold gets at 1. rewrite Hd.
  unfold bind at 1. rewrite (find_detection_readable _ _ _ Hall).
  destruct (find _ items); reflexivity.
Qed.

(** X17.  [editDetection], called with the id that the edit button of a
    list item carries, opens the modal in edit mode for the first
    detection whose [id] is that very string: the id is kept as
    [editDetectionId], and the three controls get its name, phrase and
    webhook, empty when they are missing.  A detection whose [id] is not
    a string, a number say, is never found: the handler then writes its
    error line and changes nothing else. *)
Theorem editDetection_finds (detectionId : string) (items : list value)
    (s : state) :
  detections (core s) = VArr items -> Forall readable items ->
  let s' := snd (editDetection String_of detectionId s) in
  fst (editDetection String_of detectionId s) = Normal tt /\
  match find (fun d => is_string (field d "id") detectionId) items with
  | Some d =>
      field d "id" = VStr detectionId /\
      editDetectionId (core s') = VStr detectionId /\
      detection_name (core s')
        = text_of String_of (or_else (field d "name") (VStr "")) /\
      detection_phrase (core s')
        = text_of String_of (or_else (field d "phrase") (VStr "")) /\
      detection_webhook (core s')
        = text_of String_of (or_else (field d "webhook_url") (VStr "")) /\
      modal_shown (core s') = true /\
      modal_title s' = "Modifier une Détection" /\
      save_label s' = "Mettre à jour"
  | None => s' = log DetectionNotFound error_ s
  end /\
  ((forall d, In d items -> forall t, field d "id" <> VStr t) ->
   s' = log DetectionNotFound error_ s).
Proof.
  intros Hd Hall. cbv zeta. rewrite (editDetection_run _ _ _ Hd Hall).
  assert (Hfound : forall d,
            find (fun d => is_string (field d "id") detectionId) items
              = Some d ->
            In d items /\ field d "id" = VStr detectionId).
  { intros d H. apply find_some in H. destruct H as [Hin H].
    split; [exact Hin|]. now apply is_string_eq. }
  destruct (find _ items) as [d|].
  - destruct (Hfound d eq_refl) as [Hin Hid].
    assert (Hr : readable d)
      by (rewrite Forall_forall in Hall; now apply Hall).
    unfold showEditDetectionModal, bind.
    rewrite !(get_field _ _ _ Hr). unfold modify. cbn [fst snd].
    rewrite Hid.
    split; [reflexivity|]. split.
    + repeat split.
    + intros Hno. exfalso. exact (Hno d Hin detectionId Hid).
  - repeat split.
Qed.

End ModalFacts.

Lemma deletions_log m t s : deletions (log m t s) = deletions s.
Proof. unfold log. destruct (shouldLog _ _); reflexivity. Qed.

(** X18.  [removeDetection] does nothing when the confirmation is
    declined.  Otherwise it sends one DELETE for the id, and reloads the
    list exactly when the answer is ok with a body that
    [response.json()] can read; in every other case the page is as it
    was.  An answer without a JSON body, an ok one with an empty body
    say, is handed to [addLog] as a failed removal, and the list is not
    reloaded. *)
Theorem removeDetection_outcomes (confirmed : bool) (detectionId : string)
    (reply reload : settled response) (s : state) :
  let s' := removeDetection confirmed detectionId reply reload s in
  (confirmed = false -> s' = s) /\
  (confirmed = true ->
   deletions s' = deletions s ++ [detectionId] /\
   (answered_ok reply = true ->
    requests (core s') = requests (core s) ++ [list_request]) /\
   (answered_ok reply = false -> core s' = core s) /\
   (forall r e, reply = Fulfilled r -> json r = Rejected e ->
      s' = log (RemoveFailed e) error_ (delete detectionId s))).
Proof.
  cbv zeta. split; intros ->; [reflexivity|].
  unfold removeDetection, try_catch, try_catch_finally, answered_ok.
  cbn [negb].
  destruct reply as [r|e0];
    cbv beta iota zeta delta [bind modify await ret throw get fst snd].
  - destruct (json r) as [result|e1] eqn:Hj;
      cbv beta iota zeta delta [bind modify await ret throw get fst snd].
    + destruct (ok r);
        cbv beta iota zeta delta [bind modify await ret throw get fst snd
                                  andb].
      * rewrite deletions_log, core_log, core_on_core.
        split; [reflexivity|]. split; [|split].
        -- intros _. apply loadDetections_frame.
        -- discriminate.
        -- intros r' e' [= <-] Hj'. congruence.
      * assert (H : forall t : state,
                  deletions t = deletions s ++ [detectionId] ->
                  core t = core s ->
                  deletions t = deletions s ++ [detectionId] /\
                  (false = true ->
                   requests (core t) = requests (core s) ++ [list_request])
                  /\ (false = false -> core t = core s) /\
                  (forall r' e',
                     Fulfilled r = Fulfilled r' -> json r' = Rejected e' ->
                     t = log (RemoveFailed e') error_
                           (delete detectionId s))).
        { intros t Ht Hc. split; [exact Ht|]. split; [discriminate|].
          split; [intros _; exact Hc|]. intros r' e' [= <-] Hj'.
          congruence. }
        destruct result; apply H; rewrite ?deletions_log, ?core_log;
          reflexivity.
    + rewrite deletions_log, core_log. cbn [andb].
      destruct (ok r); cbn [andb].
      all: split; [reflexivity|]; split; [discriminate|];
        split; [reflexivity|].
      all: intros r' e' [= <-] Hj'; rewrite Hj in Hj'; injection Hj' as <-.
      all: reflexivity.
  - rewrite deletions_log, core_log.
    split; [reflexivity|]. split; [discriminate|]. split; [reflexivity|].
    discriminate.
Qed.

Section AddFacts.
Variable JSON_parse : string -> option value.

(** X19.  [showAddDetectionModal] leaves edit mode, whatever detection
    was being edited: the controls are empty, so a save right away is
    refused and sends nothing, and once a name and a phrase are typed
    the save creates a detection with a POST for /api/detections, not a
    PATCH for the detection edited before. *)
Theorem add_modal_leaves_edit_mode (env : detection_env)
    (name phrase : string) (s : state) :
  let s' := showAddDetectionModal s in
  let typed := set_detection_phrase phrase
                 (set_detection_name name (core s')) in
  editDetectionId (core s') = VNull /\
  modal_title s' = "Ajouter une Détection" /\
  save_label s' = "Sauvegarder" /\
  requests (saveDetection JSON_parse env (core s')) = requests (core s) /\
  (nonempty_s (trim name) = true -> nonempty_s (trim phrase) = true ->
   exists rest,
     requests (saveDetection JSON_parse env typed)
       = requests (core s)
         ++ create_request (trim name) (trim phrase) "" :: rest).
Proof.
  cbv zeta. split; [reflexivity|]. split; [reflexivity|].
  split; [reflexivity|]. split.
  - unfold saveDetection.
    replace (create_incomplete (core (showAddDetectionModal s))) with true
      by reflexivity.
    rewrite log_keeps_requests. reflexivity.
  - intros Hn Hp.
    destruct (saveDetection_sends JSON_parse env
                (set_detection_phrase phrase
                   (set_detection_name name
                      (core (showAddDetectionModal s)))))
      as [rest Hr].
    + unfold create_incomplete.
      replace (detection_name _) with name by reflexivity.
      replace (detection_phrase _) with phrase by reflexivity.
      rewrite Hn, Hp. apply andb_false_r.
    + reflexivity.
    + exists rest. rewrite Hr. reflexivity.
Qed.

End AddFacts.

(** *** Examples *)

(** Editing detection 7 with the three controls empty: the PATCH carries
    the webhook alone. *)
Lemma saveDetection_edit_witness :
  let env := replies (json_reply 200 (VObj [("success", VBool true)]))
                     (json_reply 200 (VArr [])) in
  let p := set_editDetectionId (VStr "7") (modal_with "" "" "") in
  exists rest,
    requests (saveDetection no_parse env p)
      = {| req_method := PATCH; req_url := "/api/detections/";
           req_id := Some (VStr "7");
           req_body := Some (VObj [("webhook_url", VStr "")]) |} :: rest.
Proof.
  cbv zeta.
  destruct (saveDetection_edit no_parse
              (replies (json_reply 200 (VObj [("success", VBool true)]))
                       (json_reply 200 (VArr [])))
              (set_editDetectionId (VStr "7") (modal_with "" "" ""))
              eq_refl eq_refl) as [rest H].
  exists rest. exact H.
Defined.

(** A list of one detection is shown; the error report of a 500 leaves
    the list empty; an object with the length 0 is an empty list. *)
Lemma loadDetections_bodies_witness :
  let items := [VObj [("id", VStr "7"); ("name", VStr "Porch")]] in
  detections_list (loadDetections (json_reply 200 (VArr items)) fresh_page)
    = items /\
  detections_list
    (loadDetections
       (json_reply 500 (VObj [("error", VStr "database locked")]))
       fresh_page) = [] /\
  console (loadDetections (json_reply 200 (VObj [("length", VNum 0)]))
             fresh_page)
    = [(console_log, DetectionsLoaded (VObj [("length", VNum 0)]))].
Proof.
  cbv zeta.
  destruct (loadDetections_bodies
              (json_reply 200
                 (VArr [VObj [("id", VStr "7"); ("name", VStr "Porch")]]))
              fresh_page) as (_ & _ & Harr & _).
  destruct (loadDetections_bodies
              (json_reply 500 (VObj [("error", VStr "database locked")]))
              fresh_page) as (_ & _ & _ & Hobj).
  destruct (loadDetections_bodies
              (json_reply 200 (VObj [("length", VNum 0)])) fresh_page)
    as (_ & _ & _ & Hzero).
  split; [|split].
  - refine (proj2 (Harr _ _ eq_refl eq_refl _)).
    repeat constructor; discriminate.
  - exact (proj1 (proj2 (Hobj _ _ eq_refl eq_refl))).
  - destruct (Hzero _ _ eq_refl eq_refl) as (_ & _ & H).
    exact (f_equal console H).
Defined.

(** A started capture: a 200 stops it, a 503 leaves the page as it
    was. *)
Lemma stopCapture_outcomes_witness :
  let started := startCapture
                   (rtsp_configured (json_reply 200 (VObj []))) fresh_page in
  capture_view (stopCapture (json_reply 200 (VObj [])) started)
    = (false, false, false, None, true, (none, block, none, none),
       ("", "Voir le flux live", "bi bi-eye")) /\
  capture_view (stopCapture (json_reply 503 (VObj [])) started)
    = capture_view started.
Proof.
  cbv zeta.
  destruct (stopCapture_outcomes (json_reply 200 (VObj []))
              (startCapture (rtsp_configured (json_reply 200 (VObj [])))
                 fresh_page)) as (_ & Hok & _).
  destruct (stopCapture_outcomes (json_reply 503 (VObj []))
              (startCapture (rtsp_configured (json_reply 200 (VObj [])))
                 fresh_page)) as (_ & _ & Hko).
  split.
  - exact (proj1 (Hok eq_refl)).
  - exact (Hko eq_refl).
Defined.

(** The start request is answered with a 500: flags and controls are as
    on the fresh page. *)
Lemma startCapture_outcomes_witness :
  capture_view
    (startCapture (rtsp_configured (json_reply 500 (VObj []))) fresh_page)
    = capture_view fresh_page.
Proof.
  destruct (startCapture_outcomes
              (rtsp_configured (json_reply 500 (VObj []))) fresh_page)
    as (_ & H & _).
  exact (H eq_refl).
Defined.

(** On the fresh page a capture reported at startup is marked as running;
    a failed fetch changes nothing. *)
Lemma checkCaptureStatus_outcomes_witness :
  let found := checkCaptureStatus
                 (json_reply 200 (VObj [("is_capturing", VBool true)]))
                 (around fresh_page) in
  capture_view (core found)
    = (true, true, false, None, false, (block, none, block, none),
       ("", "Voir le flux live", "bi bi-eye")) /\
  start_disabled (core found) = true /\
  capture_view
    (core (checkCaptureStatus (Rejected (NetworkError "Failed to fetch"))
             (around fresh_page)))
    = capture_view fresh_page.
Proof.
  cbv zeta.
  destruct (checkCaptureStatus_outcomes
              (json_reply 200 (VObj [("is_capturing", VBool true)]))
              (around fresh_page)) as (_ & Hyes & _).
  destruct (checkCaptureStatus_outcomes
              (Rejected (NetworkError "Failed to fetch"))
              (around fresh_page)) as (_ & _ & Hno).
  destruct (Hyes eq_refl) as [Hv Hs].
  split; [exact Hv|]. split; [exact Hs|exact (proj1 (Hno eq_refl))].
Defined.

(** With a capture found at startup the first toggle asks for
    /video_feed?1700000000000; with none found the toggle does nothing. *)
Lemma stream_after_startup_witness :
  let s1 := checkCaptureStatus
              (json_reply 200 (VObj [("is_capturing", VBool true)]))
              (around fresh_page) in
  video_src (core (toggleVideoStream 1700000000000 s1))
    = "/video_feed?1700000000000" /\
  let s0 := checkCaptureStatus
              (json_reply 200 (VObj [("is_capturing", VBool false)]))
              (around fresh_page) in
  core (toggleVideoStream 1700000000000 s0) = core s0.
Proof.
  cbv zeta.
  destruct (stream_after_startup
              (json_reply 200 (VObj [("is_capturing", VBool true)]))
              1700000000000 1700000005000 (around fresh_page))
    as [Hyes _].
  destruct (stream_after_startup
              (json_reply 200 (VObj [("is_capturing", VBool false)]))
              1700000000000 1700000005000 (around fresh_page))
    as [_ Hno].
  split.
  - destruct (Hyes eq_refl) as [H _].
    exact (f_equal (fun v => snd (fst v)) H).
  - exact (proj1 (Hno eq_refl eq_refl)).
Defined.

(** The list holds a detection with the number 7 as its id and one with
    the string: the edit button for "7" opens the second. *)
Lemma editDetection_finds_witness :
  let listed := VArr [VObj [("id", VNum 7); ("name", VStr "Hall")];
                      VObj [("id", VStr "7"); ("name", VStr "Porch");
                            ("phrase", VStr "a person at the door")]] in
  let s := around (set_detections listed fresh_page) in
  detection_name (core (snd (editDetection no_text "7" s))) = "Porch" /\
  editDetectionId (core (snd (editDetection no_text "7" s))) = VStr "7" /\
  detection_webhook (core (snd (editDetection no_text "7" s))) = "".
Proof.
  cbv zeta.
  destruct (editDetection_finds no_text "7"
              [VObj [("id", VNum 7); ("name", VStr "Hall")];
               VObj [("id", VStr "7"); ("name", VStr "Porch");
                     ("phrase", VStr "a person at the door")]]
              (around
                 (set_detections
                    (VArr [VObj [("id", VNum 7); ("name", VStr "Hall")];
                           VObj [("id", VStr "7"); ("name", VStr "Porch");
                                 ("phrase", VStr "a person at the door")]])
                    fresh_page))
              eq_refl
              ltac:(repeat constructor; discriminate))
    as (_ & H & _).
  cbn in H. destruct H as (_ & Hid & Hn & _ & Hw & _).
  split; [exact Hn|]. split; [exact Hid|exact Hw].
Defined.

(** The DELETE is answered with 204 and no body: the removal is
    reported as failed and the list is not loaded again. *)
Lemma removeDetection_outcomes_witness :
  let no_content :=
    Fulfilled {| ok := true; status := 204; statusText := "No Content";
                 content_type := None;
                 json := Rejected (SyntaxError "Unexpected end of JSON input");
                 text := Fulfilled "" |} in
  let s' := removeDetection true "7" no_content (json_reply 200 (VArr []))
              (around fresh_page) in
  deletions s' = ["7"] /\ core s' = fresh_page /\
  s' = log (RemoveFailed (SyntaxError "Unexpected end of JSON input")) error_
         (delete "7" (around fresh_page)).
Proof.
  cbv zeta.
  destruct (removeDetection_outcomes true "7"
              (Fulfilled
                 {| ok := true; status := 204; statusText := "No Content";
                    content_type := None;
                    json := Rejected
                              (SyntaxError "Unexpected end of JSON input");
                    text := Fulfilled "" |})
              (json_reply 200 (VArr [])) (around fresh_page))
    as [_ H].
  destruct (H eq_refl) as (Hd & _ & Hcore & Hline).
  split; [exact Hd|]. split; [exact (Hcore eq_refl)|].
  exact (Hline _ _ eq_refl eq_refl).
Defined.

(** Detection 7 is being edited when the add button is pressed: the
    next save is a POST with the name and the phrase typed. *)
Lemma add_modal_leaves_edit_mode_witness :
  let env := replies (json_reply 200 (VObj [("success", VBool true)]))
                     (json_reply 200 (VArr [])) in
  let editing := around (set_editDetectionId (VStr "7")
                           (modal_with "Porch" "a person" "")) in
  let typed := set_detection_phrase "a cat on the sofa"
                 (set_detection_name "Sofa"
                    (core (showAddDetectionModal editing))) in
  exists rest,
    requests (saveDetection no_parse env typed)
      = create_request "Sofa" "a cat on the sofa" "" :: rest.
Proof.
  cbv zeta.
  destruct (add_modal_leaves_edit_mode no_parse
              (replies (json_reply 200 (VObj [("success", VBool true)]))
                       (json_reply 200 (VArr [])))
              "Sofa" "a cat on the sofa"
              (around (set_editDetectionId (VStr "7")
                         (modal_with "Porch" "a person" ""))))
    as (_ & _ & _ & _ & H).
  destruct (H eq_refl eq_refl) as [rest Hr].
  exists rest. exact Hr.
Defined.
End AppMoreFacts.

(** ** IActionApp: the multi-camera capture *)

Module MultiFacts.
Import JS JSMore Multi.

(** *** Frames *)

Lemma multi_addLog_view m t p : view (addLog m t p) = view p.
Proof. unfold addLog. destruct (shouldLog _ _); reflexivity. Qed.

Lemma addLog_stored m t p :
  additional_cameras (addLog m t p) = additional_cameras p.
Proof. unfold addLog. destruct (shouldLog _ _); reflexivity. Qed.

Lemma addLog_kept m t p : stored (addLog m t p) = stored p.
Proof. unfold stored. now rewrite addLog_stored. Qed.

Lemma multi_console_line_view c m p : view (console_line c m p) = view p.
Proof. reflexivity. Qed.

Lemma multi_send_view r p :
  view (send r p)
    = let '(rq, a, b, g, m, c) := view p in (rq ++ [r], a, b, g, m, c).
Proof. reflexivity. Qed.

Lemma start_button_view f p :
  view (with_start_button f p)
    = let '(rq, a, b, g, m, c) := view p in (rq, f a, b, g, m, c).
Proof. reflexivity. Qed.

Lemma stop_button_view f p :
  view (with_stop_button f p)
    = let '(rq, a, b, g, m, c) := view p in (rq, a, f b, g, m, c).
Proof. reflexivity. Qed.

Lemma grid_view f p :
  view (with_grid f p)
    = let '(rq, a, b, g, m, c) := view p in (rq, a, b, f g, m, c).
Proof. reflexivity. Qed.

Lemma main_view f p :
  view (with_main f p)
    = let '(rq, a, b, g, m, c) := view p in (rq, a, b, g, f m, c).
Proof. reflexivity. Qed.

Lemma camerasConfig_view v p :
  view (with_camerasConfig v p)
    = let '(rq, a, b, g, m, _) := view p in (rq, a, b, g, m, v).
Proof. reflexivity. Qed.

(** The main camera as [resetCamerasGrid] leaves it. *)
Lemma resetCamerasGrid_view p :
  view (resetCamerasGrid p)
    = let '(rq, a, b, _, m, c) := view p in
      (rq, a, b, [],
       {| status_text := VStr "Arrêtée"; status_active := false;
          main_toggle_display := App.none; main_icon := main_icon m;
          main_no_capture := App.block; main_ready := App.none;
          main_ready_text := main_ready_text m;
          main_stream_display := App.none; main_stream_src := "" |}, c).
Proof.
  unfold resetCamerasGrid. cbv zeta.
  rewrite multi_addLog_view, main_view, main_view, grid_view, !multi_addLog_view.
  reflexivity.
Qed.

Lemma loadCamerasConfiguration_view p :
  view (loadCamerasConfiguration p)
    = let '(rq, a, b, g, m, _) := view p in
      (rq, a, b, g, m, map Admin.camera_to_test (stored p)).
Proof.
  unfold loadCamerasConfiguration, stored. cbv zeta. rewrite multi_addLog_view.
  destruct (additional_cameras p); reflexivity.
Qed.

Create Rewrite HintDb multi.
#[local] Hint Rewrite multi_addLog_view multi_console_line_view
  multi_send_view
  start_button_view stop_button_view grid_view main_view camerasConfig_view
  resetCamerasGrid_view loadCamerasConfiguration_view addLog_kept : multi.

(** The components of the view. *)
Lemma view_parts p :
  requests p = fst (fst (fst (fst (fst (view p))))) /\
  start_button p = snd (fst (fst (fst (fst (view p))))) /\
  stop_button p = snd (fst (fst (fst (view p)))) /\
  grid p = snd (fst (fst (view p))) /\
  main p = snd (fst (view p)) /\
  camerasConfig p = snd (view p).
Proof. repeat split. Qed.

Ltac to_view :=
  repeat match goal with
         | |- context [requests ?q] =>
             lazymatch q with
             | context [view] => fail
             | _ => rewrite (proj1 (view_parts q))
             end
         | |- context [start_button ?q] =>
             rewrite (proj1 (proj2 (view_parts q)))
         | |- context [stop_button ?q] =>
             rewrite (proj1 (proj2 (proj2 (view_parts q))))
         | |- context [grid ?q] =>
             rewrite (proj1 (proj2 (proj2 (proj2 (view_parts q)))))
         | |- context [main ?q] =>
             rewrite (proj1 (proj2 (proj2 (proj2 (proj2 (view_parts q))))))
         | |- context [camerasConfig ?q] =>
             rewrite (proj2 (proj2 (proj2 (proj2 (proj2 (view_parts q))))))
         end.

Ltac multi_simpl :=
  to_view; autorewrite with multi;
  cbv beta iota zeta delta [view fst snd label disable btn_disabled btn_busy].

Section GridFacts.
Variable String_of : value -> string.

(** X20.  [stopMultiCapture] sends one request and, on every path, ends
    with the start button enabled, the stop button disabled and both
    labels idle: also when the back end refuses to stop or the request
    fails.  The grid is emptied and the main camera shown as stopped
    exactly when the answer is ok with a truthy [success]; otherwise the
    tiles and the main camera are as they were. *)
Theorem stopMultiCapture_buttons (reply : settled response) (p : page) :
  let p' := stopMultiCapture reply p in
  requests p' = requests p ++ [StopAll] /\
  start_button p' = idle_enabled /\
  stop_button p' = idle_disabled /\
  (stop_confirmed reply = true ->
   grid p' = [] /\ status_active (main p') = false /\
   status_text (main p') = VStr "Arrêtée" /\
   main_stream_display (main p') = App.none /\
   main_stream_src (main p') = "") /\
  (stop_confirmed reply = false -> grid p' = grid p /\ main p' = main p).
Proof.
  cbv zeta. unfold stopMultiCapture, try_catch_finally, stop_confirmed,
    reports_success, idle_enabled, idle_disabled.
  repeat exec_step_lit.
  all: multi_simpl.
  all: (split; [reflexivity|]); (split; [reflexivity|]);
    (split; [reflexivity|]).
  all: split; intros H; rewrite ?andb_false_r in H; try discriminate H.
  all: try (split; reflexivity).
  repeat split.
Qed.


(** *** The results of a start *)

Lemma get_readable (v : value) (k : string) (p : page) :
  readable v -> get v k p = (Normal (field v k), p).
Proof. intros [Hu Hn]. destruct v; try reflexivity; congruence. Qed.

Lemma place_results_readable (items : list value) :
  Forall readable items ->
  forall p, exists p',
    place_results String_of items p = (Normal tt, p') /\
    view p' = (let '(rq, a, b, g, m, c) := view p in
               (rq, a, b, g ++ tiles_of String_of items,
                main_after items m, c)).
Proof.
  induction 1 as [|r rest Hr _ IH]; intros p.
  - exists p. split; [reflexivity|].
    unfold view, tiles_of. cbn. now rewrite List.app_nil_r.
  - cbn [place_results]. unfold bind at 1. rewrite (get_readable _ _ _ Hr).
    unfold tiles_of, main_after, is_main. cbn [filter map fold_left].
    destruct (is_string (field r "camera_id") "main") eqn:Hm.
    + unfold bind at 1. unfold bind at 1. rewrite (get_readable _ _ _ Hr).
      unfold bind at 1. rewrite (get_readable _ _ _ Hr).
      unfold modify at 1.
      destruct (IH (with_main
                      (updateMainCameraStatus (field r "success")
                         (field r "message")) p)) as [p' [E V]].
      exists p'. split; [exact E|].
      rewrite V, main_view. unfold view. reflexivity.
    + unfold bind at 1. unfold addCameraToGrid, bind at 1.
      rewrite (get_readable _ _ _ Hr). unfold modify at 1.
      destruct (IH (with_grid
                      (fun g => g ++ [new_tile String_of r
                                        (field r "camera_id")]) p))
        as [p' [E V]].
      exists p'. split; [exact E|].
      rewrite V, grid_view. unfold view. cbn [negb map].
      now rewrite <- List.app_assoc.
Qed.

Lemma count_started_readable (items : list value) (p : page) :
  Forall readable items ->
  exists k, count_successes items p = (Normal k, p).
Proof.
  induction 1 as [|r rest Hr _ [k IH]].
  - now exists 0.
  - cbn [count_successes]. unfold bind at 1.
    rewrite (get_readable _ _ _ Hr). unfold bind at 1. rewrite IH.
    eexists. reflexivity.
Qed.


Lemma place_results_frame (items : list value) (p : page) :
  let q := snd (place_results String_of items p) in
  requests q = requests p /\ start_button q = start_button p /\
  stop_button q = stop_button p.
Proof.
  revert p. induction items as [|r rest IH]; intros p; [repeat split|].
  cbn [place_results]. unfold addCameraToGrid.
  cbv beta iota zeta delta [bind modify ret throw get fst snd].
  destruct r; try (repeat split; fail).
  all: repeat match goal with
         | |- context [if ?b then _ else _] => destruct b
         | |- context [match ?x with VUndefined => _ | _ => _ end] =>
             destruct x
         end.
  all: try (repeat split; fail).
  all: match goal with
       | |- context [place_results _ ?l ?q] =>
           specialize (IH q); cbv zeta in IH;
           destruct (place_results String_of l q) as [[[]|e|] q']
       end.
  all: exact IH.
Qed.

Lemma count_successes_state (items : list value) (p : page) :
  snd (count_successes items p) = p.
Proof.
  induction items as [|r rest IH]; [reflexivity|].
  cbn [count_successes]. cbv beta iota zeta delta [bind ret throw get].
  destruct r; try reflexivity.
  all: destruct (count_successes rest p) as [[k|e|] s']; cbn [snd] in *;
    subst; reflexivity.
Qed.

Lemma tiles_of_hidden (items : list value) :
  Forall tile_hidden (tiles_of String_of items).
Proof.
  unfold tiles_of. apply Forall_forall. intros t Ht.
  apply in_map_iff in Ht. destruct Ht as [r [<- _]]. split; reflexivity.
Qed.

(** X21.  [startMultiCapture] sends one request, whose cameras are the
    main camera followed by the stored descriptors in the form that the
    admin page tests them in, and ends on every path with the start
    button enabled and its label idle: also after a successful start.
    Unless the body reports success the stop button, the tiles and the
    main camera are as they were; when it does and every result can be
    read, the stop button is enabled, the grid holds one hidden tile for
    each result that is not the main camera's, in order, and the main
    camera shows its results. *)
Theorem startMultiCapture_outcomes (reply : settled response) (p : page) :
  let p' := startMultiCapture String_of reply p in
  requests p'
    = requests p
      ++ [StartMultiple (main_config :: map Admin.camera_to_test (stored p))]
  /\ start_button p' = idle_enabled
  /\ (reports_success reply = false ->
      stop_button p' = stop_button p /\ grid p' = grid p /\
      main p' = main p)
  /\ (forall r fields items,
        reply = Fulfilled r -> json r = Fulfilled (VObj fields) ->
        truthy (lookup "success" fields) = true ->
        lookup "results" fields = VArr items ->
        Forall readable items ->
        stop_button p' = disable false (stop_button p) /\
        grid p' = tiles_of String_of items /\
        Forall tile_hidden (grid p') /\
        main p' = main_after items (main p)).
Proof.
  cbv zeta.
  assert (Hframe :
    requests (startMultiCapture String_of reply p)
      = requests p
        ++ [StartMultiple
              (main_config :: map Admin.camera_to_test (stored p))] /\
    start_button (startMultiCapture String_of reply p) = idle_enabled).
  { unfold startMultiCapture, try_catch_finally, setupCamerasGrid,
      idle_enabled.
    repeat exec_step_lit.
    all: try match goal with
           | |- context [place_results _ ?i ?q] =>
               let F := fresh "F" in
               pose proof (place_results_frame i q) as F; cbv zeta in F;
               destruct (place_results String_of i q) as [[[]|e|] q'];
               cbn [snd] in F; destruct F as [F1 [F2 F3]]
           end.
    all: repeat exec_step_lit.
    all: try match goal with
           | |- context [count_successes ?i ?q] =>
               let F := fresh "F" in
               pose proof (count_successes_state i q) as F;
               destruct (count_successes i q) as [[k|e|] q''];
               cbn [snd] in F; subst q''
           end.
    all: repeat exec_step_lit.
    all: multi_simpl.
    all: try rewrite F1.
    all: multi_simpl.
    all: split; reflexivity. }
  destruct Hframe as [Hrq Hstart].
  split; [exact Hrq|]. split; [exact Hstart|]. clear Hrq Hstart.
  split.
  - unfold startMultiCapture, try_catch_finally, reports_success.
    repeat exec_step_lit.
    all: intros H; try discriminate H.
    all: multi_simpl.
    all: repeat split.
  - intros r fields items -> Hj Hs Hr Hall.
    unfold startMultiCapture, try_catch_finally, setupCamerasGrid.
    repeat (cbv beta iota zeta delta
              [bind modify ret throw leave await get gets fst snd];
            first [ rewrite Hj | rewrite Hs | rewrite Hr
                  | match goal with
                    | |- context [if Nat.eqb ?a ?b then _ else _] =>
                        destruct (Nat.eqb a b)
                    end ]).
    all: match goal with
         | |- context [place_results _ ?i ?q] =>
             destruct (place_results_readable i Hall q) as [p' [E V]];
             rewrite E
         end.
    all: cbv beta iota zeta delta
              [bind modify ret throw leave await get gets fst snd].
    all: match goal with
         | |- context [count_successes ?i ?q] =>
             destruct (count_started_readable i q Hall) as [k Ek];
             rewrite Ek
         end.
    all: to_view; autorewrite with multi; rewrite V; autorewrite with multi.
    all: cbv beta iota zeta delta [view fst snd label].
    all: rewrite ?app_nil_l.
    all: repeat split; try reflexivity; apply tiles_of_hidden.
Qed.

End GridFacts.

(** *** Examples *)

(** A confirmed stop empties the grid; a 500 leaves the main camera as
    it was, though its body says success. *)
Lemma stopMultiCapture_buttons_witness :
  grid (stopMultiCapture
          (App.json_reply 200 (VObj [("success", VBool true)]))
          fresh_page) = [] /\
  main (stopMultiCapture
          (App.json_reply 500 (VObj [("success", VBool true)]))
          fresh_page) = main fresh_page.
Proof.
  destruct (stopMultiCapture_buttons
              (App.json_reply 200 (VObj [("success", VBool true)]))
              fresh_page) as (_ & _ & _ & Hyes & _).
  destruct (stopMultiCapture_buttons
              (App.json_reply 500 (VObj [("success", VBool true)]))
              fresh_page) as (_ & _ & _ & _ & Hno).
  split; [exact (proj1 (Hyes eq_refl))|exact (proj2 (Hno eq_refl))].
Defined.

(** The main camera started and camera_1 did not: one tile, the main
    camera active, and both buttons enabled. *)
Lemma startMultiCapture_outcomes_witness :
  let results := [VObj [("camera_id", VStr "main"); ("success", VBool true);
                        ("message", VStr "ok")];
                  VObj [("camera_id", VStr "camera_1");
                        ("success", VBool false)]] in
  let p' := startMultiCapture no_text
              (App.json_reply 200 (VObj [("success", VBool true);
                                         ("results", VArr results)]))
              fresh_page in
  map tile_id (grid p') = ["camera_1"] /\
  status_active (main p') = true /\
  btn_disabled (stop_button p') = false /\
  btn_disabled (start_button p') = false.
Proof.
  cbv zeta.
  destruct (startMultiCapture_outcomes no_text
              (App.json_reply 200
                 (VObj [("success", VBool true);
                        ("results",
                         VArr [VObj [("camera_id", VStr "main");
                                     ("success", VBool true);
                                     ("message", VStr "ok")];
                               VObj [("camera_id", VStr "camera_1");
                                     ("success", VBool false)]])]))
              fresh_page) as (_ & Hstart & _ & H).
  destruct (H _ _ _ eq_refl eq_refl eq_refl eq_refl
              ltac:(repeat constructor; discriminate))
    as (Hstop & Hgrid & _ & Hmain).
  rewrite Hgrid, Hmain, Hstop, Hstart. repeat split.
Defined.
End MultiFacts.

(** ** The log level *)

Module LogLevelFacts.
Import JS LogLevel.

Lemma lower_char_idem (c : ascii) : lower_char (lower_char c) = lower_char c.
Proof.
  destruct c as [[] [] [] [] [] [] [] []]; vm_compute; reflexivity.
Qed.

Lemma toLowerCase_idem (s : string) :
  toLowerCase (toLowerCase s) = toLowerCase s.
Proof.
  induction s as [|c s IH]; [reflexivity|].
  cbn [toLowerCase]. now rewrite lower_char_idem, IH.
Qed.

Lemma own_level_name (k : string) (l : level) :
  own_level k = Some l -> k = name_of l.
Proof.
  unfold own_level.
  repeat match goal with
         | |- context [String.eqb k ?t] =>
             destruct (String.eqb_spec k t) as [->|_];
             [intros [= <-]; reflexivity|]
         end.
  discriminate.
Qed.

Lemma own_level_of_name (l : level) : own_level (name_of l) = Some l.
Proof. destruct l; reflexivity. Qed.

(** Of the inherited names, a lowered string can only be one of the two
    that have no capital. *)
Lemma lowered_in_logLevels (x : string) :
  in_logLevels (toLowerCase x) = true ->
  (exists l, toLowerCase x = name_of l) \/
  toLowerCase x = "constructor" \/ toLowerCase x = "__proto__".
Proof.
  unfold in_logLevels.
  destruct (own_level (toLowerCase x)) as [l|] eqn:Hown.
  - intros _. left. exists l. now apply own_level_name.
  - intros H. right. unfold inherited in H. cbn [existsb] in H.
    pose proof (toLowerCase_idem x) as Hidem.
    repeat match type of H with
           | (String.eqb _ ?t || _)%bool = true =>
               apply orb_true_iff in H; destruct H as [H|H];
               [apply String.eqb_eq in H;
                first [ left; exact H | right; exact H
                      | rewrite H in Hidem; vm_compute in Hidem;
                        discriminate Hidem ]|]
           end.
    discriminate H.
Qed.

Lemma silent_prototype_name (k : string) :
  k = "constructor" \/ k = "__proto__" -> silent k.
Proof. intros [->| ->] type; reflexivity. Qed.

Lemma shouldLog_name (l type : level) :
  shouldLog (name_of l) type = JS.shouldLog l type.
Proof. unfold shouldLog. rewrite own_level_of_name. reflexivity. Qed.

Lemma level_cases (k : string) :
  (exists l, k = name_of l) \/ k = "constructor" \/ k = "__proto__" ->
  (exists l, k = name_of l /\
             forall type, shouldLog k type = JS.shouldLog l type) \/
  ((k = "constructor" \/ k = "__proto__") /\ silent k).
Proof.
  intros [[l ->]|H].
  - left. exists l. split; [reflexivity|]. apply shouldLog_name.
  - right. split; [exact H|]. now apply silent_prototype_name.
Qed.

(** The level that the last two statements of the [try] block give. *)
Lemma stored_level (saved : option string) :
  let stored := toLowerCase (string_or saved "info") in
  let k := if in_logLevels stored then stored else "info" in
  (exists l, k = name_of l) \/ k = "constructor" \/ k = "__proto__".
Proof.
  cbv zeta.
  destruct (in_logLevels (toLowerCase (string_or saved "info"))) eqn:Hin.
  - now apply lowered_in_logLevels.
  - left. now exists info.
Qed.

(** X22.  Whatever the query string and the storage hold,
    [initLogLevelFromUrl] leaves [this.logLevel] either one of the five
    level names, and then [shouldLog] compares the ranks of the two
    levels, or one of the names "constructor" and "__proto__", which
    [in] finds on the prototype of [logLevels]: with these [shouldLog]
    is false for every type, errors included. *)
Theorem initLogLevelFromUrl_levels (param : option string)
    (st : option storage) :
  let logLevel := fst (initLogLevelFromUrl param st) in
  (exists l, logLevel = name_of l /\
             forall type, shouldLog logLevel type = JS.shouldLog l type) \/
  ((logLevel = "constructor" \/ logLevel = "__proto__") /\ silent logLevel).
Proof.
  cbv zeta. apply level_cases. unfold initLogLevelFromUrl.
  cbv beta iota zeta delta [bind ret].
  assert (Hinfo : (exists l, "info" = name_of l) \/
                  "info" = "constructor" \/ "info" = "__proto__")
    by (left; now exists info).
  assert (Hrest : forall st0 : option storage,
            let k := fst (match getItem st0 with
                          | (Normal saved, s') =>
                              (Normal
                                 (if in_logLevels
                                       (toLowerCase (string_or saved "info"))
                                  then toLowerCase (string_or saved "info")
                                  else "info"), s')
                          | (Thrown e, s') => (Thrown e, s')
                          | (Returned, s') => (Returned, s')
                          end) in
            match k with
            | Normal logLevel =>
                (exists l, logLevel = name_of l) \/
                logLevel = "constructor" \/ logLevel = "__proto__"
            | _ => True
            end).
  { intros [s|]; cbn; [apply stored_level|exact I]. }
  destruct param as [v|].
  - destruct (in_logLevels (toLowerCase (string_or (Some v) ""))).
    + unfold setItem. destruct st as [s|]; [|exact Hinfo].
      destruct (writable s); [|exact Hinfo].
      cbn [getItem item fst]. apply stored_level.
    + specialize (Hrest st). cbv zeta in Hrest.
      destruct (getItem st) as [[saved|e|] s']; cbn [fst] in *;
        [exact Hrest|exact Hinfo|exact Hinfo].
  - specialize (Hrest st). cbv zeta in Hrest.
    destruct (getItem st) as [[saved|e|] s']; cbn [fst] in *;
      [exact Hrest|exact Hinfo|exact Hinfo].
Qed.

(** X23.  A page opened with ?log=constructor (or __proto__, in any
    case of the letters) and a storage that can be written to keeps that
    name as its level, which silences every line; the name is stored, so
    the next page load without the parameter is silent as well. *)
Theorem prototype_name_silences (v : string) (s : storage) :
  toLowerCase v = "constructor" \/ toLowerCase v = "__proto__" ->
  writable s = true ->
  let logLevel := fst (initLogLevelFromUrl (Some v) (Some s)) in
  let st' := snd (initLogLevelFromUrl (Some v) (Some s)) in
  logLevel = toLowerCase v /\ silent logLevel /\
  fst (initLogLevelFromUrl None st') = logLevel.
Proof.
  intros Hv Hw. cbv zeta.
  assert (Hne : v <> "") by (intros ->; destruct Hv; discriminate).
  assert (Hs : string_or (Some v) "" = v).
  { unfold string_or, nonempty_s.
    destruct (String.eqb_spec v ""); [contradiction|reflexivity]. }
  assert (E : initLogLevelFromUrl (Some v) (Some s)
              = (toLowerCase v,
                 Some {| item := Some (toLowerCase v); writable := true |})).
  { unfold initLogLevelFromUrl. rewrite Hs.
    cbv beta iota zeta delta [bind ret].
    destruct Hv as [-> | ->]; cbn; rewrite Hw; reflexivity. }
  rewrite E. cbn [fst snd].
  split; [reflexivity|]. split; [now apply silent_prototype_name|].
  destruct Hv as [-> | ->]; reflexivity.
Qed.

(** ?log=Constructor on a page that logged at the level debug. *)
Lemma prototype_name_silences_witness :
  fst (initLogLevelFromUrl (Some "Constructor")
         (Some {| item := Some "debug"; writable := true |}))
    = "constructor" /\
  silent "constructor" /\
  fst (initLogLevelFromUrl None
         (snd (initLogLevelFromUrl (Some "Constructor")
                 (Some {| item := Some "debug"; writable := true |}))))
    = "constructor".
Proof.
  exact (prototype_name_silences "Constructor"
           {| item := Some "debug"; writable := true |}
           (or_introl eq_refl) eq_refl).
Defined.
End LogLevelFacts.
